(** * MCBBall: the player model and the Monte Carlo period simulator

    A shallow embedding of [lib/player.py] (class [Player]) and
    [lib/mcbball.py] (class [MCBBall]), together with the parts of the two
    data providers that shape what the simulator receives
    ([GDPlayerBDL.get_stats], [GDScheduleBDL.get_num_games]), and of the
    league provider that builds the rosters ([YahooFantasy]).

    Modelling choices, all local to this file:
    - a Python [float] is an exact rational or [NaN]; rounding is not
      modelled, the propagation of NaN is;
    - a Python [dict] is an insertion-ordered association list;
    - a pandas [DataFrame] is a list of column labels and a list of rows
      (its index is never read by the code and is left out);
    - an exception is a value of [exn]; a method that can raise returns a
      [result];
    - the random sources ([random.gauss], [DataFrame.sample]) and the
      [warnings] module live in a [World] that is threaded through every
      call that draws or warns. *)

From Stdlib Require Import List String Ascii Bool Arith ZArith QArith Qreduction Lia.
From Stdlib Require Qcanon.
Import ListNotations.

Local Open Scope string_scope.
Local Open Scope list_scope.

(* ===================================================================== *)
(** ** Python values *)
(* ===================================================================== *)

(** Exceptions the code raises itself or receives from Python and pandas.
    Texts of the library's own messages are shortened. *)
Inductive exn : Type :=
| ValueError (msg : string)
| KeyError (key : string)
| TypeError (msg : string)
| IndexError (msg : string).

Inductive result (A : Type) : Type :=
| Ok (a : A)
| Raise (e : exn).
Arguments Ok {A} a.
Arguments Raise {A} e.

Definition is_ValueError {A} (r : result A) : bool :=
  match r with Raise (ValueError _) => true | _ => false end.

(** A float: a rational kept in lowest terms, or NaN. *)
Inductive pyfloat : Type :=
| NaN
| F (q : Q).

Definition fadd (a b : pyfloat) : pyfloat :=
  match a, b with
  | F x, F y => F (Qplus' x y)
  | _, _ => NaN
  end.

Definition fmul (a b : pyfloat) : pyfloat :=
  match a, b with
  | F x, F y => F (Qmult' x y)
  | _, _ => NaN
  end.

(** [x != 0] on a float: NaN differs from every number. *)
Definition fne0 (a : pyfloat) : bool :=
  match a with
  | NaN => true
  | F x => negb (Qeq_bool x 0)
  end.

Definition of_nat (n : nat) : pyfloat := F (inject_Z (Z.of_nat n)).

(** [~b] on a Python bool: bool is a subclass of int, so [~True] is [-2]
    and [~False] is [-1]. *)
Definition py_invert (b : bool) : Z := Z.lnot (Z.b2z b).

(** Truth value of an int. *)
Definition truthy (z : Z) : bool := negb (z =? 0)%Z.

(* ===================================================================== *)
(** ** dict: insertion-ordered association list *)
(* ===================================================================== *)

Definition dict (V : Type) : Type := list (string * V).

Definition dict_keys {V} (d : dict V) : list string := map fst d.

Fixpoint dict_get {V} (d : dict V) (k : string) : option V :=
  match d with
  | [] => None
  | (k', v) :: d' => if String.eqb k k' then Some v else dict_get d' k
  end.

(** [d[k] = v]: overwrite in place, or append a new entry. *)
Fixpoint dict_set {V} (d : dict V) (k : string) (v : V) : dict V :=
  match d with
  | [] => [(k, v)]
  | (k', v') :: d' =>
      if String.eqb k k' then (k', v) :: d' else (k', v') :: dict_set d' k v
  end.

(** [d[k]], raising KeyError when the key is absent. *)
Definition dict_item {V} (d : dict V) (k : string) : result V :=
  match dict_get d k with
  | Some v => Ok v
  | None => Raise (KeyError k)
  end.

(** A dict built by Python never holds a key twice. *)
Definition wf_dict {V} (d : dict V) : Prop := NoDup (dict_keys d).

Definition mem (k : string) (l : list string) : bool :=
  existsb (String.eqb k) l.

(** [a == b] on two [dict.keys()] views: equal sizes and every key of [a]
    in [b] (the set-like comparison of dict views). *)
Definition keys_eq (a b : list string) : bool :=
  (List.length a =? List.length b)%nat && forallb (fun k => mem k b) a.

(** [set(a).issuperset(set(b))] *)
Definition issuperset (a b : list string) : bool :=
  forallb (fun k => mem k a) b.

(** The truthiness of a dict-or-None attribute: None and {} are false. *)
Definition dict_truthy {V} (d : option (dict V)) : bool :=
  match d with
  | Some (_ :: _) => true
  | _ => false
  end.

(* ===================================================================== *)
(** ** DataFrame *)
(* ===================================================================== *)

Record DataFrame : Type := mkDataFrame {
  columns : list string;
  rows : list (list pyfloat)
}.

(** Every row has one cell per column, and labels are distinct. *)
Definition wf_frame (df : DataFrame) : Prop :=
  NoDup (columns df) /\
  Forall (fun r => List.length r = List.length (columns df)) (rows df).

(** Position of a label among the columns. *)
Fixpoint col_index (cols : list string) (c : string) : option nat :=
  match cols with
  | [] => None
  | c' :: cols' =>
      if String.eqb c c' then Some O
      else option_map S (col_index cols' c)
  end.

Definition cell (r : list pyfloat) (j : nat) : pyfloat := nth j r NaN.

(** [df[c]]: one column as a Series (here the list of its values). *)
Definition df_col (df : DataFrame) (c : string) : result (list pyfloat) :=
  match col_index (columns df) c with
  | Some j => Ok (map (fun r => cell r j) (rows df))
  | None => Raise (KeyError c)
  end.

(** [(df != 0).any(axis=1)]: per row, is some cell different from zero. *)
Definition ne0_any_axis1 (df : DataFrame) : list bool :=
  map (existsb fne0) (rows df).

(** [df.loc[mask]] for a boolean mask aligned with the rows. *)
Fixpoint select_rows {A} (rs : list A) (mask : list bool) : list A :=
  match rs, mask with
  | r :: rs', b :: mask' =>
      if b then r :: select_rows rs' mask' else select_rows rs' mask'
  | _, _ => []
  end.

Definition df_loc (df : DataFrame) (mask : list bool) : DataFrame :=
  mkDataFrame (columns df) (select_rows (rows df) mask).

(** Series reductions skip NaN (pandas' default [skipna=True]). *)
Fixpoint finite_values (xs : list pyfloat) : list Q :=
  match xs with
  | [] => []
  | NaN :: xs' => finite_values xs'
  | F q :: xs' => q :: finite_values xs'
  end.

Definition Qsum (qs : list Q) : Q := fold_left Qplus' qs 0%Q.

(** [Series.sum()]: zero for an empty or all-NaN Series. *)
Definition series_sum (xs : list pyfloat) : pyfloat :=
  F (Qsum (finite_values xs)).

Definition Qcount (qs : list Q) : Q := inject_Z (Z.of_nat (List.length qs)).

(** [Series.mean()]: NaN when nothing is left to average. *)
Definition series_mean (xs : list pyfloat) : pyfloat :=
  let qs := finite_values xs in
  match qs with
  | [] => NaN
  | _ => F (Qred (Qsum qs / Qcount qs))
  end.

(** Sum of squared deviations from the mean [avg]. *)
Definition Qssd (avg : Q) (qs : list Q) : Q :=
  Qsum (map (fun x => Qmult' (Qminus' avg x) (Qminus' avg x)) qs).

(** [Series.var()] with the default [ddof=1]: None stands for NaN. *)
Definition series_var (xs : list pyfloat) : option Q :=
  let qs := finite_values xs in
  let count := List.length qs in
  if (count <=? 1)%nat then None
  else
    let avg := Qred (Qsum qs / Qcount qs) in
    Some (Qred (Qssd avg qs / inject_Z (Z.of_nat (count - 1)))).

(* ===================================================================== *)
(** ** The world: random sources and emitted warnings *)
(* ===================================================================== *)

(** [deviates] is the sequence of standard normal deviates that
    [random.gauss] will consume, [choices] the sequence of raw integers
    that [DataFrame.sample] reduces to a row position, [clock] the number
    of draws made so far, [warned] the messages passed to
    [warnings.warn], latest first. *)
Record World : Type := mkWorld {
  deviates : nat -> Q;
  choices : nat -> nat;
  clock : nat;
  warned : list string
}.

Definition M (A : Type) : Type := World -> result A * World.

Definition ret {A} (a : A) : M A := fun w => (Ok a, w).

Definition raise {A} (e : exn) : M A := fun w => (Raise e, w).

Definition bind {A B} (m : M A) (f : A -> M B) : M B :=
  fun w =>
    match m w with
    | (Ok a, w') => f a w'
    | (Raise e, w') => (Raise e, w')
    end.

Notation "x <- m ;; k" := (bind m (fun x => k))
  (at level 61, m at next level, right associativity).

Definition lift {A} (r : result A) : M A := fun w => (r, w).

(** [warnings.warn(msg)] *)
Definition warn (msg : string) : M unit :=
  fun w => (Ok tt, mkWorld (deviates w) (choices w) (clock w) (msg :: warned w)).

Definition tick (w : World) : World :=
  mkWorld (deviates w) (choices w) (S (clock w)) (warned w).

(** [random.gauss(mu, sigma)] returns [mu + z * sigma] for the next
    standard normal deviate [z]. *)
Definition gauss (mu sigma : pyfloat) : M pyfloat :=
  fun w => (Ok (fadd mu (fmul (F (deviates w (clock w))) sigma)), tick w).

(** The row position drawn by [sample()] among [n > 0] rows. *)
Definition randrow (n : nat) : M nat :=
  fun w => (Ok (Nat.modulo (choices w (clock w)) n), tick w).

(** [for i in range(n): acc.append(body)] *)
Fixpoint repeatM {A} (n : nat) (body : M A) : M (list A) :=
  match n with
  | O => ret []
  | S n' => x <- body ;; xs <- repeatM n' body ;; ret (x :: xs)
  end.

(** [range(n)] runs [n] times, and not at all for a negative [n]. *)
Definition range_len (n : Z) : nat := Z.to_nat n.

(* ===================================================================== *)
(** ** class Player *)
(* ===================================================================== *)

Record Player : Type := mkPlayer {
  first_name : string;
  last_name : string;
  team : string;
  status : option string;
  player_id : option Z;
  means : option (dict pyfloat);
  stdevs : option (dict pyfloat);
  stats : option DataFrame;
  stats_available : list string
}.

(** [Player.__init__] *)
Definition Player_init (first_name last_name team : string)
    (status : option string) (player_id : option Z) : Player :=
  {| first_name := first_name;
     last_name := last_name;
     team := team;
     status := None;
     player_id := None;
     means := None;
     stdevs := None;
     stats := None;
     stats_available := [] |}.

Definition statistics_set : Z * string := (0%Z, "Player statistics set").

(** [Player.set_distribution]. The second component is [self] after the
    call, also when the call raises. *)
Definition set_distribution (self : Player) (means stdevs : dict pyfloat)
    : result (Z * string) * Player :=
  if negb (keys_eq (dict_keys means) (dict_keys stdevs)) then
    (Raise (ValueError "Keys don't match for stat means and standard deviation"),
     self)
  else
    (Ok statistics_set,
     {| first_name := first_name self;
        last_name := last_name self;
        team := team self;
        status := status self;
        player_id := player_id self;
        means := Some means;
        stdevs := Some stdevs;
        stats := None;
        stats_available := dict_keys means |}).

Definition not_subscriptable : exn :=
  TypeError "'NoneType' object is not subscriptable".

(** [d[k]] where [d] is an attribute that holds a dict or None. *)
Definition subscript (d : option (dict pyfloat)) (k : string) : result pyfloat :=
  match d with
  | None => Raise not_subscriptable
  | Some d' => dict_item d' k
  end.

(** [Player._continuous]: the loop over [stat_list], with the statline
    built so far as accumulator. *)
Fixpoint _continuous_loop (self : Player) (stat_list : list string)
    (statline : dict pyfloat) : M (dict pyfloat) :=
  match stat_list with
  | [] => ret statline
  | cat :: rest =>
      mu <- lift (subscript (means self) cat) ;;
      sigma <- lift (subscript (stdevs self) cat) ;;
      x <- gauss mu sigma ;;
      _continuous_loop self rest (dict_set statline cat x)
  end.

Definition _continuous (self : Player) (stat_list : list string)
    : M (dict pyfloat) :=
  _continuous_loop self stat_list [].

(** [df[names]] for a list of labels: the named columns, in the order
    asked for; KeyError on the first label that is no column. *)
Fixpoint col_indices (cols names : list string) : result (list nat) :=
  match names with
  | [] => Ok []
  | c :: names' =>
      match col_index cols c with
      | None => Raise (KeyError c)
      | Some j =>
          match col_indices cols names' with
          | Ok js => Ok (j :: js)
          | Raise e => Raise e
          end
      end
  end.

Definition df_getitem_list (df : DataFrame) (names : list string)
    : result DataFrame :=
  match col_indices (columns df) names with
  | Ok js => Ok (mkDataFrame names (map (fun r => map (cell r) js) (rows df)))
  | Raise e => Raise e
  end.

(** [df.sample()]: one row, drawn uniformly; pandas refuses an empty frame. *)
Definition df_sample (df : DataFrame) : M DataFrame :=
  match rows df with
  | [] => raise (ValueError "a must be greater than 0 unless no samples are taken")
  | _ =>
      i <- randrow (List.length (rows df)) ;;
      ret (mkDataFrame (columns df) [nth i (rows df) []])
  end.

(** One row as a dict from column label to cell. *)
Fixpoint record_of (cols : list string) (r : list pyfloat)
    (acc : dict pyfloat) : dict pyfloat :=
  match cols, r with
  | c :: cols', v :: r' => record_of cols' r' (dict_set acc c v)
  | _, _ => acc
  end.

(** [df.to_dict('records')] *)
Definition to_dict_records (df : DataFrame) : list (dict pyfloat) :=
  map (fun r => record_of (columns df) r []) (rows df).

(** [l[0]] *)
Definition first_item {A} (l : list A) : result A :=
  match l with
  | x :: _ => Ok x
  | [] => Raise (IndexError "list index out of range")
  end.

(** [Player._bootstrap] *)
Definition _bootstrap (self : Player) (stat_list : list string)
    : M (dict pyfloat) :=
  match stats self with
  | None => raise not_subscriptable
  | Some table =>
      sub <- lift (df_getitem_list table stat_list) ;;
      drawn <- df_sample sub ;;
      lift (first_item (to_dict_records drawn))
  end.

Definition full_name (self : Player) : string :=
  first_name self ++ " " ++ last_name self.

(** [Player.generate_statline] *)
Definition generate_statline (self : Player) (stat_list : list string)
    (num_games : Z) (bootstrap : bool) : M (list (dict pyfloat)) :=
  if truthy (py_invert (issuperset (stats_available self) stat_list)) then
    raise (ValueError ("Item(s) in stat_list is not available for "
                       ++ full_name self))
  else
    if dict_truthy (means self) && dict_truthy (stdevs self) then
      if negb bootstrap then
        repeatM (range_len num_games) (_continuous self stat_list)
      else
        match stats self with
        | Some _ => repeatM (range_len num_games) (_bootstrap self stat_list)
        | None =>
            _ <- warn ("No bootstrap values available for " ++ full_name self) ;;
            ret []
        end
    else
      _ <- warn ("No player statistics inited for " ++ full_name self) ;;
      ret [].

(** [Player.generate_statline_all] *)
Definition generate_statline_all (self : Player) (num_games : Z)
    (bootstrap : bool) : M (list (dict pyfloat)) :=
  if negb bootstrap then
    repeatM (range_len num_games) (_continuous self (stats_available self))
  else
    repeatM (range_len num_games) (_bootstrap self (stats_available self)).

Definition with_stats (self : Player) (table : DataFrame) : Player :=
  {| first_name := first_name self;
     last_name := last_name self;
     team := team self;
     status := status self;
     player_id := player_id self;
     means := means self;
     stdevs := stdevs self;
     stats := Some table;
     stats_available := columns table |}.

Definition with_distribution (self : Player) (m s : dict pyfloat) : Player :=
  {| first_name := first_name self;
     last_name := last_name self;
     team := team self;
     status := status self;
     player_id := player_id self;
     means := Some m;
     stdevs := Some s;
     stats := stats self;
     stats_available := stats_available self |}.

Section Moments.

(** The square root of the numeric library, as it rounds. *)
Variable np_sqrt : Q -> Q.

(** [Series.std()], default [ddof=1]: NaN below two values. *)
Definition series_std (xs : list pyfloat) : pyfloat :=
  match series_var xs with
  | None => NaN
  | Some v => F (np_sqrt v)
  end.

(** [Player._calculate_distribution]: the loop over
    [self.stats_available], with both dicts as accumulators. *)
Fixpoint _calculate_distribution_loop (df : DataFrame) (cats : list string)
    (means stdevs : dict pyfloat) : result (dict pyfloat * dict pyfloat) :=
  match cats with
  | [] => Ok (means, stdevs)
  | cat :: rest =>
      match df_col df cat with
      | Raise e => Raise e
      | Ok xs =>
          _calculate_distribution_loop df rest
            (dict_set means cat (series_mean xs))
            (dict_set stdevs cat (series_std xs))
      end
  end.

Definition _calculate_distribution (self : Player) (df : DataFrame)
    : result (dict pyfloat * dict pyfloat) :=
  _calculate_distribution_loop df (stats_available self) [] [].

(** [Player.set_stats]. The second component is [self] after the call. *)
Definition set_stats (self : Player) (stats : DataFrame)
    : result (Z * string) * Player :=
  let stats := df_loc stats (ne0_any_axis1 stats) in
  let self := with_stats self stats in
  match _calculate_distribution self stats with
  | Raise e => (Raise e, self)
  | Ok (means, stdevs) =>
      (Ok statistics_set, with_distribution self means stdevs)
  end.

End Moments.

(* ===================================================================== *)
(** ** The data providers *)
(* ===================================================================== *)

Definition upper_ascii (c : ascii) : ascii :=
  let n := nat_of_ascii c in
  if (97 <=? n)%nat && (n <=? 122)%nat then ascii_of_nat (n - 32) else c.

(** [s.upper()], on ASCII letters. *)
Fixpoint upper (s : string) : string :=
  match s with
  | EmptyString => EmptyString
  | String c s' => String (upper_ascii c) (upper s')
  end.

(** [s.split('T')[0]] *)
Fixpoint before_T (s : string) : string :=
  match s with
  | EmptyString => EmptyString
  | String c s' => if Ascii.eqb c "T" then EmptyString else String c (before_T s')
  end.

(** [pd.concat(dfs)] for frames that share their columns, which is how
    [get_stats] calls it. *)
Definition pd_concat (dfs : list DataFrame) : result DataFrame :=
  match dfs with
  | [] => Raise (ValueError "No objects to concatenate")
  | df :: _ => Ok (mkDataFrame (columns df) (flat_map rows dfs))
  end.

Module GDPlayerBDL.

Definition stats_available : list string :=
  ["ast"; "blk"; "dreb"; "fg3_pct"; "fg3a";
   "fg3m"; "fg_pct"; "fga"; "fgm"; "ft_pct";
   "fta"; "ftm"; "min"; "oreb"; "pf";
   "pts"; "reb"; "stl"; "turnover"].

(** One entry of the ['data'] list of a stats response: the value of
    each stat of that game. *)
Definition game : Type := string -> pyfloat.

(** [_format_data]: one row per game, one column per requested stat.
    The date index is left out, and the games are taken in the order
    of the response. *)
Definition _format_data (json_struct : list game) (stat_list : list string)
    : DataFrame :=
  mkDataFrame stat_list (map (fun game => map game stat_list) json_struct).

Section Network.

(** What the service answers: the player ids found for a name and a
    team, and the games of a player id since a date. The warnings that
    [_get_ids] emits are not recorded. *)
Variable _get_ids : string -> string -> list Z.
Variable _get_data : Z -> string -> list game.

Definition get_stats (name team : string) (stat_list : list string)
    (start_date : string) : result DataFrame :=
  match find (fun item => negb (mem item stats_available)) stat_list with
  | Some item =>
      Raise (ValueError (item ++ " is not an available stat from balldontlie API"))
  | None =>
      let team := upper team in
      let ids := _get_ids name team in
      let dfs :=
        map (fun player => _format_data (_get_data player start_date) stat_list)
            ids in
      pd_concat dfs
  end.

End Network.

(** One entry of the ['data'] list of a players response. *)
Record player : Type := mkPlayerJson {
  id : Z;
  first_name : string;
  abbreviation : string
}.

(** [name.split(' ')[-1]]: what follows the last blank. *)
Fixpoint last_word_from (word name : string) : string :=
  match name with
  | EmptyString => word
  | String c name' =>
      if Ascii.eqb c " " then last_word_from EmptyString name'
      else last_word_from (word ++ String c EmptyString)%string name'
  end.

Definition last_word (name : string) : string := last_word_from EmptyString name.

(** [s[0]] *)
Definition first_char (s : string) : result ascii :=
  match s with
  | EmptyString => Raise (IndexError "string index out of range")
  | String c _ => Ok c
  end.

(** The first loop of [_get_ids]: same team. *)
Fixpoint exact_loop (content : list player) (team : string) (ids : list Z)
    : list Z :=
  match content with
  | [] => ids
  | p :: rest =>
      if String.eqb (abbreviation p) team
      then exact_loop rest team (ids ++ [id p])
      else exact_loop rest team ids
  end.

(** The second loop of [_get_ids]: same team and same first initial. *)
Fixpoint loosened_loop (content : list player) (name team : string)
    (ids : list Z) : result (list Z) :=
  match content with
  | [] => Ok ids
  | p :: rest =>
      if String.eqb (abbreviation p) team then
        match first_char (first_name p) with
        | Raise e => Raise e
        | Ok initial =>
            match first_char name with
            | Raise e => Raise e
            | Ok wanted =>
                if Ascii.eqb initial wanted
                then loosened_loop rest name team (ids ++ [id p])
                else loosened_loop rest name team ids
            end
        end
      else loosened_loop rest name team ids
  end.

Section Search.

(** What the service answers to a search: the ['data'] list. *)
Variable search : string -> list player.

(** [GDPlayerBDL._get_ids] *)
Definition _get_ids (name team : string) : M (list Z) :=
  let ids := exact_loop (search name) team [] in
  ids <- match ids with
         | [] => lift (loosened_loop (search (last_word name)) name team ids)
         | _ => ret ids
         end ;;
  _ <- match ids with
       | [] => warn ("No data found for player - " ++ name)
       | [_] => ret tt
       | _ => warn "Multiple players found for criteria"
       end ;;
  ret ids.

End Search.

End GDPlayerBDL.

Module GDScheduleBDL.

(** One entry of the ['data'] list of a games response. *)
Record game : Type := mkGame {
  home_team : string;
  visitor_team : string;
  date : string
}.

Section Network.

(** [cls.ids], filled from the service when the class is initialised,
    and what the service answers for a team id and a window. *)
Variable ids : dict Z.
Variable games_of : Z -> string -> string -> list game.

Definition get_schedule (team start_date end_date : string)
    : result (list (string * string)) :=
  let team := upper team in
  match dict_item ids team with
  | Raise e => Raise e
  | Ok id =>
      Ok (map (fun game =>
                 let opp :=
                   if String.eqb (home_team game) team
                   then visitor_team game
                   else home_team game in
                 (opp, before_T (date game)))
              (games_of id start_date end_date))
  end.

Definition get_num_games (team start_date end_date : string) : result Z :=
  match get_schedule team start_date end_date with
  | Raise e => Raise e
  | Ok schedule => Ok (Z.of_nat (List.length schedule))
  end.

End Network.

End GDScheduleBDL.

(* ===================================================================== *)
(** ** Frames built by the simulator *)
(* ===================================================================== *)

(** Labels of [ks] not yet in [acc], appended in order. *)
Fixpoint add_labels (acc ks : list string) : list string :=
  match ks with
  | [] => acc
  | k :: ks' => add_labels (if mem k acc then acc else acc ++ [k]) ks'
  end.

Definition record_cell (record : dict pyfloat) (c : string) : pyfloat :=
  match dict_get record c with
  | Some v => v
  | None => NaN
  end.

(** [pd.DataFrame(records)] for a list of dicts: the columns are the keys
    in order of first appearance, a missing key gives NaN. *)
Definition DataFrame_of_records (records : list (dict pyfloat)) : DataFrame :=
  let cols := fold_left add_labels (map dict_keys records) [] in
  mkDataFrame cols (map (fun record => map (record_cell record) cols) records).

Fixpoint set_nth {A} (j : nat) (v : A) (l : list A) : list A :=
  match j, l with
  | _, [] => []
  | O, _ :: l' => v :: l'
  | S j', x :: l' => x :: set_nth j' v l'
  end.

(** [df[c] = v] for a scalar [v]: the column is overwritten, or added as
    the last one. *)
Definition df_setitem (df : DataFrame) (c : string) (v : pyfloat) : DataFrame :=
  match col_index (columns df) c with
  | Some j => mkDataFrame (columns df) (map (set_nth j v) (rows df))
  | None => mkDataFrame (columns df ++ [c]) (map (fun r => r ++ [v]) (rows df))
  end.

(** [df.sum().tolist()]: the sum of each column, in column order. *)
Definition df_sum_tolist (df : DataFrame) : list pyfloat :=
  map (fun j => series_sum (map (fun r => cell r j) (rows df)))
      (seq 0 (List.length (columns df))).

Definition pad_row (width : nat) (r : list pyfloat) : list pyfloat :=
  r ++ repeat NaN (width - List.length r).

(** [pd.DataFrame(data, columns=cols)] for a list of lists: short rows are
    filled up to the longest one, whose length must be the number of
    labels; no data at all gives an empty frame with these labels. *)
Definition DataFrame_of_rows (data : list (list pyfloat)) (cols : list string)
    : result DataFrame :=
  match data with
  | [] => Ok (mkDataFrame cols [])
  | _ =>
      let width := list_max (map (@List.length pyfloat) data) in
      if (width =? List.length cols)%nat then
        Ok (mkDataFrame cols (map (pad_row width) data))
      else
        Raise (ValueError "columns passed do not match the passed data")
  end.

(** The cell of row [r] under label [c], read as [df[c]] reads it. *)
Definition row_item (df : DataFrame) (r : list pyfloat) (c : string)
    : option pyfloat :=
  option_map (cell r) (col_index (columns df) c).

(* ===================================================================== *)
(** ** class MCBBall *)
(* ===================================================================== *)

(** [list(set(teams))]: each team once (the order inside a set is not
    fixed by Python; the one of first appearance is taken). *)
Fixpoint distinct (l : list string) : list string :=
  match l with
  | [] => []
  | x :: l' => x :: filter (fun y => negb (String.eqb y x)) (distinct l')
  end.

Section MCBBall.

Variable np_sqrt : Q -> Q.
(** [self.gdp], an instance of GDPlayerBDL. *)
Variable _get_ids : string -> string -> list Z.
Variable _get_data : Z -> string -> list GDPlayerBDL.game.
(** [self.gds], an instance of GDScheduleBDL. *)
Variable ids : dict Z.
Variable games_of : Z -> string -> string -> list GDScheduleBDL.game.

(** [MCBBall._initiate_player_stats]: the roster after [set_stats] has
    been called on each player. When a call raises, the exception is all
    that the caller of the simulator gets back. *)
Fixpoint _initiate_player_stats (roster : list Player)
    (stat_list : list string) (stat_start : string) : result (list Player) :=
  match roster with
  | [] => Ok []
  | player :: rest =>
      match GDPlayerBDL.get_stats _get_ids _get_data
              (full_name player) (team player) stat_list stat_start with
      | Raise e => Raise e
      | Ok stats =>
          match set_stats np_sqrt player stats with
          | (Raise e, _) => Raise e
          | (Ok _, player') =>
              match _initiate_player_stats rest stat_list stat_start with
              | Raise e => Raise e
              | Ok rest' => Ok (player' :: rest')
              end
          end
      end
  end.

(** [MCBBall._count_games] *)
Fixpoint _count_games_loop (teams : list string) (start_date end_date : string)
    (num_games : dict Z) : result (dict Z) :=
  match teams with
  | [] => Ok num_games
  | team :: rest =>
      match GDScheduleBDL.get_num_games ids games_of team start_date end_date with
      | Raise e => Raise e
      | Ok n => _count_games_loop rest start_date end_date (dict_set num_games team n)
      end
  end.

Definition _count_games (teams : list string) (start_date end_date : string)
    : result (dict Z) :=
  _count_games_loop teams start_date end_date [].

(** The inner loop of a run:
    [for player in roster: statlines.extend(player.generate_statline_all(...))] *)
Fixpoint roster_statlines (roster : list Player) (num_games : dict Z)
    (bootstrap : bool) : M (list (dict pyfloat)) :=
  match roster with
  | [] => ret []
  | player :: rest =>
      n <- lift (dict_item num_games (team player)) ;;
      lines <- generate_statline_all player n bootstrap ;;
      more <- roster_statlines rest num_games bootstrap ;;
      ret (lines ++ more)
  end.

(** The body of the loop over the runs: one row of period totals. *)
Definition one_run (roster : list Player) (num_games : dict Z)
    (bootstrap : bool) : M (list pyfloat) :=
  statlines <- roster_statlines roster num_games bootstrap ;;
  let df := DataFrame_of_records statlines in
  let df := df_setitem df "games" (F 1) in
  ret (df_sum_tolist df).

(** [MCBBall.generate_stat_totals] *)
Definition generate_stat_totals (roster : list Player)
    (sim_start sim_end : string) (stat_list : list string)
    (stat_start : string) (num_runs : Z) (bootstrap : bool) : M DataFrame :=
  roster <- lift (_initiate_player_stats roster stat_list stat_start) ;;
  let teams := distinct (map team roster) in
  num_games <- lift (_count_games teams sim_start sim_end) ;;
  runs <- repeatM (range_len num_runs) (one_run roster num_games bootstrap) ;;
  lift (DataFrame_of_rows runs (stat_list ++ ["games"])).

End MCBBall.

(* ===================================================================== *)
(** ** class YahooFantasy *)
(* ===================================================================== *)

Module YahooFantasy.

(** [\w] and [str.lower], on ASCII text. *)
Definition is_word (c : ascii) : bool :=
  let n := nat_of_ascii c in
  ((48 <=? n)%nat && (n <=? 57)%nat) || ((65 <=? n)%nat && (n <=? 90)%nat)
  || ((97 <=? n)%nat && (n <=? 122)%nat) || (n =? 95)%nat.

Definition lower_ascii (c : ascii) : ascii :=
  let n := nat_of_ascii c in
  if (65 <=? n)%nat && (n <=? 90)%nat then ascii_of_nat (n + 32) else c.

Fixpoint is_ascii_text (text : string) : bool :=
  match text with
  | EmptyString => true
  | String c text' => (nat_of_ascii c <? 128)%nat && is_ascii_text text'
  end.

(** [re.sub(r'[^\w]', '', text)] *)
Fixpoint remove_non_word (text : string) : string :=
  match text with
  | EmptyString => EmptyString
  | String c text' =>
      if is_word c then String c (remove_non_word text') else remove_non_word text'
  end.

(** [text.lower()] *)
Fixpoint lower (text : string) : string :=
  match text with
  | EmptyString => EmptyString
  | String c text' => String (lower_ascii c) (lower text')
  end.

(** [YahooFantasy._process_str] *)
Definition _process_str (text : string) : string :=
  lower (remove_non_word text).

(** One entry of the league standings: a team's name and id. *)
Record team : Type := mkTeam {
  name : string;
  team_id : string
}.




(** The attributes of an instance that authorization reads and writes. *)
Record Session : Type := mkSession {
  auth_code : option string;
  access_token : option string;
  refresh_token : option string;
  _authorized : bool;
  _authorization_time : option Q;
  _expiration_time : option Q;
  headers : option (dict string)
}.

(** [YahooFantasy.__init__] *)
Definition init : Session :=
  {| auth_code := None;
     access_token := None;
     refresh_token := None;
     _authorized := false;
     _authorization_time := None;
     _expiration_time := None;
     headers := None |}.

(** What the token endpoint answers. *)
Record token_json : Type := mkToken {
  json_access_token : string;
  json_refresh_token : string;
  expires_in : Q
}.

Inductive outcome (A : Type) : Type :=
| Returns (a : A)
| RuntimeError (msg : string)
| OtherError (e : exn).
Arguments Returns {A} a.
Arguments RuntimeError {A} msg.
Arguments OtherError {A} e.

(** [_check_authorization], given what [time.time()] reads when it is
    called: the answer, the instance afterwards and the warnings emitted. *)
Definition _check_authorization (self : Session) (now : Q)
    : outcome bool * Session * list string :=
  if _authorized self then
    match _expiration_time self with
    | None =>
        (OtherError (TypeError "'>=' not supported between instances of 'float' and 'NoneType'"),
         self, [])
    | Some expiration =>
        if Qle_bool expiration now then
          (Returns false,
           {| auth_code := auth_code self;
              access_token := access_token self;
              refresh_token := refresh_token self;
              _authorized := false;
              _authorization_time := None;
              _expiration_time := None;
              headers := headers self |},
           ["User authorization has expired"])
        else (Returns true, self, [])
    end
  else (Returns false, self, ["User has not authorized access to league"]).

Definition bearer_headers (token : string) : dict string :=
  [("Authorization", ("Bearer " ++ token)%string);
   ("Accept", "application/json");
   ("Content-Type", "application/json")].

(** [_refresh_access_token], given the two readings of [time.time()]
    (the one of the check, the one stored as authorization time) and the
    answer of the token endpoint. *)
Definition _refresh_access_token (self : Session) (now_check now_post : Q)
    (content : token_json) : outcome unit * Session * list string :=
  match _check_authorization self now_check with
  | (Returns true, self, warnings) =>
      (Returns tt,
       {| auth_code := auth_code self;
          access_token := Some (json_access_token content);
          refresh_token := refresh_token self;
          _authorized := _authorized self;
          _authorization_time := Some now_post;
          _expiration_time := Some (Qplus' now_post (expires_in content));
          headers := Some (bearer_headers (json_access_token content)) |},
       warnings)
  | (Returns false, self, warnings) =>
      (RuntimeError "No token to refresh", self, warnings)
  | (RuntimeError msg, self, warnings) => (RuntimeError msg, self, warnings)
  | (OtherError e, self, warnings) => (OtherError e, self, warnings)
  end.

(** [authorize] (with [_get_access_token]), given the reading of
    [time.time()] and the answer of the token endpoint. The basic-auth
    header it also stores is left out. *)
Definition authorize (self : Session) (code : string) (now : Q)
    (content : token_json) : Session :=
  {| auth_code := Some code;
     access_token := Some (json_access_token content);
     refresh_token := Some (json_refresh_token content);
     _authorized := true;
     _authorization_time := Some now;
     _expiration_time := Some (Qplus' now (expires_in content));
     headers := headers self |}.

End YahooFantasy.

(* ===================================================================== *)
(** ** Statements used by the properties, and sample inputs *)
(* ===================================================================== *)

(** Two mappings have the same key set. *)
Definition same_keys {V W} (a : dict V) (b : dict W) : Prop :=
  forall k, In k (dict_keys a) <-> In k (dict_keys b).

Definition sample_player : Player :=
  Player_init "Kyle" "Lowry" "TOR" (Some "Out") (Some 286%Z).

Definition sample_means : dict pyfloat := [("pts", F (20 # 1)); ("reb", F (5 # 1))].
Definition sample_stdevs : dict pyfloat := [("reb", F (2 # 1)); ("pts", F (10 # 1))].
Definition short_stdevs : dict pyfloat := [("pts", F (10 # 1))].

Definition sample_world : World :=
  mkWorld (fun i => inject_Z (Z.of_nat i) - 1) (fun i => (3 * i + 1)%nat) 0 [].

(** A row of a table is all zero: each of its cells is the number zero. *)
Definition all_zero (r : list pyfloat) : Prop :=
  forall x, In x r -> exists q, x = F q /\ q == 0.

(** The rows of a table that set_stats is to keep. *)
Definition played_rows (table : DataFrame) : list (list pyfloat) :=
  filter (existsb fne0) (rows table).




(** A square root to run the samples with: the integer part of the root. *)
Definition floor_sqrt (q : Q) : Q :=
  inject_Z (Z.sqrt (Qnum q / Zpos (Qden q))).

(** Three games played and one game not played. *)
Definition scenario_table : DataFrame :=
  mkDataFrame ["pts"; "reb"]
    [[F 10; F 5]; [F 20; F 3]; [F 30; F 7]; [F 0; F 0]].

(** The keys of a dict filled by one assignment per label of [cats]. *)
Definition keys_built (cats : list string) : list string :=
  dict_keys (fold_left (fun d c => dict_set d c NaN) cats []).

(** The number of per-game statlines of one pass: for each player of the
    roster, the game count of the player's team. *)
Definition games_in_pass (num_games : dict Z) (roster : list Player) : nat :=
  list_sum
    (map (fun player =>
            match dict_get num_games (team player) with
            | Some n => range_len n
            | None => O
            end)
         roster).

(** A service to run the samples with: one player id per name, three
    games played and one not played, and two scheduled games for the one
    team it knows. *)
Definition sample_get_ids (name team : string) : list Z := [286%Z].

Definition sample_game (pts reb : Q) : GDPlayerBDL.game :=
  fun cat => if String.eqb cat "pts" then F pts else F reb.

Definition sample_get_data (player : Z) (start_date : string)
    : list GDPlayerBDL.game :=
  [sample_game 10 5; sample_game 20 3; sample_game 30 7; sample_game 0 0].

Definition sample_ids : dict Z := [("TOR", 28%Z)].

Definition sample_games_of (id : Z) (start_date end_date : string)
    : list GDScheduleBDL.game :=
  [GDScheduleBDL.mkGame "TOR" "BOS" "2020-01-02T00:00:00.000Z";
   GDScheduleBDL.mkGame "MIA" "TOR" "2020-01-05T00:00:00.000Z"].

Definition sample_run : result DataFrame * World :=
  generate_stat_totals floor_sqrt sample_get_ids sample_get_data
    sample_ids sample_games_of
    [sample_player] "2020-01-01" "2020-01-07" ["pts"; "reb"] "2019-10-22"
    3 false sample_world.

(** Two games on the bench and nothing else. *)
Definition idle_table : DataFrame :=
  mkDataFrame ["pts"; "reb"] [[F 0; F 0]; [F 0; F 0]].

(** A player of a team that the sample schedule does not know, and a
    week in which nobody plays. *)
Definition sample_laker : Player :=
  Player_init "LeBron" "James" "LAL" None None.

Definition sample_no_games (id : Z) (start_date end_date : string)
    : list GDScheduleBDL.game := [].


Definition sample_single_game (player : Z) (start_date : string)
    : list GDPlayerBDL.game :=
  [sample_game 12 4].

Definition sample_short_run : result DataFrame * World :=
  generate_stat_totals floor_sqrt sample_get_ids sample_single_game
    sample_ids sample_games_of
    [sample_player] "2020-01-01" "2020-01-07" ["pts"; "reb"] "2019-10-22"
    2 false sample_world.




Definition sample_token : YahooFantasy.token_json :=
  YahooFantasy.mkToken "token-1" "refresh-1" 3600.

(** A service whose player sat out every game on record. *)
Definition sample_idle_data (player : Z) (start_date : string)
    : list GDPlayerBDL.game :=
  [sample_game 0 0; sample_game 0 0].

(* ===================================================================== *)
(** ** Lists of labels and dicts *)
(* ===================================================================== *)

Lemma mem_In (k : string) (l : list string) : mem k l = true <-> In k l.
Proof.
  unfold mem. rewrite existsb_exists. split.
  - intros [x [Hx Hk]]. apply String.eqb_eq in Hk. now subst.
  - intros H. exists k. split; [assumption | apply String.eqb_refl].
Qed.

Lemma mem_false (k : string) (l : list string) : mem k l = false <-> ~ In k l.
Proof.
  rewrite <- mem_In. destruct (mem k l); split; congruence.
Qed.

Lemma forallb_mem_incl (a b : list string) :
  forallb (fun k => mem k b) a = true <-> incl a b.
Proof.
  rewrite forallb_forall. unfold incl.
  split; intros H k Hk; apply mem_In; auto.
Qed.

Lemma keys_eq_iff (a b : list string) :
  NoDup a -> NoDup b ->
  (keys_eq a b = true <-> forall k, In k a <-> In k b).
Proof.
  intros Ha Hb. unfold keys_eq.
  rewrite andb_true_iff, Nat.eqb_eq, forallb_mem_incl. split.
  - intros [Hlen Hincl] k. split; [apply Hincl |].
    apply (NoDup_length_incl Ha); [lia | assumption].
  - intros H.
    assert (Hab : incl a b) by (intros k; apply H).
    assert (Hba : incl b a) by (intros k; apply H).
    split; [| assumption].
    apply Nat.le_antisymm; apply NoDup_incl_length; assumption.
Qed.

Lemma dict_get_In {V} (d : dict V) (k : string) :
  In k (dict_keys d) -> exists v, dict_get d k = Some v.
Proof.
  induction d as [| [k' v'] d IH]; simpl; [tauto |].
  intros [-> | H].
  - rewrite String.eqb_refl. eauto.
  - destruct (String.eqb k k'); eauto.
Qed.

Lemma dict_get_Some_In {V} (d : dict V) (k : string) (v : V) :
  dict_get d k = Some v -> In k (dict_keys d).
Proof.
  induction d as [| [k' v'] d IH]; simpl; [discriminate |].
  destruct (String.eqb_spec k k'); [subst; auto | auto].
Qed.

Lemma dict_keys_set {V} (d : dict V) (c : string) (v : V) (k : string) :
  In k (dict_keys (dict_set d c v)) <-> k = c \/ In k (dict_keys d).
Proof.
  induction d as [| [k' v'] d IH]; simpl.
  - intuition.
  - destruct (String.eqb_spec c k'); simpl.
    + subst. intuition.
    + rewrite IH. intuition.
Qed.

(** The keys after an assignment do not depend on the value stored. *)
Lemma dict_keys_set_irrel {V} (d d' : dict V) (c : string) (v v' : V) :
  dict_keys d = dict_keys d' ->
  dict_keys (dict_set d c v) = dict_keys (dict_set d' c v').
Proof.
  revert d'. induction d as [| [k x] d IH]; intros [| [k' x'] d']; simpl;
    try discriminate; [reflexivity |].
  intros H. injection H as -> H.
  destruct (String.eqb c k'); simpl; [now rewrite H | now rewrite (IH d' H)].
Qed.

(* ===================================================================== *)
(** ** Loops in the world monad *)
(* ===================================================================== *)

Lemma repeatM_total {A} (body : M A) (P : A -> Prop) :
  (forall w, exists a w', body w = (Ok a, w') /\ P a) ->
  forall n w, exists l w',
    repeatM n body w = (Ok l, w') /\ List.length l = n /\ Forall P l.
Proof.
  intros Hbody. induction n as [| n IH]; intros w; simpl.
  - exists [], w. repeat split. constructor.
  - destruct (Hbody w) as (a & w1 & Ha & HP).
    destruct (IH w1) as (l & w2 & Hl & Hlen & HF).
    exists (a :: l), w2. unfold bind, ret. rewrite Ha, Hl.
    repeat split; simpl; [lia | now constructor].
Qed.

Lemma repeatM_inv {A} (body : M A) (P : A -> Prop) :
  (forall w a w', body w = (Ok a, w') -> P a) ->
  forall n w l w',
    repeatM n body w = (Ok l, w') -> List.length l = n /\ Forall P l.
Proof.
  intros Hbody. induction n as [| n IH]; intros w l w'; simpl.
  - unfold ret. intros H. injection H as <- <-. split; [reflexivity | constructor].
  - unfold bind, ret.
    destruct (body w) as [[a | e] w1] eqn:Ha; [| discriminate].
    destruct (repeatM n body w1) as [[l1 | e] w2] eqn:Hl; [| discriminate].
    intros H. injection H as <- <-.
    destruct (IH _ _ _ Hl) as [Hlen HF].
    split; simpl; [lia | constructor; eauto].
Qed.

(* ===================================================================== *)
(** ** Player: construction and set_distribution *)
(* ===================================================================== *)

(** C9 -- the constructor stores the names and the team, but the status
    and the external id it is given are dropped: both attributes are None
    whatever was passed. *)
Theorem Player_init_discards_status_and_id
    (first last tm : string) (st : option string) (pid : option Z) :
  let p := Player_init first last tm st pid in
  first_name p = first /\ last_name p = last /\ team p = tm /\
  status p = None /\ player_id p = None.
Proof. cbn. repeat split. Qed.

(** C6 -- set_distribution raises a ValueError when the key sets of the
    two mappings differ; when they agree it returns the success signal,
    clears the retained table, makes the keys of [means] the available
    categories and stores both mappings as given. *)
Theorem set_distribution_spec (self : Player) (mu sigma : dict pyfloat) :
  wf_dict mu -> wf_dict sigma ->
  (~ same_keys mu sigma ->
     is_ValueError (fst (set_distribution self mu sigma)) = true) /\
  (same_keys mu sigma ->
     exists self',
       set_distribution self mu sigma = (Ok statistics_set, self') /\
       stats self' = None /\
       stats_available self' = dict_keys mu /\
       means self' = Some mu /\
       stdevs self' = Some sigma /\
       first_name self' = first_name self /\
       last_name self' = last_name self /\
       team self' = team self).
Proof.
  intros Hmu Hsigma.
  pose proof (keys_eq_iff _ _ Hmu Hsigma) as Hiff.
  unfold set_distribution, same_keys.
  destruct (keys_eq (dict_keys mu) (dict_keys sigma)); simpl; split.
  - intros H. exfalso. apply H. now apply Hiff.
  - intros _. eexists. repeat split.
  - reflexivity.
  - intros H. apply Hiff in H. discriminate.
Qed.

Lemma set_distribution_spec_witness :
  is_ValueError (fst (set_distribution sample_player sample_means short_stdevs)) = true /\
  exists self',
    set_distribution sample_player sample_means sample_stdevs
      = (Ok statistics_set, self') /\
    stats_available self' = ["pts"; "reb"].
Proof.
  assert (Hm : wf_dict sample_means)
    by (repeat constructor; simpl; intuition discriminate).
  assert (Hs : wf_dict sample_stdevs)
    by (repeat constructor; simpl; intuition discriminate).
  assert (Hh : wf_dict short_stdevs)
    by (repeat constructor; simpl; intuition discriminate).
  split.
  - apply (set_distribution_spec sample_player sample_means short_stdevs Hm Hh).
    intros H. destruct (H "reb") as [H1 _]. simpl in H1. intuition discriminate.
  - destruct (set_distribution_spec sample_player sample_means sample_stdevs Hm Hs)
      as [_ H].
    destruct H as (self' & H1 & _ & H3 & _).
    + intros k. simpl. intuition.
    + exists self'. split; assumption.
Defined.

(** C10 -- a call of set_distribution that raises leaves the model as it
    was: means, stdevs, retained table and available categories (and the
    identity) are those from before the call. *)
Theorem set_distribution_atomic_on_error (self : Player) (mu sigma : dict pyfloat) :
  wf_dict mu -> wf_dict sigma -> ~ same_keys mu sigma ->
  exists msg, set_distribution self mu sigma = (Raise (ValueError msg), self).
Proof.
  intros Hmu Hsigma Hdiff.
  pose proof (keys_eq_iff _ _ Hmu Hsigma) as Hiff.
  unfold set_distribution.
  destruct (keys_eq (dict_keys mu) (dict_keys sigma)); simpl.
  - exfalso. apply Hdiff. unfold same_keys. now apply Hiff.
  - eexists. reflexivity.
Qed.

Lemma set_distribution_atomic_on_error_witness :
  exists msg,
    set_distribution sample_player sample_means short_stdevs
      = (Raise (ValueError msg), sample_player).
Proof.
  apply (set_distribution_atomic_on_error sample_player sample_means short_stdevs).
  - repeat constructor; simpl; intuition discriminate.
  - repeat constructor; simpl; intuition discriminate.
  - intros H. destruct (H "reb") as [H1 _]. simpl in H1. intuition discriminate.
Defined.

(* ===================================================================== *)
(** ** Player: generating statlines *)
(* ===================================================================== *)

Lemma truthy_py_invert (b : bool) : truthy (py_invert b) = true.
Proof. destruct b; reflexivity. Qed.

(** C1 -- the guard of generate_statline tests [~issuperset(...)], which
    is -2 or -1 and so always true: the call raises a ValueError for every
    model and every category list, a subset of the available categories
    or not, and nothing is generated. *)
Theorem generate_statline_always_raises (self : Player)
    (stat_list : list string) (num_games : Z) (bootstrap : bool) (w : World) :
  exists msg,
    generate_statline self stat_list num_games bootstrap w
      = (Raise (ValueError msg), w).
Proof.
  unfold generate_statline. rewrite truthy_py_invert.
  eexists. reflexivity.
Qed.

Lemma subscript_Some (d : dict pyfloat) (k : string) :
  In k (dict_keys d) -> exists v, subscript (Some d) k = Ok v.
Proof.
  intros H. destruct (dict_get_In d k H) as [v Hv].
  exists v. unfold subscript, dict_item. now rewrite Hv.
Qed.

Lemma _continuous_loop_ok (self : Player) (m s : dict pyfloat) (cats : list string) :
  means self = Some m -> stdevs self = Some s ->
  (forall c, In c cats -> In c (dict_keys m) /\ In c (dict_keys s)) ->
  forall acc w, exists line w',
    _continuous_loop self cats acc w = (Ok line, w') /\
    (forall k, In k (dict_keys line) <-> In k (dict_keys acc) \/ In k cats).
Proof.
  intros Hm Hs. induction cats as [| c cats IH]; intros Hcats acc w; simpl.
  - exists acc, w. split; [reflexivity | intuition].
  - destruct (Hcats c (or_introl eq_refl)) as [Hcm Hcs].
    destruct (subscript_Some m c Hcm) as [mu Hmu].
    destruct (subscript_Some s c Hcs) as [sigma Hsigma].
    unfold bind, lift. rewrite Hm, Hs, Hmu, Hsigma. cbn [gauss].
    destruct (IH (fun c' H => Hcats c' (or_intror H))
                 (dict_set acc c (fadd mu (fmul (F (deviates w (clock w))) sigma)))
                 (tick w)) as (line & w' & Hrun & Hkeys).
    exists line, w'. split; [exact Hrun |].
    intros k. rewrite Hkeys, dict_keys_set. intuition.
Qed.

(** C2 -- generate_statline_all has none of the guards of
    generate_statline: on a model that was never given a distribution the
    bootstrap policy fails with a TypeError and the parametric policy
    returns one empty statline per game, and on a model set up by
    set_distribution the bootstrap policy fails with a TypeError; in no
    case is a warning emitted. *)
Theorem generate_statline_all_unguarded
    (first last tm : string) (st : option string) (pid : option Z) (w : World) :
  let fresh := Player_init first last tm st pid in
  let ready := snd (set_distribution fresh sample_means sample_stdevs) in
  generate_statline_all fresh 1 true w = (Raise not_subscriptable, w) /\
  generate_statline_all fresh 2 false w = (Ok [[]; []], w) /\
  generate_statline_all ready 1 true w = (Raise not_subscriptable, w).
Proof. cbn. repeat split. Qed.

(** C8 -- after set_distribution with two mappings over the same keys,
    generate_statline_all with [num_games = N] and the parametric policy
    returns N statlines, and the keys of each are the keys of the
    mappings. *)
Theorem set_distribution_then_generate_all
    (self : Player) (mu sigma : dict pyfloat) (N : Z) (w : World) :
  wf_dict mu -> wf_dict sigma -> same_keys mu sigma -> (0 <= N)%Z ->
  exists self' lines w',
    set_distribution self mu sigma = (Ok statistics_set, self') /\
    generate_statline_all self' N false w = (Ok lines, w') /\
    Z.of_nat (List.length lines) = N /\
    Forall (fun line => forall k, In k (dict_keys line) <-> In k (dict_keys mu))
           lines.
Proof.
  intros Hmu Hsigma Hsame HN.
  destruct (set_distribution_spec self mu sigma Hmu Hsigma) as [_ Hok].
  destruct (Hok Hsame) as (self' & Hset & _ & Havail & Hm & Hs & _).
  assert (Hbody : forall w0, exists line w1,
             _continuous self' (stats_available self') w0 = (Ok line, w1) /\
             (forall k, In k (dict_keys line) <-> In k (dict_keys mu))).
  { intros w0. unfold _continuous.
    destruct (_continuous_loop_ok self' mu sigma (stats_available self') Hm Hs)
      with (acc := @nil (string * pyfloat)) (w := w0)
      as (line & w1 & Hrun & Hkeys).
    - rewrite Havail. intros c Hc. split; [assumption | now apply Hsame].
    - exists line, w1. split; [exact Hrun |].
      intros k. rewrite Hkeys, Havail. simpl. intuition. }
  destruct (repeatM_total _ _ Hbody (range_len N) w)
    as (lines & w' & Hrun & Hlen & HF).
  exists self', lines, w'. repeat split; try assumption.
  rewrite Hlen. unfold range_len. lia.
Qed.

Lemma set_distribution_then_generate_all_witness :
  exists self' lines w',
    set_distribution sample_player sample_means sample_stdevs
      = (Ok statistics_set, self') /\
    generate_statline_all self' 3 false sample_world = (Ok lines, w') /\
    Z.of_nat (List.length lines) = 3%Z /\
    Forall (fun line => forall k,
              In k (dict_keys line) <-> In k (dict_keys sample_means))
           lines.
Proof.
  apply (set_distribution_then_generate_all
           sample_player sample_means sample_stdevs 3 sample_world).
  - repeat constructor; simpl; intuition discriminate.
  - repeat constructor; simpl; intuition discriminate.
  - intros k. simpl. intuition.
  - lia.
Defined.

(* ===================================================================== *)
(** ** Frames: columns, rows and reductions *)
(* ===================================================================== *)

Lemma dict_get_set {V} (d : dict V) (c : string) (v : V) (k : string) :
  dict_get (dict_set d c v) k = if String.eqb k c then Some v else dict_get d k.
Proof.
  induction d as [| [k' v'] d IH]; simpl.
  - reflexivity.
  - destruct (String.eqb_spec c k') as [-> | Hc]; simpl.
    + destruct (String.eqb k k'); reflexivity.
    + rewrite IH. destruct (String.eqb_spec k k') as [-> | Hk].
      * destruct (String.eqb_spec k' c); [congruence | reflexivity].
      * reflexivity.
Qed.

Lemma col_index_In (cols : list string) (c : string) :
  In c cols -> exists j, col_index cols c = Some j.
Proof.
  induction cols as [| c' cols IH]; simpl; [tauto |].
  destruct (String.eqb_spec c c') as [-> | Hc]; [eauto |].
  intros [H | H]; [congruence |].
  destruct (IH H) as [j Hj]. rewrite Hj. simpl. eauto.
Qed.

Lemma col_index_Some (cols : list string) (c : string) (j : nat) :
  col_index cols c = Some j -> (j < List.length cols)%nat /\ nth j cols "" = c.
Proof.
  revert j. induction cols as [| c' cols IH]; simpl; intros j; [discriminate |].
  destruct (String.eqb_spec c c') as [-> | Hc].
  - intros H. injection H as <-. split; [lia | reflexivity].
  - destruct (col_index cols c) as [j' |]; simpl; [| discriminate].
    intros H. injection H as <-. destruct (IH j' eq_refl). split; [lia | assumption].
Qed.

Lemma select_rows_filter {A} (f : A -> bool) (rs : list A) :
  select_rows rs (map f rs) = filter f rs.
Proof.
  induction rs as [| r rs IH]; simpl; [reflexivity |].
  rewrite IH. reflexivity.
Qed.

Lemma existsb_fne0_false (r : list pyfloat) :
  existsb fne0 r = false <-> all_zero r.
Proof.
  unfold all_zero. induction r as [| x r IH]; simpl.
  - split; [intros _ x [] | reflexivity].
  - rewrite orb_false_iff, IH. split.
    + intros [Hx Hr] y [Hy | Hy]; [subst y | auto].
      destruct x as [| q]; simpl in Hx; [discriminate |].
      exists q. split; [reflexivity |].
      apply Qeq_bool_iff. now destruct (Qeq_bool q 0).
    + intros H. split; [| intros y Hy; apply H; auto].
      destruct (H x (or_introl eq_refl)) as (q & -> & Hq). simpl.
      apply Qeq_bool_iff in Hq. now rewrite Hq.
Qed.

Lemma played_rows_spec (table : DataFrame) (r : list pyfloat) :
  In r (played_rows table) <-> In r (rows table) /\ ~ all_zero r.
Proof.
  unfold played_rows. rewrite filter_In, <- existsb_fne0_false.
  destruct (existsb fne0 r); intuition congruence.
Qed.

Section SetStats.

Variable np_sqrt : Q -> Q.

Lemma _calculate_distribution_loop_spec (df : DataFrame) (cats : list string) :
  (forall c, In c cats -> In c (columns df)) ->
  forall m s, exists m' s',
    _calculate_distribution_loop np_sqrt df cats m s = Ok (m', s') /\
    forall c,
      (In c cats -> forall j, col_index (columns df) c = Some j ->
         dict_get m' c = Some (series_mean (map (fun r => cell r j) (rows df))) /\
         dict_get s' c
           = Some (series_std np_sqrt (map (fun r => cell r j) (rows df)))) /\
      (~ In c cats -> dict_get m' c = dict_get m c /\ dict_get s' c = dict_get s c).
Proof.
  induction cats as [| c0 cats IH]; intros Hcats m s; simpl.
  - exists m, s. split; [reflexivity |]. intros c. split; [tauto | auto].
  - destruct (col_index_In (columns df) c0 (Hcats c0 (or_introl eq_refl)))
      as [j0 Hj0].
    unfold df_col. rewrite Hj0.
    destruct (IH (fun c H => Hcats c (or_intror H))
                (dict_set m c0 (series_mean (map (fun r => cell r j0) (rows df))))
                (dict_set s c0 (series_std np_sqrt (map (fun r => cell r j0) (rows df)))))
      as (m' & s' & Hrun & Hspec).
    exists m', s'. split; [exact Hrun |].
    intros c. destruct (Hspec c) as [Hin Hout]. split.
    + intros Hc j Hj. destruct (in_dec string_dec c cats) as [Hrest | Hrest].
      * now apply Hin.
      * destruct Hc as [-> | Hc]; [| contradiction].
        destruct (Hout Hrest) as [Hm Hs]. rewrite Hm, Hs, !dict_get_set.
        rewrite String.eqb_refl. rewrite Hj0 in Hj. injection Hj as <-.
        split; reflexivity.
    + intros Hc. destruct (Hout (fun H => Hc (or_intror H))) as [Hm Hs].
      rewrite Hm, Hs, !dict_get_set.
      destruct (String.eqb_spec c c0) as [-> | Hne];
        [exfalso; apply Hc; now left | split; reflexivity].
Qed.

(** set_stats never raises; it retains the played rows and derives both
    mappings from them, column by column. *)
Lemma set_stats_spec (self : Player) (table : DataFrame) :
  let kept := mkDataFrame (columns table) (played_rows table) in
  exists m s,
    set_stats np_sqrt self table
      = (Ok statistics_set, with_distribution (with_stats self kept) m s) /\
    forall c j, col_index (columns table) c = Some j ->
      dict_get m c
        = Some (series_mean (map (fun r => cell r j) (played_rows table))) /\
      dict_get s c
        = Some (series_std np_sqrt (map (fun r => cell r j) (played_rows table))).
Proof.
  intros kept. unfold set_stats, df_loc, ne0_any_axis1.
  rewrite select_rows_filter. fold (played_rows table). fold kept.
  unfold _calculate_distribution. cbn [stats_available with_stats].
  destruct (_calculate_distribution_loop_spec kept (columns kept)
              (fun c H => H) [] []) as (m & s & Hrun & Hspec).
  rewrite Hrun.
  exists m, s. split; [reflexivity |].
  intros c j Hj. destruct (Hspec c) as [Hin _].
  apply Hin; [| exact Hj].
  cbn [columns kept]. destruct (col_index_Some _ _ _ Hj) as [Hlt <-].
  now apply nth_In.
Qed.

End SetStats.

(* ===================================================================== *)
(** ** Bootstrap draws *)
(* ===================================================================== *)

Lemma col_indices_Forall2 (cols names : list string) (js : list nat) :
  col_indices cols names = Ok js ->
  Forall2 (fun c j => col_index cols c = Some j) names js.
Proof.
  revert js. induction names as [| c names IH]; simpl; intros js.
  - intros H. injection H as <-. constructor.
  - destruct (col_index cols c) as [j |] eqn:Hj; [| discriminate].
    destruct (col_indices cols names) as [js' | e]; [| discriminate].
    intros H. injection H as <-. constructor; auto.
Qed.

Lemma record_of_lookup (cols : list string) (r : list pyfloat)
    (names : list string) (js : list nat) :
  Forall2 (fun c j => col_index cols c = Some j) names js ->
  forall acc c v,
    dict_get (record_of names (map (cell r) js) acc) c = Some v ->
    dict_get acc c = Some v \/
    exists j, col_index cols c = Some j /\ v = cell r j.
Proof.
  induction 1 as [| c0 j0 names js Hj0 _ IH]; intros acc c v; simpl; [auto |].
  intros H. destruct (IH _ _ _ H) as [Hacc | Hrow]; [| auto].
  rewrite dict_get_set in Hacc.
  destruct (String.eqb_spec c c0) as [-> | Hne]; [| auto].
  injection Hacc as <-. right. eauto.
Qed.

Lemma df_sample_inv (df drawn : DataFrame) (w w' : World) :
  df_sample df w = (Ok drawn, w') ->
  exists i, (i < List.length (rows df))%nat /\
            drawn = mkDataFrame (columns df) [nth i (rows df) []].
Proof.
  unfold df_sample. destruct (rows df) as [| r0 rs] eqn:Hrows; [discriminate |].
  unfold bind, randrow, ret.
  set (n := List.length (r0 :: rs)).
  assert (Hi : (choices w (clock w) mod n < n)%nat)
    by (apply Nat.mod_upper_bound; discriminate).
  set (i := (choices w (clock w) mod n)%nat) in *.
  clearbody i n. intros H. injection H as <- <-.
  exists i. split; [exact Hi | reflexivity].
Qed.

Lemma _bootstrap_inv (self : Player) (table : DataFrame)
    (stat_list : list string) (w w' : World) (line : dict pyfloat) :
  stats self = Some table ->
  _bootstrap self stat_list w = (Ok line, w') ->
  exists r js,
    In r (rows table) /\
    col_indices (columns table) stat_list = Ok js /\
    line = record_of stat_list (map (cell r) js) [].
Proof.
  intros Hs. unfold _bootstrap. rewrite Hs.
  unfold bind, lift, df_getitem_list.
  destruct (col_indices (columns table) stat_list) as [js | e] eqn:Hjs;
    [| discriminate].
  set (f := fun r : list pyfloat => map (cell r) js).
  destruct (df_sample (mkDataFrame stat_list (map f (rows table))) w)
    as [[drawn | e] w1] eqn:Hdraw; [| discriminate].
  apply df_sample_inv in Hdraw. destruct Hdraw as (i & Hi & ->).
  cbn [rows columns to_dict_records map first_item] in *.
  intros H. injection H as <- <-.
  rewrite length_map in Hi.
  exists (nth i (rows table) []), js. split; [| split; [reflexivity |]].
  - now apply nth_In.
  - f_equal. rewrite (nth_indep _ [] (f [])) by (now rewrite length_map).
    now rewrite map_nth.
Qed.

Section ZeroRows.

Variable np_sqrt : Q -> Q.

(** C4 -- set_stats drops every all-zero row before anything else: the
    table it retains holds exactly the rows with a cell different from
    zero, both derived mappings are computed over those rows, and every
    statline that a bootstrap draw returns takes its values from one of
    them. *)
Theorem set_stats_excludes_zero_rows (self : Player) (table : DataFrame) :
  wf_frame table ->
  exists self' m s,
    set_stats np_sqrt self table = (Ok statistics_set, self') /\
    stats self' = Some (mkDataFrame (columns table) (played_rows table)) /\
    (forall r, In r (played_rows table) <-> In r (rows table) /\ ~ all_zero r) /\
    means self' = Some m /\
    stdevs self' = Some s /\
    (forall c j, col_index (columns table) c = Some j ->
       dict_get m c
         = Some (series_mean (map (fun r => cell r j) (played_rows table))) /\
       dict_get s c
         = Some (series_std np_sqrt
                   (map (fun r => cell r j) (played_rows table)))) /\
    (forall stat_list w line w',
       _bootstrap self' stat_list w = (Ok line, w') ->
       exists r,
         In r (rows table) /\ ~ all_zero r /\
         forall c v, dict_get line c = Some v ->
           exists j, col_index (columns table) c = Some j /\ v = cell r j).
Proof.
  intros _. destruct (set_stats_spec np_sqrt self table) as (m & s & Hset & Hms).
  eexists. exists m, s. split; [exact Hset |].
  split; [reflexivity |]. split; [apply played_rows_spec |].
  split; [reflexivity |]. split; [reflexivity |]. split; [exact Hms |].
  intros stat_list w line w' Hdraw.
  apply _bootstrap_inv
    with (table := mkDataFrame (columns table) (played_rows table)) in Hdraw;
    [| reflexivity].
  destruct Hdraw as (r & js & Hr & Hjs & ->). cbn [rows columns] in Hr, Hjs.
  apply played_rows_spec in Hr. destruct Hr as [Hin Hnz].
  exists r. split; [exact Hin |]. split; [exact Hnz |].
  intros c v Hv.
  destruct (record_of_lookup _ r _ _ (col_indices_Forall2 _ _ _ Hjs) [] c v Hv)
    as [Hnil | Hrow]; [discriminate | exact Hrow].
Qed.

End ZeroRows.

Lemma wf_scenario_table : wf_frame scenario_table.
Proof.
  split.
  - repeat constructor; simpl; intuition discriminate.
  - repeat constructor.
Qed.

Lemma set_stats_excludes_zero_rows_witness :
  wf_frame scenario_table /\
  exists self',
    set_stats floor_sqrt sample_player scenario_table = (Ok statistics_set, self') /\
    stats self'
      = Some (mkDataFrame (columns scenario_table) (played_rows scenario_table)).
Proof.
  split; [exact wf_scenario_table |].
  destruct (set_stats_excludes_zero_rows floor_sqrt sample_player scenario_table
              wf_scenario_table) as (self' & m & s & Hset & Hstats & _).
  exists self'. split; assumption.
Defined.

(* ===================================================================== *)
(** ** The derived distribution *)
(* ===================================================================== *)


Lemma finite_values_length (xs : list pyfloat) :
  (List.length (finite_values xs) <= List.length xs)%nat.
Proof.
  induction xs as [| [| q] xs IH]; simpl; lia.
Qed.





Lemma series_var_short (xs : list pyfloat) :
  (List.length xs < 2)%nat -> series_var xs = None.
Proof.
  intros H. unfold series_var.
  pose proof (finite_values_length xs) as Hle.
  destruct (Nat.leb_spec (List.length (finite_values xs)) 1); [reflexivity | lia].
Qed.

Section Distribution.

Variable np_sqrt : Q -> Q.



End Distribution.


(* ===================================================================== *)
(** ** The keys of a generated statline *)
(* ===================================================================== *)

Lemma _continuous_loop_keys (self : Player) (cats : list string) :
  forall acc acc0 w line w',
    dict_keys acc = dict_keys acc0 ->
    _continuous_loop self cats acc w = (Ok line, w') ->
    dict_keys line
      = dict_keys (fold_left (fun d c => dict_set d c NaN) cats acc0).
Proof.
  induction cats as [| c cats IH]; intros acc acc0 w line w' Hkeys; simpl.
  - unfold ret. intros H. injection H as <- <-. exact Hkeys.
  - unfold bind, lift.
    destruct (subscript (means self) c) as [mu | e]; [| discriminate].
    destruct (subscript (stdevs self) c) as [sigma | e]; [| discriminate].
    cbn [gauss]. apply IH. now apply dict_keys_set_irrel.
Qed.

Lemma record_of_keys (names : list string) :
  forall vals acc acc0,
    List.length vals = List.length names ->
    dict_keys acc = dict_keys acc0 ->
    dict_keys (record_of names vals acc)
      = dict_keys (fold_left (fun d c => dict_set d c NaN) names acc0).
Proof.
  induction names as [| c names IH]; intros [| v vals] acc acc0 Hlen Hkeys;
    simpl in *; try discriminate; [exact Hkeys |].
  apply IH; [lia | now apply dict_keys_set_irrel].
Qed.

Lemma In_fold_dict_set (cats : list string) (k : string) :
  forall acc : dict pyfloat,
    In k (dict_keys (fold_left (fun d c => dict_set d c NaN) cats acc)) ->
    In k (dict_keys acc) \/ In k cats.
Proof.
  induction cats as [| c cats IH]; intros acc; simpl; [auto |].
  intros H. destruct (IH _ H) as [Hacc | Hcats]; [| auto].
  apply dict_keys_set in Hacc. destruct Hacc as [-> | Hacc]; auto.
Qed.

Lemma In_keys_built (cats : list string) (k : string) :
  In k (keys_built cats) -> In k cats.
Proof.
  intros H. destruct (In_fold_dict_set cats k [] H) as [[] | Hk]. exact Hk.
Qed.

Lemma Forall_eq_repeat {A} (x : A) (l : list A) :
  Forall (fun y => y = x) l -> l = repeat x (List.length l).
Proof.
  induction 1 as [| y l -> _ IH]; simpl; [reflexivity | now rewrite <- IH].
Qed.

(** generate_statline_all, when it returns, returns one statline per
    game, and the keys of each are fixed by the available categories. *)
Lemma generate_statline_all_keys (self : Player) (n : Z) (bootstrap : bool)
    (w w' : World) (lines : list (dict pyfloat)) :
  generate_statline_all self n bootstrap w = (Ok lines, w') ->
  map dict_keys lines = repeat (keys_built (stats_available self)) (range_len n).
Proof.
  unfold generate_statline_all. intros Hrun.
  assert (H : List.length lines = range_len n /\
              Forall (fun line => dict_keys line = keys_built (stats_available self))
                     lines).
  { destruct bootstrap; cbn [negb] in Hrun;
      refine (repeatM_inv _ _ _ _ _ _ _ Hrun); intros w0 line w1 Hline.
    - destruct (stats self) as [table |] eqn:Hstats.
      + destruct (_bootstrap_inv _ _ _ _ _ _ Hstats Hline) as (r & js & _ & Hjs & ->).
        apply record_of_keys; [| reflexivity].
        apply col_indices_Forall2 in Hjs. apply Forall2_length in Hjs.
        now rewrite length_map.
      + unfold _bootstrap in Hline. rewrite Hstats in Hline. discriminate.
    - unfold _continuous in Hline.
      now apply (_continuous_loop_keys _ _ _ [] _ _ _ eq_refl Hline). }
  destruct H as [Hlen HF].
  rewrite <- Hlen, <- (length_map dict_keys).
  apply Forall_eq_repeat. now apply Forall_map.
Qed.

(* ===================================================================== *)
(** ** The simulator *)
(* ===================================================================== *)

Lemma distinct_In (l : list string) (x : string) : In x (distinct l) <-> In x l.
Proof.
  induction l as [| y l IH]; simpl; [tauto |].
  rewrite filter_In, IH, negb_true_iff, String.eqb_neq.
  destruct (string_dec y x); intuition congruence.
Qed.

Section Simulator.

Variable np_sqrt : Q -> Q.
Variable _get_ids : string -> string -> list Z.
Variable _get_data : Z -> string -> list GDPlayerBDL.game.
Variable ids : dict Z.
Variable games_of : Z -> string -> string -> list GDScheduleBDL.game.

Lemma get_stats_columns (name tm : string) (stat_list : list string)
    (start_date : string) (df : DataFrame) :
  GDPlayerBDL.get_stats _get_ids _get_data name tm stat_list start_date = Ok df ->
  columns df = stat_list /\
  forall c, In c stat_list -> In c GDPlayerBDL.stats_available.
Proof.
  unfold GDPlayerBDL.get_stats.
  destruct (find _ stat_list) as [item |] eqn:Hfind; [discriminate |].
  intros H. split.
  - destruct (_get_ids name (upper tm)) as [| player players];
      [discriminate |].
    cbn in H. injection H as <-. reflexivity.
  - intros c Hc. apply (find_none _ _ Hfind) in Hc.
    apply negb_false_iff in Hc. now apply mem_In.
Qed.

Lemma set_stats_fields (self self' : Player) (table : DataFrame)
    (r : result (Z * string)) :
  set_stats np_sqrt self table = (r, self') ->
  team self' = team self /\ stats_available self' = columns table.
Proof.
  destruct (set_stats_spec np_sqrt self table) as (m & s & Hset & _).
  rewrite Hset. intros H. injection H as _ <-. split; reflexivity.
Qed.

Lemma _initiate_player_stats_spec (stat_list : list string) (stat_start : string) :
  forall roster roster',
    _initiate_player_stats np_sqrt _get_ids _get_data roster stat_list stat_start
      = Ok roster' ->
    map team roster' = map team roster /\
    Forall (fun p => stats_available p = stat_list) roster' /\
    (roster <> [] -> forall c, In c stat_list -> In c GDPlayerBDL.stats_available).
Proof.
  induction roster as [| player rest IH]; intros roster'; simpl.
  - intros H. injection H as <-. repeat split; [constructor | congruence].
  - destruct (GDPlayerBDL.get_stats _ _ _ _ _ _) as [table | e] eqn:Hget;
      [| discriminate].
    destruct (set_stats np_sqrt player table) as [[sig | e] player'] eqn:Hset;
      [| discriminate].
    destruct (_initiate_player_stats _ _ _ rest _ _) as [rest' | e];
      [| discriminate].
    intros H. injection H as <-.
    destruct (IH rest' eq_refl) as (Hteams & Havail & _).
    destruct (get_stats_columns _ _ _ _ _ Hget) as [Hcols Hsub].
    destruct (set_stats_fields _ _ _ _ Hset) as [Hteam Hav].
    simpl. rewrite Hteam, Hteams. repeat split.
    + constructor; [congruence | assumption].
    + intros _. exact Hsub.
Qed.

Lemma get_num_games_nonneg (tm start_date end_date : string) (n : Z) :
  GDScheduleBDL.get_num_games ids games_of tm start_date end_date = Ok n ->
  (0 <= n)%Z.
Proof.
  unfold GDScheduleBDL.get_num_games.
  destruct (GDScheduleBDL.get_schedule _ _ _ _ _); [| discriminate].
  intros H. injection H as <-. lia.
Qed.

Lemma _count_games_loop_spec (start_date end_date : string) (teams : list string) :
  forall acc d,
    _count_games_loop ids games_of teams start_date end_date acc = Ok d ->
    forall t,
      (In t teams -> exists n,
         GDScheduleBDL.get_num_games ids games_of t start_date end_date = Ok n /\
         dict_get d t = Some n) /\
      (~ In t teams -> dict_get d t = dict_get acc t).
Proof using ids games_of.
  induction teams as [| t0 teams IH]; intros acc d; simpl.
  - intros H. injection H as <-. intros t. split; [intros [] | reflexivity].
  - destruct (GDScheduleBDL.get_num_games ids games_of t0 start_date end_date)
      as [n0 | e] eqn:Hn0; [| discriminate].
    intros Hloop t. destruct (IH _ _ Hloop t) as [Hin Hout]. split.
    + intros Ht. destruct (in_dec string_dec t teams) as [Hrest | Hrest];
        [apply Hin; exact Hrest |].
      destruct Ht as [-> | Ht]; [| contradiction].
      exists n0. split; [exact Hn0 |].
      rewrite (Hout Hrest), dict_get_set, String.eqb_refl. reflexivity.
    + intros Ht. rewrite (Hout (fun H => Ht (or_intror H))), dict_get_set.
      destruct (String.eqb_spec t t0) as [-> | Hne];
        [exfalso; apply Ht; left; reflexivity | reflexivity].
Qed.

Lemma roster_statlines_keys (stat_list : list string) (num_games : dict Z)
    (bootstrap : bool) :
  forall roster,
    Forall (fun p => stats_available p = stat_list) roster ->
    forall w lines w',
      roster_statlines roster num_games bootstrap w = (Ok lines, w') ->
      map dict_keys lines
        = repeat (keys_built stat_list) (games_in_pass num_games roster).
Proof.
  induction roster as [| player rest IH]; intros Havail w lines w'; simpl.
  - unfold ret. intros H. injection H as <- <-. reflexivity.
  - pose proof (Forall_inv Havail) as Hp. cbv beta in Hp.
    pose proof (Forall_inv_tail Havail) as Hrest.
    unfold bind, lift, dict_item, games_in_pass. simpl.
    destruct (dict_get num_games (team player)) as [n |]; [| discriminate].
    destruct (generate_statline_all player n bootstrap w)
      as [[own | e] w1] eqn:Hown; [| discriminate].
    destruct (roster_statlines rest num_games bootstrap w1)
      as [[more | e] w2] eqn:Hmore; [| discriminate].
    unfold ret. intros H. injection H as <- <-.
    rewrite map_app, repeat_app.
    rewrite (generate_statline_all_keys _ _ _ _ _ _ Hown), Hp.
    now rewrite (IH Hrest _ _ _ Hmore).
Qed.

End Simulator.

(* ===================================================================== *)
(** ** The frame of one run and the frame of totals *)
(* ===================================================================== *)

Lemma col_index_None (cols : list string) (c : string) :
  ~ In c cols -> col_index cols c = None.
Proof.
  intros H. destruct (col_index cols c) as [j |] eqn:Hj; [| reflexivity].
  destruct (col_index_Some _ _ _ Hj) as [Hlt <-].
  exfalso. apply H. now apply nth_In.
Qed.

Lemma col_index_app_last (l : list string) (c : string) :
  ~ In c l -> col_index (l ++ [c]) c = Some (List.length l).
Proof.
  induction l as [| x l IH]; simpl; intros H.
  - now rewrite String.eqb_refl.
  - destruct (String.eqb_spec c x) as [-> | Hne]; [exfalso; auto |].
    rewrite IH by auto. reflexivity.
Qed.

Lemma In_add_labels (ks : list string) (c : string) :
  forall acc, In c (add_labels acc ks) -> In c acc \/ In c ks.
Proof.
  induction ks as [| k ks IH]; intros acc; simpl; [auto |].
  intros H. destruct (IH _ H) as [Hacc | Hks]; [| auto].
  destruct (mem k acc); [auto |].
  apply in_app_or in Hacc. destruct Hacc as [Hacc | [<- | []]]; auto.
Qed.

Lemma In_fold_add_labels (ls : list (list string)) (c : string) :
  forall acc,
    In c (fold_left add_labels ls acc) ->
    In c acc \/ exists l, In l ls /\ In c l.
Proof.
  induction ls as [| l ls IH]; intros acc; simpl; [auto |].
  intros H. destruct (IH _ H) as [Hacc | (l' & Hl' & Hc)].
  - destruct (In_add_labels _ _ _ Hacc); [auto | right; eauto].
  - right. eauto.
Qed.

Lemma Qplus'_inject_Z (a b : Z) :
  Qplus' (inject_Z a) (inject_Z b) = inject_Z (a + b).
Proof.
  unfold Qplus', Qplus, inject_Z. cbn [Qnum Qden].
  rewrite !Z.mul_1_r, Pos.mul_1_r.
  apply Qcanon.Qred_identity. cbn [Qnum Qden]. apply Z.gcd_1_r.
Qed.

Lemma fold_left_ones {A} (l : list A) (k : Z) :
  fold_left Qplus' (map (fun _ => 1) l) (inject_Z k)
    = inject_Z (k + Z.of_nat (List.length l)).
Proof.
  revert k. induction l as [| x l IH]; intros k; simpl fold_left.
  - simpl. now rewrite Z.add_0_r.
  - change 1 with (inject_Z 1). rewrite Qplus'_inject_Z, IH.
    f_equal. simpl List.length. lia.
Qed.

(** The sum of a column that holds 1 in every row is the number of rows. *)
Lemma series_sum_ones {A} (l : list A) :
  series_sum (map (fun _ => F 1) l) = of_nat (List.length l).
Proof.
  unfold series_sum, of_nat, Qsum. f_equal.
  replace (finite_values (map (fun _ => F 1) l)) with (map (fun _ : A => 1) l)
    by (induction l as [| x l IH]; simpl; [reflexivity | now rewrite <- IH]).
  change 0 with (inject_Z 0). now rewrite fold_left_ones.
Qed.

Lemma list_max_const {A} (L : nat) (l : list (list A)) :
  l <> [] -> Forall (fun r => List.length r = L) l ->
  list_max (map (@List.length A) l) = L.
Proof.
  intros Hne HF. induction HF as [| r l Hr HF IH]; [congruence |].
  simpl. rewrite Hr. destruct l as [| r' l'].
  - simpl. apply Nat.max_0_r.
  - rewrite IH by discriminate. apply Nat.max_id.
Qed.

Lemma repeatM_pure {A} (body : M A) (a : A) :
  (forall w, body w = (Ok a, w)) ->
  forall n w, repeatM n body w = (Ok (repeat a n), w).
Proof.
  intros Hbody. induction n as [| n IH]; intros w; simpl; [reflexivity |].
  unfold bind, ret. now rewrite Hbody, IH.
Qed.

Lemma games_in_pass_teams (num_games : dict Z) (r1 r2 : list Player) :
  map team r1 = map team r2 ->
  games_in_pass num_games r1 = games_in_pass num_games r2.
Proof.
  intros H. unfold games_in_pass.
  rewrite <- (map_map team (fun t => match dict_get num_games t with
                                     | Some n => range_len n
                                     | None => O
                                     end) r1).
  rewrite <- (map_map team (fun t => match dict_get num_games t with
                                     | Some n => range_len n
                                     | None => O
                                     end) r2).
  now rewrite H.
Qed.

Lemma games_not_available : ~ In "games" GDPlayerBDL.stats_available.
Proof. simpl. intuition discriminate. Qed.

(** One run, when it returns, returns the sums of the category columns
    followed by the number of statlines of the pass. *)
Lemma one_run_row (stat_list : list string) (num_games : dict Z)
    (bootstrap : bool) (roster : list Player) :
  Forall (fun p => stats_available p = stat_list) roster ->
  roster = [] \/ ~ In "games" stat_list ->
  forall w row w',
    one_run roster num_games bootstrap w = (Ok row, w') ->
    exists body,
      row = body ++ [of_nat (games_in_pass num_games roster)] /\
      List.length body
        = List.length
            (fold_left add_labels
               (repeat (keys_built stat_list) (games_in_pass num_games roster)) []).
Proof.
  intros Havail Hgames w row w'. unfold one_run, bind, ret.
  destruct (roster_statlines roster num_games bootstrap w)
    as [[lines | e] w1] eqn:Hlines; [| discriminate].
  intros H. injection H as <- <-.
  pose proof (roster_statlines_keys _ _ _ _ Havail _ _ _ Hlines) as Hkeys.
  unfold DataFrame_of_records. rewrite Hkeys.
  set (count := games_in_pass num_games roster) in *.
  set (cols := fold_left add_labels (repeat (keys_built stat_list) count) []).
  assert (Hnone : col_index cols "games" = None).
  { apply col_index_None. intros Hin.
    apply In_fold_add_labels in Hin. destruct Hin as [[] | (l & Hl & Hin)].
    unfold count in Hl. destruct Hgames as [Hempty | Hgames].
    - rewrite Hempty in Hl. cbn in Hl. contradiction.
    - apply repeat_spec in Hl. subst l. apply In_keys_built in Hin. auto. }
  unfold df_setitem. cbn [columns rows]. rewrite Hnone.
  unfold df_sum_tolist. cbn [columns rows].
  rewrite length_app. cbn [List.length]. rewrite Nat.add_1_r, seq_S, map_app.
  eexists. split; [| now rewrite length_map, length_seq].
  f_equal. cbn [map Nat.add]. f_equal.
  rewrite !map_map.
  rewrite (map_ext _ (fun _ => F 1)).
  - rewrite series_sum_ones. f_equal.
    apply (f_equal (@List.length _)) in Hkeys.
    now rewrite length_map, repeat_length in Hkeys.
  - intros record. unfold cell.
    rewrite app_nth2 by (rewrite length_map; lia).
    now rewrite length_map, Nat.sub_diag.
Qed.

Lemma DataFrame_of_rows_inv (data : list (list pyfloat)) (cols : list string)
    (df : DataFrame) :
  DataFrame_of_rows data cols = Ok df ->
  columns df = cols /\
  (rows df = [] \/
   data <> [] /\
   list_max (map (@List.length pyfloat) data) = List.length cols /\
   rows df = map (pad_row (List.length cols)) data).
Proof.
  unfold DataFrame_of_rows. destruct data as [| r0 rs].
  - intros H. injection H as <-. split; [reflexivity | now left].
  - set (data := r0 :: rs).
    destruct (Nat.eqb_spec (list_max (map (@List.length pyfloat) data))
                           (List.length cols)) as [Heq | _]; [| discriminate].
    intros H. injection H as <-. split; [reflexivity | right].
    split; [discriminate |]. split; [exact Heq |].
    exact (f_equal (fun n => map (pad_row n) data) Heq).
Qed.

Section Totals.

Variable np_sqrt : Q -> Q.
Variable _get_ids : string -> string -> list Z.
Variable _get_data : Z -> string -> list GDPlayerBDL.game.
Variable ids : dict Z.
Variable games_of : Z -> string -> string -> list GDScheduleBDL.game.

(** C3 -- with an empty roster every run sums an empty frame to the
    single value [games = 0], so as soon as one category is requested
    and one run is made the rows are one cell wide where
    [stat_list + ['games']] asks for more: the construction of the
    result raises a ValueError instead of returning rows of zeros. *)
Theorem generate_stat_totals_empty_roster_raises
    (sim_start sim_end stat_start : string) (c : string) (cats : list string)
    (runs : positive) (bootstrap : bool) (w : World) :
  exists msg,
    generate_stat_totals np_sqrt _get_ids _get_data ids games_of
      [] sim_start sim_end (c :: cats) stat_start (Zpos runs) bootstrap w
    = (Raise (ValueError msg), w).
Proof.
  unfold generate_stat_totals, bind, lift. cbn [_initiate_player_stats].
  cbn [map distinct _count_games _count_games_loop].
  rewrite (repeatM_pure (one_run [] [] bootstrap) [F 0]) by reflexivity.
  unfold range_len. cbn [Z.to_nat].
  destruct (Pos2Nat.is_succ runs) as [k ->].
  unfold DataFrame_of_rows. cbn [repeat].
  rewrite (list_max_const 1%nat);
    [| discriminate
     | change ([F 0] :: repeat [F 0] k) with (repeat [F 0] (S k));
       apply Forall_forall; intros r Hr; apply repeat_spec in Hr; now subst r].
  cbn [List.length app]. rewrite length_app. cbn [List.length].
  destruct (Nat.eqb_spec 1 (S (List.length cats + 1))) as [Heq | _]; [lia |].
  eexists. reflexivity.
Qed.

(** C5 -- in every row that generate_stat_totals returns, the value
    under 'games' is the number of statlines summed in that pass: the
    sum, over the players of the roster, of the game count that the
    schedule gives for the player's team; it is the same in every
    row. *)
Theorem games_column_counts_statlines
    (roster : list Player) (sim_start sim_end : string)
    (stat_list : list string) (stat_start : string) (num_runs : Z)
    (bootstrap : bool) (w w' : World) (totals : DataFrame) :
  generate_stat_totals np_sqrt _get_ids _get_data ids games_of
    roster sim_start sim_end stat_list stat_start num_runs bootstrap w
    = (Ok totals, w') ->
  exists num_games,
    _count_games ids games_of (distinct (map team roster)) sim_start sim_end
      = Ok num_games /\
    (forall player, In player roster ->
       exists n,
         GDScheduleBDL.get_num_games ids games_of (team player) sim_start sim_end
           = Ok n /\
         dict_get num_games (team player) = Some n) /\
    forall r, In r (rows totals) ->
      row_item totals r "games"
        = Some (of_nat (games_in_pass num_games roster)).
Proof.
  unfold generate_stat_totals, bind, lift.
  destruct (_initiate_player_stats _ _ _ roster stat_list stat_start)
    as [roster' | e] eqn:Hinit; [| discriminate].
  destruct (_initiate_player_stats_spec _ _ _ _ _ _ _ Hinit)
    as (Hteams & Havail & Hsub).
  rewrite Hteams.
  destruct (_count_games ids games_of (distinct (map team roster)) sim_start sim_end)
    as [num_games | e] eqn:Hcount; [| discriminate].
  destruct (repeatM (range_len num_runs) (one_run roster' num_games bootstrap) w)
    as [[runs | e] w1] eqn:Hruns; [| discriminate].
  intros Hdf. injection Hdf as Hdf <-.
  exists num_games. split; [reflexivity |]. split.
  { intros player Hplayer.
    apply (_count_games_loop_spec ids games_of sim_start sim_end _ [] num_games Hcount).
    apply distinct_In. now apply in_map. }
  rewrite <- (games_in_pass_teams num_games roster' roster Hteams).
  assert (Hgames : roster' = [] \/ ~ In "games" stat_list).
  { destruct roster' as [| p ps]; [now left | right].
    intros Hin. apply games_not_available. apply Hsub; [| exact Hin].
    intros ->. discriminate. }
  set (count := games_in_pass num_games roster') in *.
  set (cols := fold_left add_labels (repeat (keys_built stat_list) count) []).
  assert (Hrows : Forall (fun row => exists body,
                            row = body ++ [of_nat count] /\
                            List.length body = List.length cols) runs).
  { refine (proj2 (repeatM_inv _ _ _ _ _ _ _ Hruns)).
    intros w0 row w2. now apply one_run_row. }
  destruct (DataFrame_of_rows_inv _ _ _ Hdf) as [Hcolumns Hshape].
  destruct Hshape as [Hnone | (Hne & Hmax & Hpad)];
    [rewrite Hnone; intros r [] |].
  assert (Hwidth : list_max (map (@List.length pyfloat) runs)
                   = S (List.length cols)).
  { apply list_max_const; [exact Hne |].
    eapply Forall_impl; [| exact Hrows].
    intros row (body & -> & Hlen). rewrite length_app, Hlen. simpl. lia. }
  rewrite Hwidth, length_app in Hmax. cbn [List.length] in Hmax.
  assert (Hcols : List.length cols = List.length stat_list) by lia.
  assert (Hnotin : ~ In "games" stat_list).
  { destruct Hgames as [Hempty | Hgames]; [| exact Hgames].
    subst cols count. rewrite Hempty in Hcols. cbn in Hcols.
    destruct stat_list; [intros [] | discriminate]. }
  unfold row_item. rewrite Hpad, Hcolumns.
  intros r Hr. apply in_map_iff in Hr. destruct Hr as (row & <- & Hrow).
  rewrite Forall_forall in Hrows.
  destruct (Hrows row Hrow) as (body & -> & Hbody).
  unfold pad_row.
  rewrite (col_index_app_last _ _ Hnotin). cbn [option_map]. f_equal.
  rewrite !length_app, Hbody. cbn [List.length].
  replace (List.length stat_list + 1 - (List.length cols + 1))%nat with O by lia.
  cbn [repeat]. rewrite app_nil_r. unfold cell.
  rewrite <- Hcols, <- Hbody. apply nth_middle.
Qed.

End Totals.

Lemma games_column_counts_statlines_witness :
  exists totals w',
    sample_run = (Ok totals, w') /\
    List.length (rows totals) = 3%nat /\
    forall r, In r (rows totals) -> row_item totals r "games" = Some (of_nat 2).
Proof.
  remember sample_run as run eqn:Hrun.
  destruct run as [[totals | e] w']; [| vm_compute in Hrun; discriminate].
  exists totals, w'. split; [reflexivity |].
  split; [vm_compute in Hrun; now injection Hrun as -> _ |].
  symmetry in Hrun. unfold sample_run in Hrun.
  destruct (games_column_counts_statlines
              floor_sqrt sample_get_ids sample_get_data sample_ids sample_games_of
              [sample_player] "2020-01-01" "2020-01-07" ["pts"; "reb"] "2019-10-22"
              3 false sample_world w' totals Hrun)
    as (num_games & Hcount & _ & Hgames).
  vm_compute in Hcount. injection Hcount as <-.
  exact Hgames.
Defined.


(* ===================================================================== *)
(** ** Further properties of Player *)
(* ===================================================================== *)

Lemma In_fold_dict_set_intro (cats : list string) (k : string) :
  forall acc : dict pyfloat,
    In k (dict_keys acc) \/ In k cats ->
    In k (dict_keys (fold_left (fun d c => dict_set d c NaN) cats acc)).
Proof.
  induction cats as [| c cats IH]; intros acc; simpl.
  - intros [H | []]. exact H.
  - intros H. apply IH. rewrite dict_keys_set.
    destruct H as [H | [-> | H]]; auto.
Qed.

Lemma col_indices_total (cols names : list string) :
  incl names cols -> exists js, col_indices cols names = Ok js.
Proof.
  induction names as [| c names IH]; intros Hincl; simpl; [eauto |].
  destruct (col_index_In cols c (Hincl c (or_introl eq_refl))) as [j Hj].
  destruct (IH (fun x H => Hincl x (or_intror H))) as [js Hjs].
  rewrite Hj, Hjs. eauto.
Qed.

(** A draw from a table with at least one row returns the record of one
    of its rows. *)
Lemma _bootstrap_ok (self : Player) (table : DataFrame)
    (stat_list : list string) (js : list nat) (w : World) :
  stats self = Some table ->
  col_indices (columns table) stat_list = Ok js ->
  rows table <> [] ->
  exists r w',
    _bootstrap self stat_list w
      = (Ok (record_of stat_list (map (cell r) js) []), w') /\
    In r (rows table).
Proof.
  intros Hstats Hjs Hrows.
  destruct (_bootstrap self stat_list w) as [[line | e] w'] eqn:Hrun.
  - destruct (_bootstrap_inv _ _ _ _ _ _ Hstats Hrun) as (r & js' & Hr & Hjs' & ->).
    rewrite Hjs in Hjs'. injection Hjs' as <-. eauto.
  - exfalso. revert Hrun. unfold _bootstrap. rewrite Hstats.
    unfold bind, lift, df_getitem_list. rewrite Hjs.
    unfold df_sample. cbn [rows columns].
    destruct (rows table) as [| r0 rs]; [congruence |].
    cbn [map]. unfold bind, randrow, ret. cbn [to_dict_records rows map first_item].
    discriminate.
Qed.

Lemma record_of_get (cols : list string) (r : list pyfloat)
    (names : list string) (js : list nat) (c : string) (j : nat) :
  Forall2 (fun c j => col_index cols c = Some j) names js ->
  In c names -> col_index cols c = Some j ->
  dict_get (record_of names (map (cell r) js) []) c = Some (cell r j).
Proof.
  intros HF Hc Hj.
  assert (Hkey : In c (dict_keys (record_of names (map (cell r) js) []))).
  { rewrite (record_of_keys names _ [] []);
      [| rewrite length_map; symmetry; exact (Forall2_length HF) | reflexivity].
    apply In_fold_dict_set_intro. now right. }
  destruct (dict_get_In _ _ Hkey) as [v Hv]. rewrite Hv.
  destruct (record_of_lookup cols r names js HF [] c v Hv) as [Hnil | (j' & Hj' & ->)];
    [discriminate |].
  rewrite Hj in Hj'. now injection Hj' as <-.
Qed.

Lemma _continuous_loop_values (self : Player) (P : pyfloat -> Prop)
    (cats : list string) :
  (forall c mu sigma z,
     In c cats ->
     subscript (means self) c = Ok mu ->
     subscript (stdevs self) c = Ok sigma ->
     P (fadd mu (fmul (F z) sigma))) ->
  forall acc w line w',
    (forall k v, dict_get acc k = Some v -> P v) ->
    _continuous_loop self cats acc w = (Ok line, w') ->
    forall k v, dict_get line k = Some v -> P v.
Proof.
  induction cats as [| c cats IH]; intros Hdraw acc w line w' Hacc; simpl.
  - unfold ret. intros H. injection H as <- <-. exact Hacc.
  - unfold bind, lift.
    destruct (subscript (means self) c) as [mu | e] eqn:Hmu; [| discriminate].
    destruct (subscript (stdevs self) c) as [sigma | e] eqn:Hsigma; [| discriminate].
    cbn [gauss]. apply IH.
    + intros c' mu' sigma' z Hc'. apply Hdraw. now right.
    + intros k v. rewrite dict_get_set.
      destruct (String.eqb k c); [| apply Hacc].
      intros H. injection H as <-. apply (Hdraw c); auto. now left.
Qed.

Lemma set_distribution_same_keys (self : Player) (mu sigma : dict pyfloat) :
  wf_dict mu -> wf_dict sigma -> same_keys mu sigma ->
  exists self',
    set_distribution self mu sigma = (Ok statistics_set, self') /\ stats self' = None.
Proof.
  intros Hmu Hsigma Hsame. unfold set_distribution.
  rewrite (proj2 (keys_eq_iff _ _ Hmu Hsigma) Hsame). cbn [negb].
  eexists. split; reflexivity.
Qed.

Lemma generate_statline_all_no_table (self : Player) (n : positive) (w : World) :
  stats self = None ->
  generate_statline_all self (Zpos n) true w = (Raise not_subscriptable, w).
Proof.
  intros Hstats. unfold generate_statline_all, range_len. cbn [negb Z.to_nat].
  destruct (Pos2Nat.is_succ n) as [k ->]. cbn [repeatM].
  unfold bind, _bootstrap. now rewrite Hstats.
Qed.

Section PlayerProperties.

Variable np_sqrt : Q -> Q.

(** X1 -- set_stats starts afresh: the four statistical attributes it
    leaves depend on the table alone, whatever the model held before,
    the identity is kept, and a second call with the same table changes
    nothing. *)
Theorem set_stats_overwrites (p q : Player) (table : DataFrame) :
  let p' := snd (set_stats np_sqrt p table) in
  let q' := snd (set_stats np_sqrt q table) in
  means p' = means q' /\ stdevs p' = stdevs q' /\
  stats p' = stats q' /\ stats_available p' = stats_available q' /\
  first_name p' = first_name p /\ last_name p' = last_name p /\
  team p' = team p /\
  set_stats np_sqrt p' table = set_stats np_sqrt p table.
Proof.
  destruct (set_stats_spec np_sqrt p table) as (m & s & Hp & _).
  unfold set_stats, _calculate_distribution in *. cbn [stats_available with_stats] in *.
  destruct (_calculate_distribution_loop np_sqrt _ _ [] []) as [[m' s'] | e];
    [| discriminate].
  cbn. repeat split.
Qed.

(** X2 -- set_distribution drops the table that an earlier set_stats
    retained: afterwards the bootstrap policy of generate_statline_all
    fails with a TypeError for any positive number of games, and draws
    nothing. *)
Theorem set_distribution_discards_table
    (self : Player) (table : DataFrame) (mu sigma : dict pyfloat)
    (n : positive) (w : World) :
  wf_dict mu -> wf_dict sigma -> same_keys mu sigma ->
  exists self',
    set_distribution (snd (set_stats np_sqrt self table)) mu sigma
      = (Ok statistics_set, self') /\
    stats self' = None /\
    generate_statline_all self' (Zpos n) true w = (Raise not_subscriptable, w).
Proof.
  intros Hmu Hsigma Hsame.
  destruct (set_distribution_same_keys (snd (set_stats np_sqrt self table)) mu sigma
              Hmu Hsigma Hsame) as (self' & Hset & Hstats).
  exists self'. split; [exact Hset |]. split; [exact Hstats |].
  now apply generate_statline_all_no_table.
Qed.

End PlayerProperties.

Lemma set_distribution_discards_table_witness :
  exists self',
    set_distribution (snd (set_stats floor_sqrt sample_player scenario_table))
      sample_means sample_stdevs = (Ok statistics_set, self') /\
    stats self' = None /\
    generate_statline_all self' 2 true sample_world
      = (Raise not_subscriptable, sample_world).
Proof.
  apply (set_distribution_discards_table floor_sqrt sample_player scenario_table
           sample_means sample_stdevs 2 sample_world).
  - repeat constructor; simpl; intuition discriminate.
  - repeat constructor; simpl; intuition discriminate.
  - intros k. simpl. intuition.
Defined.

Lemma played_rows_nil (table : DataFrame) :
  (forall r, In r (rows table) -> all_zero r) -> played_rows table = [].
Proof.
  intros H. destruct (played_rows table) as [| r rs] eqn:Hp; [reflexivity |].
  assert (Hr : In r (played_rows table)) by (rewrite Hp; now left).
  apply played_rows_spec in Hr. destruct Hr as [Hin Hnz].
  exfalso. apply Hnz. now apply H.
Qed.

Lemma fadd_fmul_NaN (mu : pyfloat) (z : Q) : fadd mu (fmul (F z) NaN) = NaN.
Proof. destruct mu; reflexivity. Qed.

Lemma wf_idle_table : wf_frame idle_table.
Proof.
  split.
  - repeat constructor; simpl; intuition discriminate.
  - repeat constructor.
Qed.

Section SamplingAfterSetStats.

Variable np_sqrt : Q -> Q.

(** X3 -- on a model set up by set_stats from a table with at least one
    played row, the bootstrap policy of generate_statline_all returns one
    statline per game, and each statline is one played row of the table,
    whole: every category holds the value that this one row has for it. *)
Theorem bootstrap_after_set_stats
    (self : Player) (table : DataFrame) (N : Z) (w : World) :
  wf_frame table -> played_rows table <> [] -> (0 <= N)%Z ->
  exists self' lines w',
    set_stats np_sqrt self table = (Ok statistics_set, self') /\
    generate_statline_all self' N true w = (Ok lines, w') /\
    Z.of_nat (List.length lines) = N /\
    Forall (fun line =>
              exists r,
                In r (rows table) /\ ~ all_zero r /\
                forall c j, col_index (columns table) c = Some j ->
                  dict_get line c = Some (cell r j))
           lines.
Proof.
  intros _ Hplayed HN.
  destruct (set_stats_spec np_sqrt self table) as (m & s & Hset & _).
  set (kept := mkDataFrame (columns table) (played_rows table)) in *.
  set (self' := with_distribution (with_stats self kept) m s) in *.
  destruct (col_indices_total (columns table) (columns table) (incl_refl _))
    as [js Hjs].
  pose proof (col_indices_Forall2 _ _ _ Hjs) as HF.
  assert (Hbody : forall w0, exists line w1,
             _bootstrap self' (stats_available self') w0 = (Ok line, w1) /\
             exists r,
               In r (rows table) /\ ~ all_zero r /\
               forall c j, col_index (columns table) c = Some j ->
                 dict_get line c = Some (cell r j)).
  { intros w0.
    destruct (_bootstrap_ok self' kept (columns table) js w0 eq_refl Hjs Hplayed)
      as (r & w1 & Hrun & Hr).
    eexists. exists w1. split; [exact Hrun |].
    apply played_rows_spec in Hr. destruct Hr as [Hin Hnz].
    exists r. split; [exact Hin |]. split; [exact Hnz |].
    intros c j Hj. apply (record_of_get (columns table)); [exact HF | | exact Hj].
    destruct (col_index_Some _ _ _ Hj) as [Hlt <-]. now apply nth_In. }
  destruct (repeatM_total _ _ Hbody (range_len N) w)
    as (lines & w' & Hrun & Hlen & Hall).
  exists self', lines, w'. split; [exact Hset |]. split; [exact Hrun |].
  split; [| exact Hall]. rewrite Hlen. unfold range_len. lia.
Qed.

(** X4 -- when every row of the table is all zero (or the table has no
    row), set_stats still succeeds, but the bootstrap policy then fails
    with a ValueError for any positive number of games, before anything
    is drawn. *)
Theorem bootstrap_without_played_rows
    (self : Player) (table : DataFrame) (n : positive) (w : World) :
  wf_frame table -> (forall r, In r (rows table) -> all_zero r) ->
  exists self' msg,
    set_stats np_sqrt self table = (Ok statistics_set, self') /\
    generate_statline_all self' (Zpos n) true w = (Raise (ValueError msg), w).
Proof.
  intros _ Hzero. apply played_rows_nil in Hzero.
  destruct (set_stats_spec np_sqrt self table) as (m & s & Hset & _).
  rewrite Hzero in Hset.
  destruct (col_indices_total (columns table) (columns table) (incl_refl _))
    as [js Hjs].
  eexists. eexists. split; [exact Hset |].
  unfold generate_statline_all, range_len. cbn [negb Z.to_nat].
  destruct (Pos2Nat.is_succ n) as [k ->]. cbn [repeatM].
  unfold bind at 1. unfold _bootstrap.
  cbn [stats stats_available with_distribution with_stats columns].
  unfold bind, lift, df_getitem_list. cbn [columns rows]. rewrite Hjs.
  reflexivity.
Qed.

(** X5 -- on a model set up by set_stats, the parametric policy of
    generate_statline_all returns one statline per game whose keys are
    the columns of the table; and when fewer than two played rows were
    left, every value it generates is NaN. *)
Theorem parametric_after_set_stats
    (self : Player) (table : DataFrame) (N : Z) (w : World) :
  wf_frame table -> (0 <= N)%Z ->
  exists self' lines w',
    set_stats np_sqrt self table = (Ok statistics_set, self') /\
    generate_statline_all self' N false w = (Ok lines, w') /\
    Z.of_nat (List.length lines) = N /\
    Forall (fun line =>
              (forall k, In k (dict_keys line) <-> In k (columns table)) /\
              ((List.length (played_rows table) < 2)%nat ->
               forall k v, dict_get line k = Some v -> v = NaN))
           lines.
Proof.
  intros _ HN.
  destruct (set_stats_spec np_sqrt self table) as (m & s & Hset & Hms).
  set (kept := mkDataFrame (columns table) (played_rows table)) in *.
  set (self' := with_distribution (with_stats self kept) m s) in *.
  assert (Hkeys : forall c, In c (columns table) ->
                            In c (dict_keys m) /\ In c (dict_keys s)).
  { intros c Hc. destruct (col_index_In _ _ Hc) as [j Hj].
    destruct (Hms c j Hj) as [Hm Hs].
    split; eapply dict_get_Some_In; eassumption. }
  assert (Hbody : forall w0, exists line w1,
             _continuous self' (stats_available self') w0 = (Ok line, w1) /\
             (forall k, In k (dict_keys line) <-> In k (columns table)) /\
             ((List.length (played_rows table) < 2)%nat ->
              forall k v, dict_get line k = Some v -> v = NaN)).
  { intros w0. unfold _continuous.
    destruct (_continuous_loop_ok self' m s (columns table) eq_refl eq_refl Hkeys
                [] w0) as (line & w1 & Hrun & Hline).
    exists line, w1. split; [exact Hrun |]. split.
    - intros k. rewrite Hline. simpl. intuition.
    - intros Hshort.
      apply (_continuous_loop_values self' (fun v => v = NaN) (columns table))
        with (acc := @nil (string * pyfloat)) (w := w0) (w' := w1);
        [| discriminate | exact Hrun].
      intros c mu sigma z Hc _ Hsigma.
      destruct (col_index_In _ _ Hc) as [j Hj].
      destruct (Hms c j Hj) as [_ Hs].
      cbn [stdevs self' with_distribution] in Hsigma.
      unfold subscript, dict_item in Hsigma. rewrite Hs in Hsigma.
      unfold series_std in Hsigma.
      rewrite series_var_short in Hsigma by (now rewrite length_map).
      injection Hsigma as <-. apply fadd_fmul_NaN. }
  destruct (repeatM_total _ _ Hbody (range_len N) w)
    as (lines & w' & Hrun & Hlen & Hall).
  exists self', lines, w'. split; [exact Hset |]. split; [exact Hrun |].
  split; [| exact Hall]. rewrite Hlen. unfold range_len. lia.
Qed.

End SamplingAfterSetStats.

Lemma bootstrap_after_set_stats_witness :
  exists self' lines w',
    set_stats floor_sqrt sample_player scenario_table = (Ok statistics_set, self') /\
    generate_statline_all self' 2 true sample_world = (Ok lines, w') /\
    Z.of_nat (List.length lines) = 2%Z.
Proof.
  destruct (bootstrap_after_set_stats floor_sqrt sample_player scenario_table
              2 sample_world wf_scenario_table)
    as (self' & lines & w' & Hset & Hrun & Hlen & _).
  - vm_compute. discriminate.
  - lia.
  - exists self', lines, w'. repeat split; assumption.
Defined.

Lemma bootstrap_without_played_rows_witness :
  exists self' msg,
    set_stats floor_sqrt sample_player idle_table = (Ok statistics_set, self') /\
    generate_statline_all self' 1 true sample_world
      = (Raise (ValueError msg), sample_world).
Proof.
  apply (bootstrap_without_played_rows floor_sqrt sample_player idle_table
           1 sample_world wf_idle_table).
  intros r Hr. apply existsb_fne0_false.
  simpl in Hr. destruct Hr as [<- | [<- | []]]; reflexivity.
Defined.

Lemma parametric_after_set_stats_witness :
  exists self' lines w',
    set_stats floor_sqrt sample_player idle_table = (Ok statistics_set, self') /\
    generate_statline_all self' 2 false sample_world = (Ok lines, w') /\
    Z.of_nat (List.length lines) = 2%Z /\
    Forall (fun line => forall k v, dict_get line k = Some v -> v = NaN) lines.
Proof.
  destruct (parametric_after_set_stats floor_sqrt sample_player idle_table
              2 sample_world wf_idle_table)
    as (self' & lines & w' & Hset & Hrun & Hlen & Hall).
  - lia.
  - exists self', lines, w'. repeat (split; [assumption |]).
    eapply Forall_impl; [| exact Hall].
    intros line [_ Hnan]. apply Hnan. vm_compute. lia.
Defined.

(* ===================================================================== *)
(** ** Further properties of the data providers *)
(* ===================================================================== *)

Lemma flat_map_rows_map {A} (f : A -> DataFrame) (l : list A) :
  flat_map rows (map f l) = flat_map (fun x => rows (f x)) l.
Proof.
  induction l as [| x l IH]; simpl; [reflexivity | now rewrite IH].
Qed.

Lemma upper_ascii_idempotent (c : ascii) :
  upper_ascii (upper_ascii c) = upper_ascii c.
Proof. destruct c as [[] [] [] [] [] [] [] []]; reflexivity. Qed.

Lemma upper_idempotent (s : string) : upper (upper s) = upper s.
Proof.
  induction s as [| c s IH]; simpl; [reflexivity |].
  now rewrite upper_ascii_idempotent, IH.
Qed.



Section PlayerProvider.

Variable _get_ids : string -> string -> list Z.
Variable _get_data : Z -> string -> list GDPlayerBDL.game.

Lemma get_stats_Ok_inv (name tm : string) (stat_list : list string)
    (start_date : string) (df : DataFrame) :
  GDPlayerBDL.get_stats _get_ids _get_data name tm stat_list start_date = Ok df ->
  incl stat_list GDPlayerBDL.stats_available /\
  _get_ids name (upper tm) <> [] /\
  columns df = stat_list /\
  rows df
    = flat_map (fun player =>
                  map (fun game => map game stat_list)
                      (_get_data player start_date))
               (_get_ids name (upper tm)) /\
  Forall (fun r => List.length r = List.length stat_list) (rows df).
Proof using _get_ids _get_data.
  unfold GDPlayerBDL.get_stats.
  destruct (find _ stat_list) as [item |] eqn:Hfind; [discriminate |].
  assert (Hincl : incl stat_list GDPlayerBDL.stats_available).
  { intros c Hc. apply (find_none _ _ Hfind) in Hc.
    apply negb_false_iff in Hc. now apply mem_In. }
  destruct (_get_ids name (upper tm)) as [| player players] eqn:Hids;
    [discriminate |].
  cbn [map pd_concat]. intros H. injection H as <-.
  split; [exact Hincl |]. split; [discriminate |].
  split; [reflexivity |].
  assert (Hrows : rows
                    {| columns := columns (GDPlayerBDL._format_data
                                             (_get_data player start_date) stat_list);
                       rows := flat_map rows
                                 (GDPlayerBDL._format_data
                                    (_get_data player start_date) stat_list
                                  :: map (fun player0 =>
                                            GDPlayerBDL._format_data
                                              (_get_data player0 start_date) stat_list)
                                         players) |}
                  = flat_map (fun player0 =>
                                map (fun game => map game stat_list)
                                    (_get_data player0 start_date))
                             (player :: players)).
  { cbn [rows].
    change (GDPlayerBDL._format_data (_get_data player start_date) stat_list
            :: map (fun player0 =>
                      GDPlayerBDL._format_data (_get_data player0 start_date) stat_list)
                   players)
      with (map (fun player0 =>
                   GDPlayerBDL._format_data (_get_data player0 start_date) stat_list)
                (player :: players)).
    now rewrite flat_map_rows_map. }
  split; [exact Hrows |].
  refine (eq_ind_r (Forall (fun r => List.length r = List.length stat_list)) _ Hrows).
  apply Forall_forall. intros r Hr. apply in_flat_map in Hr.
  destruct Hr as (p & _ & Hr). apply in_map_iff in Hr.
  destruct Hr as (game & <- & _). apply length_map.
Qed.

Lemma get_stats_Raise_inv (name tm : string) (stat_list : list string)
    (start_date : string) (e : exn) :
  GDPlayerBDL.get_stats _get_ids _get_data name tm stat_list start_date = Raise e ->
  (exists item,
     e = ValueError (item ++ " is not an available stat from balldontlie API") /\
     In item stat_list /\ ~ In item GDPlayerBDL.stats_available) \/
  (e = ValueError "No objects to concatenate" /\
   incl stat_list GDPlayerBDL.stats_available /\
   _get_ids name (upper tm) = []).
Proof using _get_ids _get_data.
  unfold GDPlayerBDL.get_stats.
  destruct (find _ stat_list) as [item |] eqn:Hfind.
  - intros H. injection H as <-. left. exists item.
    apply find_some in Hfind. destruct Hfind as [Hin Hmem].
    split; [reflexivity |]. split; [exact Hin |].
    apply negb_true_iff in Hmem. now apply mem_false.
  - assert (Hincl : incl stat_list GDPlayerBDL.stats_available).
    { intros c Hc. apply (find_none _ _ Hfind) in Hc.
      apply negb_false_iff in Hc. now apply mem_In. }
    destruct (_get_ids name (upper tm)) as [| player players] eqn:Hids.
    + cbn [map pd_concat]. intros H. injection H as <-.
      right. repeat split. exact Hincl.
    + cbn [map pd_concat]. discriminate.
Qed.


End PlayerProvider.

Section ScheduleProvider.

Variable ids : dict Z.
Variable games_of : Z -> string -> string -> list GDScheduleBDL.game.

Lemma get_num_games_unfold (tm start_date end_date : string) :
  GDScheduleBDL.get_num_games ids games_of tm start_date end_date
    = match dict_get ids (upper tm) with
      | Some id => Ok (Z.of_nat (List.length (games_of id start_date end_date)))
      | None => Raise (KeyError (upper tm))
      end.
Proof using ids games_of.
  unfold GDScheduleBDL.get_num_games, GDScheduleBDL.get_schedule, dict_item.
  destruct (dict_get ids (upper tm)) as [id |]; [| reflexivity].
  now rewrite length_map.
Qed.

(** X8 -- get_num_games looks the team up by its upper-cased
    abbreviation: a team missing from the ids raises KeyError with the
    upper-cased name, a known one gives the number of games in the
    service's answer, and the case of the argument makes no difference. *)
Theorem get_num_games_spec (tm start_date end_date : string) :
  GDScheduleBDL.get_num_games ids games_of tm start_date end_date
    = match dict_get ids (upper tm) with
      | Some id => Ok (Z.of_nat (List.length (games_of id start_date end_date)))
      | None => Raise (KeyError (upper tm))
      end /\
  GDScheduleBDL.get_num_games ids games_of (upper tm) start_date end_date
    = GDScheduleBDL.get_num_games ids games_of tm start_date end_date /\
  GDScheduleBDL.get_schedule ids games_of (upper tm) start_date end_date
    = GDScheduleBDL.get_schedule ids games_of tm start_date end_date.
Proof using ids games_of.
  unfold GDScheduleBDL.get_num_games, GDScheduleBDL.get_schedule, dict_item.
  rewrite upper_idempotent. split; [| split; reflexivity].
  destruct (dict_get ids (upper tm)) as [id |]; [| reflexivity].
  now rewrite length_map.
Qed.

(** X9 -- when every game of the service's answer is between two
    different teams one of which is the team asked for, no entry of the
    schedule names the team itself as the opponent: each names the other
    team of its game. *)
Theorem get_schedule_opponents (tm start_date end_date : string)
    (schedule : list (string * string)) :
  (forall id game,
     dict_get ids (upper tm) = Some id ->
     In game (games_of id start_date end_date) ->
     GDScheduleBDL.home_team game <> GDScheduleBDL.visitor_team game /\
     (GDScheduleBDL.home_team game = upper tm \/
      GDScheduleBDL.visitor_team game = upper tm)) ->
  GDScheduleBDL.get_schedule ids games_of tm start_date end_date = Ok schedule ->
  Forall (fun entry => fst entry <> upper tm) schedule /\
  exists id,
    dict_get ids (upper tm) = Some id /\
    Forall2 (fun game entry =>
               (fst entry = GDScheduleBDL.home_team game \/
                fst entry = GDScheduleBDL.visitor_team game) /\
               snd entry = before_T (GDScheduleBDL.date game))
            (games_of id start_date end_date) schedule.
Proof using ids games_of.
  intros Hgames. unfold GDScheduleBDL.get_schedule, dict_item.
  destruct (dict_get ids (upper tm)) as [id |] eqn:Hid; [| discriminate].
  intros H. injection H as <-.
  specialize (Hgames id).
  assert (Hall : forall games,
             (forall game, In game games ->
                GDScheduleBDL.home_team game <> GDScheduleBDL.visitor_team game /\
                (GDScheduleBDL.home_team game = upper tm \/
                 GDScheduleBDL.visitor_team game = upper tm)) ->
             let entry_of := fun game =>
               (if String.eqb (GDScheduleBDL.home_team game) (upper tm)
                then GDScheduleBDL.visitor_team game
                else GDScheduleBDL.home_team game,
                before_T (GDScheduleBDL.date game)) in
             Forall (fun entry => fst entry <> upper tm) (map entry_of games) /\
             Forall2 (fun game entry =>
                        (fst entry = GDScheduleBDL.home_team game \/
                         fst entry = GDScheduleBDL.visitor_team game) /\
                        snd entry = before_T (GDScheduleBDL.date game))
                     games (map entry_of games)).
  { induction games as [| game games IH]; intros Hok entry_of; simpl.
    - split; constructor.
    - destruct (IH (fun g Hg => Hok g (or_intror Hg))) as [IH1 IH2].
      destruct (Hok game (or_introl eq_refl)) as [Hdiff Hplays].
      split; constructor; try assumption; unfold entry_of; cbn [fst snd].
      + destruct (String.eqb_spec (GDScheduleBDL.home_team game) (upper tm))
          as [He | Hne]; [congruence | exact Hne].
      + split; [| reflexivity].
        destruct (String.eqb (GDScheduleBDL.home_team game) (upper tm)); auto. }
  destruct (Hall (games_of id start_date end_date)
                 (fun game Hg => Hgames game eq_refl Hg)) as [H1 H2].
  split; [exact H1 |]. exists id. split; [reflexivity | exact H2].
Qed.

End ScheduleProvider.

Lemma get_schedule_opponents_witness :
  exists schedule,
    GDScheduleBDL.get_schedule sample_ids sample_games_of "tor" "2020-01-01" "2020-01-07"
      = Ok schedule /\
    Forall (fun entry => fst entry <> "TOR") schedule.
Proof.
  exists [("BOS", "2020-01-02"); ("MIA", "2020-01-05")].
  split; [reflexivity |].
  apply (get_schedule_opponents sample_ids sample_games_of
           "tor" "2020-01-01" "2020-01-07").
  - intros id game _ Hgame. simpl in Hgame.
    destruct Hgame as [<- | [<- | []]]; simpl; split;
      [discriminate | now left | discriminate | now right].
  - reflexivity.
Defined.

(* ===================================================================== *)
(** ** Further properties of the simulator *)
(* ===================================================================== *)

Lemma DataFrame_of_rows_rows (data : list (list pyfloat)) (cols : list string)
    (df : DataFrame) :
  DataFrame_of_rows data cols = Ok df ->
  columns df = cols /\
  rows df = map (pad_row (List.length cols)) data /\
  (data <> [] -> list_max (map (@List.length pyfloat) data) = List.length cols).
Proof.
  intros H. destruct (DataFrame_of_rows_inv _ _ _ H) as [Hcols Hshape].
  split; [exact Hcols |].
  destruct data as [| r0 rs].
  - injection H as <-. repeat split. congruence.
  - destruct Hshape as [Hnil | (_ & Hmax & Hrows)].
    + exfalso. unfold DataFrame_of_rows in H.
      destruct (_ =? _)%nat; [| discriminate].
      injection H as <-. discriminate.
    + split; [exact Hrows | intros _; exact Hmax].
Qed.

Lemma pad_row_length (width : nat) (r : list pyfloat) :
  (List.length r <= width)%nat -> List.length (pad_row width r) = width.
Proof.
  intros H. unfold pad_row. rewrite length_app, repeat_length. lia.
Qed.

Lemma repeatM_zero {A} (body : M A) (n : Z) (w : World) :
  (n <= 0)%Z -> repeatM (range_len n) body w = (Ok [], w).
Proof.
  intros H. unfold range_len. replace (Z.to_nat n) with O by lia. reflexivity.
Qed.

Section TotalsProperties.

Variable np_sqrt : Q -> Q.
Variable _get_ids : string -> string -> list Z.
Variable _get_data : Z -> string -> list GDPlayerBDL.game.
Variable ids : dict Z.
Variable games_of : Z -> string -> string -> list GDScheduleBDL.game.

Lemma generate_stat_totals_inv
    (roster : list Player) (sim_start sim_end : string)
    (stat_list : list string) (stat_start : string) (num_runs : Z)
    (bootstrap : bool) (w w' : World) (totals : DataFrame) :
  generate_stat_totals np_sqrt _get_ids _get_data ids games_of
    roster sim_start sim_end stat_list stat_start num_runs bootstrap w
    = (Ok totals, w') ->
  exists roster' num_games runs,
    _initiate_player_stats np_sqrt _get_ids _get_data roster stat_list stat_start
      = Ok roster' /\
    _count_games ids games_of (distinct (map team roster')) sim_start sim_end
      = Ok num_games /\
    repeatM (range_len num_runs) (one_run roster' num_games bootstrap) w
      = (Ok runs, w') /\
    DataFrame_of_rows runs (stat_list ++ ["games"]) = Ok totals.
Proof using np_sqrt _get_ids _get_data ids games_of.
  unfold generate_stat_totals, bind, lift.
  destruct (_initiate_player_stats _ _ _ roster stat_list stat_start)
    as [roster' | e] eqn:Hinit; [| discriminate].
  destruct (_count_games ids games_of _ sim_start sim_end)
    as [num_games | e] eqn:Hcount; [| discriminate].
  destruct (repeatM _ _ w) as [[runs | e] w1] eqn:Hruns; [| discriminate].
  intros H. injection H as H <-.
  exists roster', num_games, runs.
  split; [reflexivity |]. split; [exact Hcount |]. split; [exact Hruns | exact H].
Qed.

(** X10 -- whenever generate_stat_totals returns, the frame has the
    columns [stat_list + ['games']], one row per run (none for a run
    count that is not positive), and one cell per column in every row. *)
Theorem generate_stat_totals_shape
    (roster : list Player) (sim_start sim_end : string)
    (stat_list : list string) (stat_start : string) (num_runs : Z)
    (bootstrap : bool) (w w' : World) (totals : DataFrame) :
  generate_stat_totals np_sqrt _get_ids _get_data ids games_of
    roster sim_start sim_end stat_list stat_start num_runs bootstrap w
    = (Ok totals, w') ->
  columns totals = stat_list ++ ["games"] /\
  List.length (rows totals) = Z.to_nat num_runs /\
  Forall (fun r => List.length r = S (List.length stat_list)) (rows totals).
Proof using np_sqrt _get_ids _get_data ids games_of.
  intros Hrun.
  destruct (generate_stat_totals_inv _ _ _ _ _ _ _ _ _ _ Hrun)
    as (roster' & num_games & runs & Hinit & _ & Hruns & Hdf).
  destruct (_initiate_player_stats_spec _ _ _ _ _ _ _ Hinit)
    as (Hteams & Havail & Hsub).
  assert (Hgames : roster' = [] \/ ~ In "games" stat_list).
  { destruct roster' as [| p ps]; [now left | right].
    intros Hin. apply games_not_available. apply Hsub; [| exact Hin].
    intros ->. discriminate. }
  destruct (repeatM_inv _ _ (fun w0 row w2 => one_run_row stat_list num_games
                               bootstrap roster' Havail Hgames w0 row w2)
              _ _ _ _ Hruns) as [Hlen Hrows].
  destruct (DataFrame_of_rows_rows _ _ _ Hdf) as (Hcols & Hrws & Hmax).
  split; [exact Hcols |]. rewrite Hrws, length_map.
  split; [exact Hlen |].
  rewrite length_app in *. cbn [List.length] in *.
  apply Forall_forall. intros r Hr. apply in_map_iff in Hr.
  destruct Hr as (row & <- & Hrow).
  assert (Hne : runs <> []) by (intros ->; contradiction).
  specialize (Hmax Hne).
  rewrite pad_row_length; [lia |].
  rewrite <- Hmax.
  pose proof (proj1 (list_max_le (map (@List.length pyfloat) runs) _)
                (Nat.le_refl _)) as Hle.
  rewrite Forall_forall in Hle. apply Hle. now apply in_map.
Qed.

Lemma _initiate_player_stats_total (stat_list : list string) (stat_start : string) :
  incl stat_list GDPlayerBDL.stats_available ->
  forall roster,
    (forall p, In p roster -> _get_ids (full_name p) (upper (team p)) <> []) ->
    exists roster',
      _initiate_player_stats np_sqrt _get_ids _get_data roster stat_list stat_start
        = Ok roster' /\
      Forall (fun p' =>
                exists m s,
                  means p' = Some m /\ stdevs p' = Some s /\
                  forall c, In c (stats_available p') ->
                            In c (dict_keys m) /\ In c (dict_keys s))
             roster'.
Proof using np_sqrt _get_ids _get_data.
  intros Hincl. induction roster as [| player rest IH]; intros Hids; simpl.
  - exists []. split; [reflexivity | constructor].
  - destruct (GDPlayerBDL.get_stats _ _ _ _ _ _) as [table | e] eqn:Hget0;
      [pose proof (get_stats_Ok_inv _get_ids _get_data _ _ _ _ _ Hget0) as Hget
      | pose proof (get_stats_Raise_inv _get_ids _get_data _ _ _ _ _ Hget0) as Hget].
    + destruct (set_stats_spec np_sqrt player table) as (m & s & Hset & Hms).
      rewrite Hset.
      destruct (IH (fun p H => Hids p (or_intror H))) as (rest' & Hrest & Hall).
      rewrite Hrest. eexists. split; [reflexivity |].
      constructor; [| exact Hall].
      exists m, s. split; [reflexivity |]. split; [reflexivity |].
      cbn [stats_available with_distribution with_stats columns].
      intros c Hc. destruct (col_index_In _ _ Hc) as [j Hj].
      destruct (Hms c j Hj) as [Hm Hs].
      split; eapply dict_get_Some_In; eassumption.
    + exfalso. destruct Hget as [(item & _ & Hin & Hnot) | (_ & _ & Hnone)].
      * apply Hnot. now apply Hincl.
      * apply (Hids player (or_introl eq_refl)). exact Hnone.
Qed.

Lemma _count_games_loop_total (start_date end_date : string) (teams : list string) :
  (forall t, In t teams -> exists id, dict_get ids (upper t) = Some id) ->
  forall acc, exists d,
    _count_games_loop ids games_of teams start_date end_date acc = Ok d.
Proof using ids games_of.
  induction teams as [| t teams IH]; intros Hknown acc; simpl; [eauto |].
  pose proof (get_num_games_unfold ids games_of t start_date end_date) as Hn.
  destruct (Hknown t (or_introl eq_refl)) as [id Hid].
  rewrite Hn, Hid. apply IH. intros t' Ht'. apply Hknown. now right.
Qed.

Lemma _count_games_loop_unknown (start_date end_date : string) (teams : list string) :
  (exists t, In t teams /\ dict_get ids (upper t) = None) ->
  forall acc, exists t,
    In t teams /\ dict_get ids (upper t) = None /\
    _count_games_loop ids games_of teams start_date end_date acc
      = Raise (KeyError (upper t)).
Proof using ids games_of.
  induction teams as [| t0 teams IH]; intros (t & Ht & Hnone) acc;
    [destruct Ht |].
  simpl.
  pose proof (get_num_games_unfold ids games_of t0 start_date end_date) as Hn.
  rewrite Hn.
  destruct (dict_get ids (upper t0)) as [id |] eqn:Hid.
  - destruct Ht as [-> | Ht]; [congruence |].
    destruct (IH (ex_intro _ t (conj Ht Hnone))
                 (dict_set acc t0
                    (Z.of_nat (List.length (games_of id start_date end_date)))))
      as (t' & Ht' & Hnone' & Hrun).
    exists t'. split; [now right |]. split; assumption.
  - exists t0. split; [now left |]. split; [exact Hid | reflexivity].
Qed.

(** X11 -- with a roster that is not empty, a requested stat that the
    stats provider does not offer makes generate_stat_totals raise the
    provider's ValueError for such a stat of the request; no run is
    made and nothing is drawn. *)
Theorem generate_stat_totals_rejects_unknown_stat
    (player : Player) (rest : list Player) (sim_start sim_end : string)
    (stat_list : list string) (stat_start : string) (num_runs : Z)
    (bootstrap : bool) (w : World) (item : string) :
  In item stat_list -> ~ In item GDPlayerBDL.stats_available ->
  exists item',
    In item' stat_list /\ ~ In item' GDPlayerBDL.stats_available /\
    generate_stat_totals np_sqrt _get_ids _get_data ids games_of
      (player :: rest) sim_start sim_end stat_list stat_start num_runs bootstrap w
    = (Raise (ValueError (item' ++ " is not an available stat from balldontlie API")),
       w).
Proof using np_sqrt _get_ids _get_data ids games_of.
  intros Hin Hnot.
  unfold generate_stat_totals, bind, lift. cbn [_initiate_player_stats].
  destruct (GDPlayerBDL.get_stats _ _ _ _ _ _) as [table | e] eqn:Hget0;
    [pose proof (get_stats_Ok_inv _get_ids _get_data _ _ _ _ _ Hget0) as Hget
    | pose proof (get_stats_Raise_inv _get_ids _get_data _ _ _ _ _ Hget0) as Hget].
  - exfalso. destruct Hget as [Hincl _]. apply Hnot. now apply Hincl.
  - destruct Hget as [(item' & -> & Hin' & Hnot') | (_ & Hincl & _)].
    + exists item'. repeat split; assumption.
    + exfalso. apply Hnot. now apply Hincl.
Qed.

(** X12 -- when the history of every player is found but the schedule
    provider does not know the team of some player, generate_stat_totals
    raises the KeyError of such a team (upper-cased); no run is made and
    nothing is drawn. *)
Theorem generate_stat_totals_rejects_unknown_team
    (roster : list Player) (sim_start sim_end : string)
    (stat_list : list string) (stat_start : string) (num_runs : Z)
    (bootstrap : bool) (w : World) :
  incl stat_list GDPlayerBDL.stats_available ->
  (forall p, In p roster -> _get_ids (full_name p) (upper (team p)) <> []) ->
  (exists p, In p roster /\ dict_get ids (upper (team p)) = None) ->
  exists p,
    In p roster /\ dict_get ids (upper (team p)) = None /\
    generate_stat_totals np_sqrt _get_ids _get_data ids games_of
      roster sim_start sim_end stat_list stat_start num_runs bootstrap w
    = (Raise (KeyError (upper (team p))), w).
Proof using np_sqrt _get_ids _get_data ids games_of.
  intros Hincl Hids (p & Hp & Hnone).
  destruct (_initiate_player_stats_total stat_list stat_start Hincl roster Hids)
    as (roster' & Hinit & _).
  destruct (_initiate_player_stats_spec _ _ _ _ _ _ _ Hinit) as (Hteams & _ & _).
  unfold generate_stat_totals, bind, lift. rewrite Hinit, Hteams.
  destruct (_count_games_loop_unknown sim_start sim_end (distinct (map team roster)))
    with (acc := @nil (string * Z)) as (t & Ht & Htnone & Hrun).
  { exists (team p). split; [| exact Hnone].
    apply distinct_In. now apply in_map. }
  apply (proj1 (distinct_In _ _)) in Ht. apply in_map_iff in Ht.
  destruct Ht as (p' & <- & Hp').
  exists p'. split; [exact Hp' |]. split; [exact Htnone |].
  unfold _count_games. now rewrite Hrun.
Qed.

End TotalsProperties.

Lemma generate_stat_totals_shape_witness :
  exists totals w',
    sample_run = (Ok totals, w') /\
    columns totals = ["pts"; "reb"; "games"] /\
    List.length (rows totals) = 3%nat /\
    Forall (fun r => List.length r = 3%nat) (rows totals).
Proof.
  remember sample_run as run eqn:Hrun.
  destruct run as [[totals | e] w']; [| vm_compute in Hrun; discriminate].
  exists totals, w'. split; [reflexivity |].
  symmetry in Hrun. unfold sample_run in Hrun.
  exact (generate_stat_totals_shape
           floor_sqrt sample_get_ids sample_get_data sample_ids sample_games_of
           [sample_player] "2020-01-01" "2020-01-07" ["pts"; "reb"] "2019-10-22"
           3 false sample_world w' totals Hrun).
Defined.

Lemma generate_stat_totals_rejects_unknown_stat_witness :
  exists item',
    In item' ["pts"; "games"] /\ ~ In item' GDPlayerBDL.stats_available /\
    generate_stat_totals floor_sqrt sample_get_ids sample_get_data
      sample_ids sample_games_of
      [sample_player] "2020-01-01" "2020-01-07" ["pts"; "games"] "2019-10-22"
      3 false sample_world
    = (Raise (ValueError (item' ++ " is not an available stat from balldontlie API")),
       sample_world).
Proof.
  apply (generate_stat_totals_rejects_unknown_stat
           floor_sqrt sample_get_ids sample_get_data sample_ids sample_games_of
           sample_player [] "2020-01-01" "2020-01-07" ["pts"; "games"] "2019-10-22"
           3 false sample_world "games").
  - simpl. auto.
  - exact games_not_available.
Defined.

Lemma generate_stat_totals_rejects_unknown_team_witness :
  exists p,
    In p [sample_player; sample_laker] /\
    dict_get sample_ids (upper (team p)) = None /\
    generate_stat_totals floor_sqrt sample_get_ids sample_get_data
      sample_ids sample_games_of
      [sample_player; sample_laker] "2020-01-01" "2020-01-07" ["pts"] "2019-10-22"
      3 false sample_world
    = (Raise (KeyError (upper (team p))), sample_world).
Proof.
  apply (generate_stat_totals_rejects_unknown_team
           floor_sqrt sample_get_ids sample_get_data sample_ids sample_games_of
           [sample_player; sample_laker] "2020-01-01" "2020-01-07" ["pts"]
           "2019-10-22" 3 false sample_world).
  - intros c Hc. simpl in Hc. destruct Hc as [<- | []]. simpl. tauto.
  - intros p _. discriminate.
  - exists sample_laker. split; [simpl; auto | reflexivity].
Defined.

Lemma generate_statline_all_idle (self : Player) (bootstrap : bool) (w : World) :
  generate_statline_all self 0 bootstrap w = (Ok [], w).
Proof. destruct bootstrap; reflexivity. Qed.

Lemma roster_statlines_idle (num_games : dict Z) (bootstrap : bool) (w : World) :
  forall roster,
    (forall p, In p roster -> dict_get num_games (team p) = Some 0%Z) ->
    roster_statlines roster num_games bootstrap w = (Ok [], w).
Proof.
  induction roster as [| player rest IH]; intros Hidle; simpl; [reflexivity |].
  unfold bind, lift, dict_item.
  rewrite (Hidle player (or_introl eq_refl)), generate_statline_all_idle.
  rewrite IH by (intros p Hp; apply Hidle; now right). reflexivity.
Qed.

Section IdleWeek.

Variable np_sqrt : Q -> Q.
Variable _get_ids : string -> string -> list Z.
Variable _get_data : Z -> string -> list GDPlayerBDL.game.
Variable ids : dict Z.
Variable games_of : Z -> string -> string -> list GDScheduleBDL.game.

(** X13 -- when the history of every player is found and every team of
    the roster is known to the schedule but has no game in the window,
    each run sums no statline at all, and with at least one category and
    one run generate_stat_totals raises a ValueError (the rows are one
    cell wide) instead of returning totals of zero; nothing is drawn.
    The empty roster is the special case of no player at all. *)
Theorem generate_stat_totals_without_games
    (roster : list Player) (sim_start sim_end : string)
    (c : string) (cats : list string) (stat_start : string) (runs : positive)
    (bootstrap : bool) (w : World) :
  incl (c :: cats) GDPlayerBDL.stats_available ->
  (forall p, In p roster -> _get_ids (full_name p) (upper (team p)) <> []) ->
  (forall p, In p roster ->
     exists id, dict_get ids (upper (team p)) = Some id /\
                games_of id sim_start sim_end = []) ->
  exists msg,
    generate_stat_totals np_sqrt _get_ids _get_data ids games_of
      roster sim_start sim_end (c :: cats) stat_start (Zpos runs) bootstrap w
    = (Raise (ValueError msg), w).
Proof using np_sqrt _get_ids _get_data ids games_of.
  intros Hincl Hids Hidle.
  destruct (_initiate_player_stats_total np_sqrt _get_ids _get_data
              (c :: cats) stat_start Hincl roster Hids) as (roster' & Hinit & _).
  destruct (_initiate_player_stats_spec _ _ _ _ _ _ _ Hinit) as (Hteams & _ & _).
  destruct (_count_games_loop_total ids games_of sim_start sim_end
              (distinct (map team roster))) with (acc := @nil (string * Z))
    as [num_games Hcount].
  { intros t Ht. apply (proj1 (distinct_In _ _)) in Ht. apply in_map_iff in Ht.
    destruct Ht as (p & <- & Hp). destruct (Hidle p Hp) as (id & Hid & _). eauto. }
  assert (Hzero : forall p', In p' roster' ->
                             dict_get num_games (team p') = Some 0%Z).
  { intros p' Hp'.
    assert (Ht : In (team p') (map team roster))
      by (rewrite <- Hteams; now apply in_map).
    pose proof Ht as Ht'. apply in_map_iff in Ht'.
    destruct Ht' as (p & Hteam & Hp). destruct (Hidle p Hp) as (id & Hid & Hnone).
    destruct (_count_games_loop_spec ids games_of sim_start sim_end _ [] num_games
                Hcount (team p')) as [Hin _].
    destruct Hin as (n & Hn & Hget); [now apply distinct_In |].
    pose proof (get_num_games_unfold ids games_of (team p') sim_start sim_end) as Hspec.
    rewrite Hspec, <- Hteam, Hid, Hnone in Hn. injection Hn as <-. exact Hget. }
  unfold generate_stat_totals, bind, lift. rewrite Hinit, Hteams.
  unfold _count_games. rewrite Hcount.
  rewrite (repeatM_pure (one_run roster' num_games bootstrap) [F 0]).
  - unfold range_len. cbn [Z.to_nat].
    destruct (Pos2Nat.is_succ runs) as [k ->].
    unfold DataFrame_of_rows. cbn [repeat].
    rewrite (list_max_const 1%nat);
      [| discriminate
       | change ([F 0] :: repeat [F 0] k) with (repeat [F 0] (S k));
         apply Forall_forall; intros r Hr; apply repeat_spec in Hr; now subst r].
    cbn [List.length app]. rewrite length_app. cbn [List.length].
    destruct (Nat.eqb_spec 1 (S (List.length cats + 1))) as [Heq | _]; [lia |].
    eexists. reflexivity.
  - intros w0. unfold one_run, bind, ret.
    now rewrite (roster_statlines_idle num_games bootstrap w0 roster' Hzero).
Qed.

End IdleWeek.

Lemma generate_stat_totals_without_games_witness :
  exists msg,
    generate_stat_totals floor_sqrt sample_get_ids sample_get_data
      sample_ids sample_no_games
      [sample_player] "2020-02-14" "2020-02-16" ["pts"; "reb"] "2019-10-22"
      3 false sample_world
    = (Raise (ValueError msg), sample_world).
Proof.
  apply (generate_stat_totals_without_games
           floor_sqrt sample_get_ids sample_get_data sample_ids sample_no_games
           [sample_player] "2020-02-14" "2020-02-16" "pts" ["reb"] "2019-10-22"
           3 false sample_world).
  - intros c Hc. simpl in Hc. destruct Hc as [<- | [<- | []]]; simpl; tauto.
  - intros p _. discriminate.
  - intros p Hp. simpl in Hp. destruct Hp as [<- | []].
    exists 28%Z. split; reflexivity.
Defined.

Lemma dict_keys_set_new {V} (d : dict V) (c : string) (v : V) :
  ~ In c (dict_keys d) -> dict_keys (dict_set d c v) = dict_keys d ++ [c].
Proof.
  induction d as [| [k x] d IH]; simpl; intros H; [reflexivity |].
  destruct (String.eqb_spec c k) as [-> | Hne]; [exfalso; auto |].
  simpl. rewrite IH by auto. reflexivity.
Qed.

Lemma fold_dict_set_NoDup (l : list string) :
  forall acc : dict pyfloat,
    NoDup (dict_keys acc ++ l) ->
    dict_keys (fold_left (fun d c => dict_set d c NaN) l acc) = dict_keys acc ++ l.
Proof.
  induction l as [| c l IH]; intros acc Hnd; simpl.
  - now rewrite app_nil_r.
  - assert (Hc : ~ In c (dict_keys acc)).
    { apply NoDup_remove_2 in Hnd. intros H. apply Hnd. apply in_or_app. now left. }
    rewrite IH; rewrite dict_keys_set_new by exact Hc.
    + now rewrite <- app_assoc.
    + now rewrite <- app_assoc.
Qed.

Lemma keys_built_NoDup (l : list string) : NoDup l -> keys_built l = l.
Proof. intros H. unfold keys_built. now rewrite fold_dict_set_NoDup. Qed.

Lemma add_labels_fresh (ks : list string) :
  forall acc, NoDup (acc ++ ks) -> add_labels acc ks = acc ++ ks.
Proof.
  induction ks as [| k ks IH]; intros acc Hnd; simpl.
  - now rewrite app_nil_r.
  - assert (Hk : mem k acc = false).
    { apply mem_false. apply NoDup_remove_2 in Hnd.
      intros H. apply Hnd. apply in_or_app. now left. }
    rewrite Hk, IH; now rewrite <- app_assoc.
Qed.

Lemma add_labels_absorb (ks : list string) :
  forall acc, incl ks acc -> add_labels acc ks = acc.
Proof.
  induction ks as [| k ks IH]; intros acc Hincl; simpl; [reflexivity |].
  assert (Hk : mem k acc = true) by (apply mem_In; apply Hincl; now left).
  rewrite Hk. apply IH. intros x Hx. apply Hincl. now right.
Qed.

Lemma fold_add_labels_repeat (K : list string) (n : nat) :
  NoDup K -> fold_left add_labels (repeat K (S n)) [] = K.
Proof.
  intros HK. cbn [repeat fold_left].
  rewrite (add_labels_fresh K []) by exact HK. cbn [app].
  induction n as [| n IH]; [reflexivity |].
  cbn [repeat fold_left]. rewrite add_labels_absorb by apply incl_refl. exact IH.
Qed.

Lemma list_sum_In_le (x : nat) (l : list nat) :
  In x l -> (x <= list_sum l)%nat.
Proof.
  induction l as [| y l IH]; simpl; [tauto |].
  intros [-> | H]; [lia | specialize (IH H); lia].
Qed.

(** With both mappings covering the available categories, the parametric
    policy always returns. *)
Lemma generate_statline_all_parametric_total (self : Player) (m s : dict pyfloat) :
  means self = Some m -> stdevs self = Some s ->
  (forall c, In c (stats_available self) ->
             In c (dict_keys m) /\ In c (dict_keys s)) ->
  forall n w, exists lines w',
    generate_statline_all self n false w = (Ok lines, w').
Proof.
  intros Hm Hs Hcover n w. unfold generate_statline_all. cbn [negb].
  destruct (repeatM_total (_continuous self (stats_available self)) (fun _ => True))
    with (n := range_len n) (w := w) as (lines & w' & Hrun & _).
  - intros w0. unfold _continuous.
    destruct (_continuous_loop_ok self m s (stats_available self) Hm Hs Hcover [] w0)
      as (line & w1 & Hline & _).
    exists line, w1. split; [exact Hline | exact I].
  - eauto.
Qed.

Lemma roster_statlines_parametric_total (num_games : dict Z) :
  forall roster,
    Forall (fun p =>
              exists m s,
                means p = Some m /\ stdevs p = Some s /\
                forall c, In c (stats_available p) ->
                          In c (dict_keys m) /\ In c (dict_keys s))
           roster ->
    (forall p, In p roster -> exists n, dict_get num_games (team p) = Some n) ->
    forall w, exists lines w',
      roster_statlines roster num_games false w = (Ok lines, w').
Proof.
  induction roster as [| player rest IH]; intros Hall Hgames w; simpl.
  - unfold ret. eauto.
  - destruct (Hgames player (or_introl eq_refl)) as [n Hn].
    destruct (Forall_inv Hall) as (m & s & Hm & Hs & Hcover).
    destruct (generate_statline_all_parametric_total player m s Hm Hs Hcover n w)
      as (own & w1 & Hown).
    destruct (IH (Forall_inv_tail Hall) (fun p H => Hgames p (or_intror H)) w1)
      as (more & w2 & Hmore).
    unfold bind, lift, dict_item. rewrite Hn, Hown, Hmore. unfold ret. eauto.
Qed.

Section ParametricRun.

Variable np_sqrt : Q -> Q.
Variable _get_ids : string -> string -> list Z.
Variable _get_data : Z -> string -> list GDPlayerBDL.game.
Variable ids : dict Z.
Variable games_of : Z -> string -> string -> list GDScheduleBDL.game.

(** X14 -- generate_stat_totals with the parametric policy returns a
    frame of totals whenever the requested categories are distinct stats
    that the provider offers, the history of every player is found,
    every team is known to the schedule, and at least one player has a
    game in the window. *)
Theorem generate_stat_totals_parametric_returns
    (roster : list Player) (sim_start sim_end : string)
    (stat_list : list string) (stat_start : string) (num_runs : Z) (w : World) :
  NoDup stat_list ->
  incl stat_list GDPlayerBDL.stats_available ->
  (forall p, In p roster -> _get_ids (full_name p) (upper (team p)) <> []) ->
  (forall p, In p roster -> exists id, dict_get ids (upper (team p)) = Some id) ->
  (exists p id,
     In p roster /\ dict_get ids (upper (team p)) = Some id /\
     games_of id sim_start sim_end <> []) ->
  exists totals w',
    generate_stat_totals np_sqrt _get_ids _get_data ids games_of
      roster sim_start sim_end stat_list stat_start num_runs false w
    = (Ok totals, w').
Proof using np_sqrt _get_ids _get_data ids games_of.
  intros Hnd Hincl Hids Hknown (p0 & id0 & Hp0 & Hid0 & Hplays).
  destruct (_initiate_player_stats_total np_sqrt _get_ids _get_data
              stat_list stat_start Hincl roster Hids) as (roster' & Hinit & Hall).
  destruct (_initiate_player_stats_spec _ _ _ _ _ _ _ Hinit)
    as (Hteams & Havail & _).
  destruct (_count_games_loop_total ids games_of sim_start sim_end
              (distinct (map team roster))) with (acc := @nil (string * Z))
    as [num_games Hcount].
  { intros t Ht. apply (proj1 (distinct_In _ _)) in Ht. apply in_map_iff in Ht.
    destruct Ht as (p & <- & Hp). now apply Hknown. }
  assert (Hlookup : forall t, In t (map team roster) ->
            exists n,
              GDScheduleBDL.get_num_games ids games_of t sim_start sim_end = Ok n /\
              dict_get num_games t = Some n).
  { intros t Ht.
    apply (_count_games_loop_spec ids games_of sim_start sim_end _ [] num_games Hcount).
    now apply distinct_In. }
  assert (Hgames : forall p', In p' roster' ->
                              exists n, dict_get num_games (team p') = Some n).
  { intros p' Hp'. destruct (Hlookup (team p')) as (n & _ & Hn); [| eauto].
    rewrite <- Hteams. now apply in_map. }
  assert (Hnogames : roster' = [] \/ ~ In "games" stat_list).
  { right. intros Hin. apply games_not_available. now apply Hincl. }
  assert (Hbody : forall w0, exists row w1,
             one_run roster' num_games false w0 = (Ok row, w1) /\ True).
  { intros w0.
    destruct (roster_statlines_parametric_total num_games roster' Hall Hgames w0)
      as (lines & w1 & Hlines).
    unfold one_run, bind, ret. rewrite Hlines. eauto. }
  destruct (repeatM_total _ _ Hbody (range_len num_runs) w)
    as (runs & w' & Hruns & _ & _).
  destruct (repeatM_inv _ _ (fun w0 row w2 => one_run_row stat_list num_games
                               false roster' Havail Hnogames w0 row w2)
              _ _ _ _ Hruns) as [_ Hrows].
  assert (Hcount_pos : exists k, games_in_pass num_games roster' = S k).
  { assert (Ht0 : In (team p0) (map team roster)) by now apply in_map.
    destruct (Hlookup _ Ht0) as (n & Hn & Hget).
    pose proof (get_num_games_unfold ids games_of (team p0) sim_start sim_end) as Hspec.
    rewrite Hspec, Hid0 in Hn. injection Hn as <-.
    rewrite <- Hteams in Ht0. apply in_map_iff in Ht0.
    destruct Ht0 as (p' & Hteam & Hp').
    assert (Hle : (range_len (Z.of_nat (List.length (games_of id0 sim_start sim_end)))
                   <= games_in_pass num_games roster')%nat).
    { unfold games_in_pass. apply list_sum_In_le. apply in_map_iff.
      exists p'. split; [| exact Hp']. now rewrite Hteam, Hget. }
    unfold range_len in Hle. rewrite Nat2Z.id in Hle.
    destruct (games_of id0 sim_start sim_end) as [| g gs]; [congruence |].
    cbn [List.length] in Hle.
    destruct (games_in_pass num_games roster') as [| k]; [lia | eauto]. }
  destruct Hcount_pos as [k Hk]. rewrite Hk in Hrows.
  rewrite (keys_built_NoDup _ Hnd), (fold_add_labels_repeat _ _ Hnd) in Hrows.
  unfold generate_stat_totals, bind, lift. rewrite Hinit, Hteams.
  unfold _count_games. rewrite Hcount, Hruns.
  unfold DataFrame_of_rows. destruct runs as [| r0 rs] eqn:Hruns_eq; [eauto |].
  rewrite (list_max_const (S (List.length stat_list))).
  - rewrite length_app. cbn [List.length]. rewrite Nat.add_1_r, Nat.eqb_refl. eauto.
  - discriminate.
  - eapply Forall_impl; [| exact Hrows].
    intros row (body & -> & Hlen). rewrite length_app, Hlen. cbn [List.length]. lia.
Qed.

End ParametricRun.

Lemma generate_stat_totals_parametric_returns_witness :
  exists totals w', sample_run = (Ok totals, w').
Proof.
  apply (generate_stat_totals_parametric_returns
           floor_sqrt sample_get_ids sample_get_data sample_ids sample_games_of
           [sample_player] "2020-01-01" "2020-01-07" ["pts"; "reb"] "2019-10-22"
           3 sample_world).
  - repeat constructor; simpl; intuition discriminate.
  - intros c Hc. simpl in Hc. destruct Hc as [<- | [<- | []]]; simpl; tauto.
  - intros p _. discriminate.
  - intros p Hp. simpl in Hp. destruct Hp as [<- | []]. exists 28%Z. reflexivity.
  - exists sample_player, 28%Z. split; [simpl; auto |].
    split; [reflexivity | discriminate].
Defined.

Lemma dict_keys_set_old {V} (d : dict V) (c : string) (v : V) :
  In c (dict_keys d) -> dict_keys (dict_set d c v) = dict_keys d.
Proof.
  induction d as [| [k x] d IH]; simpl; [tauto |].
  destruct (String.eqb_spec c k) as [-> | Hne]; [reflexivity |].
  intros [H | H]; [congruence |]. simpl. now rewrite IH.
Qed.

Lemma wf_dict_set {V} (d : dict V) (c : string) (v : V) :
  wf_dict d -> wf_dict (dict_set d c v).
Proof.
  unfold wf_dict. intros Hd.
  destruct (in_dec string_dec c (dict_keys d)) as [Hin | Hout].
  - now rewrite dict_keys_set_old.
  - rewrite dict_keys_set_new by exact Hout.
    apply NoDup_app; [exact Hd | repeat constructor; intros [] |].
    intros x Hx [<- | []]. contradiction.
Qed.

Section CountGames.

Variable ids : dict Z.
Variable games_of : Z -> string -> string -> list GDScheduleBDL.game.

Lemma _count_games_loop_wf (start_date end_date : string) (teams : list string) :
  forall acc d,
    wf_dict acc ->
    _count_games_loop ids games_of teams start_date end_date acc = Ok d ->
    wf_dict d.
Proof using ids games_of.
  induction teams as [| t teams IH]; intros acc d Hacc; simpl.
  - intros H. injection H as <-. exact Hacc.
  - destruct (GDScheduleBDL.get_num_games ids games_of t start_date end_date)
      as [n | e]; [| discriminate].
    apply IH. now apply wf_dict_set.
Qed.

Lemma _count_games_lookup (teams : list string) (start_date end_date : string)
    (num_games : dict Z) :
  _count_games ids games_of teams start_date end_date = Ok num_games ->
  forall t, In t teams ->
    exists id,
      dict_get ids (upper t) = Some id /\
      dict_get num_games t
        = Some (Z.of_nat (List.length (games_of id start_date end_date))).
Proof using ids games_of.
  unfold _count_games. intros Hrun t Ht.
  destruct (_count_games_loop_spec ids games_of start_date end_date teams []
              num_games Hrun t) as [Hin _].
  destruct (Hin Ht) as (n & Hn & Hget).
  rewrite get_num_games_unfold in Hn.
  destruct (dict_get ids (upper t)) as [id |]; [| discriminate].
  injection Hn as <-. eauto.
Qed.

(** X15 -- the dict that _count_games returns holds, for each team it
    was given, the number of games the schedule service lists for the
    team's id in the window, and nothing else; no team is held twice. *)
Theorem _count_games_spec (teams : list string) (start_date end_date : string)
    (num_games : dict Z) :
  _count_games ids games_of teams start_date end_date = Ok num_games ->
  (forall t, In t teams ->
     exists id,
       dict_get ids (upper t) = Some id /\
       dict_get num_games t
         = Some (Z.of_nat (List.length (games_of id start_date end_date)))) /\
  (forall t, ~ In t teams -> dict_get num_games t = None) /\
  wf_dict num_games.
Proof using ids games_of.
  unfold _count_games. intros Hrun.
  pose proof (_count_games_loop_spec ids games_of start_date end_date teams []
                num_games Hrun) as Hspec.
  split; [| split].
  - intros t Ht. destruct (Hspec t) as [Hin _].
    destruct (Hin Ht) as (n & Hn & Hget).
    pose proof (get_num_games_unfold ids games_of t start_date end_date) as Hnum.
    rewrite Hnum in Hn.
    destruct (dict_get ids (upper t)) as [id |]; [| discriminate].
    injection Hn as <-. eauto.
  - intros t Ht. destruct (Hspec t) as [_ Hout]. now rewrite (Hout Ht).
  - apply (_count_games_loop_wf start_date end_date teams [] num_games);
      [constructor | exact Hrun].
Qed.

End CountGames.

Lemma _count_games_spec_witness :
  exists id,
    dict_get sample_ids (upper "TOR") = Some id /\
    dict_get [("TOR", 2%Z)] "TOR"
      = Some (Z.of_nat (List.length (sample_games_of id "2020-01-01" "2020-01-07"))).
Proof.
  destruct (_count_games_spec sample_ids sample_games_of ["TOR"]
              "2020-01-01" "2020-01-07" [("TOR", 2%Z)] eq_refl) as [Hin _].
  apply Hin. simpl. auto.
Defined.

Section PlayerNotFound.

Variable np_sqrt : Q -> Q.
Variable _get_ids : string -> string -> list Z.
Variable _get_data : Z -> string -> list GDPlayerBDL.game.
Variable ids : dict Z.
Variable games_of : Z -> string -> string -> list GDScheduleBDL.game.



End PlayerNotFound.


(* ===================================================================== *)
(** ** Players with too little history *)
(* ===================================================================== *)

Lemma nth_all_NaN (l : list pyfloat) (j : nat) :
  (forall x, In x l -> x = NaN) -> nth j l NaN = NaN.
Proof.
  intros H. destruct (nth_in_or_default j l NaN) as [Hin | Hd]; auto.
Qed.

Lemma series_sum_all_NaN (xs : list pyfloat) :
  (forall x, In x xs -> x = NaN) -> series_sum xs = F 0.
Proof.
  intros H. unfold series_sum.
  replace (finite_values xs) with (@nil Q); [reflexivity |].
  induction xs as [| x xs IH]; [reflexivity |].
  rewrite (H x (or_introl eq_refl)). simpl. apply IH.
  intros y Hy. apply H. now right.
Qed.

Lemma map_const_seq {A} (x : A) (n start : nat) :
  map (fun _ => x) (seq start n) = repeat x n.
Proof.
  revert start. induction n as [| n IH]; intros start; simpl;
    [reflexivity | now rewrite IH].
Qed.

Lemma record_cell_all_NaN (record : dict pyfloat) (c : string) :
  (forall k v, dict_get record k = Some v -> v = NaN) ->
  record_cell record c = NaN.
Proof.
  intros H. unfold record_cell.
  destruct (dict_get record c) as [v |] eqn:Hv; [now apply (H c) | reflexivity].
Qed.

Lemma generate_statline_all_NaN (self : Player) (n : Z) (w w' : World)
    (lines : list (dict pyfloat)) :
  (forall c sigma, In c (stats_available self) ->
                   subscript (stdevs self) c = Ok sigma -> sigma = NaN) ->
  generate_statline_all self n false w = (Ok lines, w') ->
  Forall (fun line => forall k v, dict_get line k = Some v -> v = NaN) lines.
Proof.
  intros Hnan. unfold generate_statline_all. cbn [negb]. intros Hrun.
  refine (proj2 (repeatM_inv _ _ _ _ _ _ _ Hrun)).
  intros w0 line w1 Hline. unfold _continuous in Hline.
  apply (_continuous_loop_values self (fun v => v = NaN) (stats_available self))
    with (acc := @nil (string * pyfloat)) (w := w0) (w' := w1);
    [| discriminate | exact Hline].
  intros c mu sigma z Hc _ Hsigma.
  rewrite (Hnan c sigma Hc Hsigma). apply fadd_fmul_NaN.
Qed.

Lemma roster_statlines_NaN (num_games : dict Z) :
  forall roster,
    Forall (fun p => forall c sigma, In c (stats_available p) ->
                       subscript (stdevs p) c = Ok sigma -> sigma = NaN) roster ->
    forall w lines w',
      roster_statlines roster num_games false w = (Ok lines, w') ->
      Forall (fun line => forall k v, dict_get line k = Some v -> v = NaN) lines.
Proof.
  induction roster as [| player rest IH]; intros Hall w lines w'; simpl.
  - unfold ret. intros H. injection H as <- <-. constructor.
  - unfold bind, lift, dict_item.
    destruct (dict_get num_games (team player)) as [n |]; [| discriminate].
    destruct (generate_statline_all player n false w)
      as [[own | e] w1] eqn:Hown; [| discriminate].
    destruct (roster_statlines rest num_games false w1)
      as [[more | e] w2] eqn:Hmore; [| discriminate].
    unfold ret. intros H. injection H as <- <-.
    apply Forall_app. split.
    + exact (generate_statline_all_NaN _ _ _ _ _ (Forall_inv Hall) Hown).
    + exact (IH (Forall_inv_tail Hall) _ _ _ Hmore).
Qed.

(** A run over players whose standard deviations are all NaN sums every
    category to zero. *)
Lemma one_run_row_NaN (stat_list : list string) (num_games : dict Z)
    (roster : list Player) :
  Forall (fun p => stats_available p = stat_list) roster ->
  roster = [] \/ ~ In "games" stat_list ->
  Forall (fun p => forall c sigma, In c (stats_available p) ->
                     subscript (stdevs p) c = Ok sigma -> sigma = NaN) roster ->
  forall w row w',
    one_run roster num_games false w = (Ok row, w') ->
    exists games,
      row = repeat (F 0)
              (List.length
                 (fold_left add_labels
                    (repeat (keys_built stat_list) (games_in_pass num_games roster))
                    []))
            ++ [games].
Proof.
  intros Havail Hgames Hnan w row w'. unfold one_run, bind, ret.
  destruct (roster_statlines roster num_games false w)
    as [[lines | e] w1] eqn:Hlines; [| discriminate].
  intros H. injection H as <- <-.
  pose proof (roster_statlines_keys _ _ _ _ Havail _ _ _ Hlines) as Hkeys.
  pose proof (roster_statlines_NaN _ _ Hnan _ _ _ Hlines) as Hvalues.
  unfold DataFrame_of_records. rewrite Hkeys.
  set (count := games_in_pass num_games roster) in *.
  set (cols := fold_left add_labels (repeat (keys_built stat_list) count) []).
  assert (Hnone : col_index cols "games" = None).
  { apply col_index_None. intros Hin.
    apply In_fold_add_labels in Hin. destruct Hin as [[] | (l & Hl & Hin)].
    unfold count in Hl. destruct Hgames as [Hempty | Hgames].
    - rewrite Hempty in Hl. cbn in Hl. contradiction.
    - apply repeat_spec in Hl. subst l. apply In_keys_built in Hin. auto. }
  unfold df_setitem. cbn [columns rows]. rewrite Hnone.
  unfold df_sum_tolist. cbn [columns rows].
  rewrite length_app. cbn [List.length]. rewrite Nat.add_1_r, seq_S, map_app.
  eexists. apply (f_equal2 (@app pyfloat)); [| reflexivity].
  rewrite <- (map_const_seq (F 0) (List.length cols) 0).
  apply map_ext_in. intros j Hj. apply in_seq in Hj.
  apply series_sum_all_NaN. intros x Hx.
  rewrite !map_map in Hx. apply in_map_iff in Hx.
  destruct Hx as (record & <- & Hrecord). unfold cell.
  rewrite app_nth1 by (rewrite length_map; lia).
  apply nth_all_NaN. intros y Hy. apply in_map_iff in Hy.
  destruct Hy as (c & <- & _). apply record_cell_all_NaN.
  rewrite Forall_forall in Hvalues. now apply Hvalues.
Qed.

Section ShortHistory.

Variable np_sqrt : Q -> Q.
Variable _get_ids : string -> string -> list Z.
Variable _get_data : Z -> string -> list GDPlayerBDL.game.
Variable ids : dict Z.
Variable games_of : Z -> string -> string -> list GDScheduleBDL.game.

Lemma _initiate_player_stats_tables (stat_list : list string) (stat_start : string) :
  forall roster roster',
    _initiate_player_stats np_sqrt _get_ids _get_data roster stat_list stat_start
      = Ok roster' ->
    Forall2 (fun p p' =>
               exists table,
                 GDPlayerBDL.get_stats _get_ids _get_data
                   (full_name p) (team p) stat_list stat_start = Ok table /\
                 set_stats np_sqrt p table = (Ok statistics_set, p'))
            roster roster'.
Proof using np_sqrt _get_ids _get_data.
  induction roster as [| player rest IH]; intros roster'; simpl.
  - intros H. injection H as <-. constructor.
  - destruct (GDPlayerBDL.get_stats _ _ _ _ _ _) as [table | e] eqn:Hget;
      [| discriminate].
    destruct (set_stats_spec np_sqrt player table) as (m & s & Hset & _).
    rewrite Hset.
    destruct (_initiate_player_stats _ _ _ rest _ _) as [rest' | e];
      [| discriminate].
    intros H. injection H as <-. constructor; [| now apply IH].
    exists table. split; [exact Hget | exact Hset].
Qed.

Lemma set_stats_short_history (self self' : Player) (table : DataFrame) :
  set_stats np_sqrt self table = (Ok statistics_set, self') ->
  (List.length (played_rows table) < 2)%nat ->
  forall c sigma, In c (stats_available self') ->
                  subscript (stdevs self') c = Ok sigma -> sigma = NaN.
Proof using np_sqrt.
  intros Hset Hshort.
  destruct (set_stats_spec np_sqrt self table) as (m & s & Hspec & Hms).
  rewrite Hspec in Hset. injection Hset as <-.
  cbn [stats_available stdevs with_distribution with_stats columns].
  intros c sigma Hc Hsigma. destruct (col_index_In _ _ Hc) as [j Hj].
  destruct (Hms c j Hj) as [_ Hs].
  unfold subscript, dict_item in Hsigma. rewrite Hs in Hsigma.
  unfold series_std in Hsigma.
  rewrite series_var_short in Hsigma by (now rewrite length_map).
  now injection Hsigma as <-.
Qed.

(** X17 -- when every player of the roster has fewer than two played
    games on record (so that every standard deviation is NaN), each row
    that the parametric generate_stat_totals returns holds 0 under every
    category: the generated values are all NaN and the sums skip them;
    only the games column is counted. *)
Theorem generate_stat_totals_short_history
    (roster : list Player) (sim_start sim_end : string)
    (stat_list : list string) (stat_start : string) (num_runs : Z)
    (w w' : World) (totals : DataFrame) :
  (forall p table,
     In p roster ->
     GDPlayerBDL.get_stats _get_ids _get_data
       (full_name p) (team p) stat_list stat_start = Ok table ->
     (List.length (played_rows table) < 2)%nat) ->
  generate_stat_totals np_sqrt _get_ids _get_data ids games_of
    roster sim_start sim_end stat_list stat_start num_runs false w
    = (Ok totals, w') ->
  Forall (fun r => exists games,
            r = repeat (F 0) (List.length stat_list) ++ [games])
         (rows totals).
Proof using np_sqrt _get_ids _get_data ids games_of.
  intros Hshort Hrun.
  destruct (generate_stat_totals_inv np_sqrt _get_ids _get_data ids games_of
              _ _ _ _ _ _ _ _ _ _ Hrun)
    as (roster' & num_games & runs & Hinit & _ & Hruns & Hdf).
  destruct (_initiate_player_stats_spec _ _ _ _ _ _ _ Hinit)
    as (Hteams & Havail & Hsub).
  assert (Hgames : roster' = [] \/ ~ In "games" stat_list).
  { destruct roster' as [| p ps]; [now left | right].
    intros Hin. apply games_not_available. apply Hsub; [| exact Hin].
    intros ->. discriminate. }
  assert (Hnan : Forall (fun p => forall c sigma, In c (stats_available p) ->
                           subscript (stdevs p) c = Ok sigma -> sigma = NaN)
                        roster').
  { pose proof (_initiate_player_stats_tables _ _ _ _ Hinit) as HF2.
    clear - HF2 Hshort. induction HF2 as [| p p' ps ps' Hp _ IH]; constructor.
    - destruct Hp as (table & Hget & Hset).
      apply (set_stats_short_history p p' table Hset).
      apply (Hshort p table); [now left | exact Hget].
    - apply IH. intros q table Hq. apply Hshort. now right. }
  set (cols := fold_left add_labels
                 (repeat (keys_built stat_list) (games_in_pass num_games roster'))
                 []) in *.
  assert (Hrows : Forall (fun row => exists games,
                            row = repeat (F 0) (List.length cols) ++ [games]) runs).
  { refine (proj2 (repeatM_inv _ _ _ _ _ _ _ Hruns)).
    intros w0 row w2. now apply one_run_row_NaN. }
  destruct (DataFrame_of_rows_rows _ _ _ Hdf) as (_ & Hrws & Hmax).
  rewrite Hrws. apply Forall_forall. intros r Hr. apply in_map_iff in Hr.
  destruct Hr as (row & <- & Hrow).
  assert (Hne : runs <> []) by (intros ->; contradiction).
  specialize (Hmax Hne).
  assert (Hwidth : list_max (map (@List.length pyfloat) runs)
                   = S (List.length cols)).
  { apply list_max_const; [exact Hne |].
    eapply Forall_impl; [| exact Hrows].
    intros row' (games & ->). rewrite length_app, repeat_length. simpl. lia. }
  rewrite Hwidth, length_app in Hmax. cbn [List.length] in Hmax.
  rewrite Forall_forall in Hrows. destruct (Hrows row Hrow) as (games & ->).
  exists games. unfold pad_row.
  rewrite !length_app, repeat_length. cbn [List.length].
  replace (List.length stat_list + 1 - (List.length cols + 1))%nat with O by lia.
  cbn [repeat]. rewrite app_nil_r.
  replace (List.length cols) with (List.length stat_list) by lia. reflexivity.
Qed.

End ShortHistory.

Lemma generate_stat_totals_short_history_witness :
  exists totals w',
    sample_short_run = (Ok totals, w') /\
    rows totals = [[F 0; F 0; F 2]; [F 0; F 0; F 2]] /\
    Forall (fun r => exists games, r = repeat (F 0) 2 ++ [games]) (rows totals).
Proof.
  remember sample_short_run as run eqn:Hrun.
  destruct run as [[totals | e] w']; [| vm_compute in Hrun; discriminate].
  exists totals, w'. split; [reflexivity |].
  split; [vm_compute in Hrun; now injection Hrun as -> _ |].
  symmetry in Hrun. unfold sample_short_run in Hrun.
  apply (generate_stat_totals_short_history
           floor_sqrt sample_get_ids sample_single_game sample_ids sample_games_of
           [sample_player] "2020-01-01" "2020-01-07" ["pts"; "reb"] "2019-10-22"
           2 sample_world w' totals); [| exact Hrun].
  intros p table [<- | []] Hget. vm_compute in Hget. injection Hget as <-.
  vm_compute. lia.
Defined.

(* ===================================================================== *)
(** ** The player search of the stats provider *)
(* ===================================================================== *)




Section PlayerSearch.

Variable search : string -> list GDPlayerBDL.player.


End PlayerSearch.

(* ===================================================================== *)
(** ** The league provider *)
(* ===================================================================== *)

Lemma is_word_lower_ascii (c : ascii) :
  YahooFantasy.is_word (YahooFantasy.lower_ascii c) = YahooFantasy.is_word c.
Proof. destruct c as [[] [] [] [] [] [] [] []]; reflexivity. Qed.

Lemma lower_ascii_idempotent (c : ascii) :
  YahooFantasy.lower_ascii (YahooFantasy.lower_ascii c) = YahooFantasy.lower_ascii c.
Proof. destruct c as [[] [] [] [] [] [] [] []]; reflexivity. Qed.

Lemma is_word_upper_ascii (c : ascii) :
  YahooFantasy.is_word (upper_ascii c) = YahooFantasy.is_word c.
Proof. destruct c as [[] [] [] [] [] [] [] []]; reflexivity. Qed.

Lemma lower_upper_ascii (c : ascii) :
  YahooFantasy.lower_ascii (upper_ascii c) = YahooFantasy.lower_ascii c.
Proof. destruct c as [[] [] [] [] [] [] [] []]; reflexivity. Qed.

Lemma remove_non_word_app (a b : string) :
  YahooFantasy.remove_non_word (a ++ b)
    = (YahooFantasy.remove_non_word a ++ YahooFantasy.remove_non_word b)%string.
Proof.
  induction a as [| c a IH]; simpl; [reflexivity |].
  destruct (YahooFantasy.is_word c); simpl; now rewrite IH.
Qed.

Lemma remove_non_word_lower (text : string) :
  YahooFantasy.remove_non_word (YahooFantasy.lower text)
    = YahooFantasy.lower (YahooFantasy.remove_non_word text).
Proof.
  induction text as [| c text IH]; simpl; [reflexivity |].
  rewrite is_word_lower_ascii.
  destruct (YahooFantasy.is_word c); simpl; now rewrite IH.
Qed.

Lemma remove_non_word_idempotent (text : string) :
  YahooFantasy.remove_non_word (YahooFantasy.remove_non_word text)
    = YahooFantasy.remove_non_word text.
Proof.
  induction text as [| c text IH]; simpl; [reflexivity |].
  destruct (YahooFantasy.is_word c) eqn:Hc; simpl; [| exact IH].
  now rewrite Hc, IH.
Qed.

Lemma lower_idempotent (text : string) :
  YahooFantasy.lower (YahooFantasy.lower text) = YahooFantasy.lower text.
Proof.
  induction text as [| c text IH]; simpl; [reflexivity |].
  now rewrite lower_ascii_idempotent, IH.
Qed.

Lemma _process_str_upper (text : string) :
  YahooFantasy._process_str (upper text) = YahooFantasy._process_str text.
Proof.
  unfold YahooFantasy._process_str.
  induction text as [| c text IH]; simpl; [reflexivity |].
  rewrite is_word_upper_ascii.
  destruct (YahooFantasy.is_word c); simpl; [| exact IH].
  now rewrite lower_upper_ascii, IH.
Qed.

Lemma _process_str_chars (text : string) (c : ascii) :
  In c (list_ascii_of_string (YahooFantasy._process_str text)) ->
  YahooFantasy.is_word c = true /\ YahooFantasy.lower_ascii c = c.
Proof.
  unfold YahooFantasy._process_str.
  induction text as [| c0 text IH]; simpl; [tauto |].
  destruct (YahooFantasy.is_word c0) eqn:Hc0; simpl; [| exact IH].
  intros [<- | H]; [| now apply IH].
  now rewrite is_word_lower_ascii, lower_ascii_idempotent.
Qed.

(** X19 -- on ASCII text, _process_str yields a key made of lower-case
    letters, digits and underscores only; processing a key again changes
    nothing, and the key of a text does not depend on letter case nor on
    any character that is not a letter, a digit or an underscore. *)
Theorem _process_str_normalises (text : string) :
  YahooFantasy.is_ascii_text text = true ->
  YahooFantasy._process_str (YahooFantasy._process_str text)
    = YahooFantasy._process_str text /\
  YahooFantasy._process_str (upper text) = YahooFantasy._process_str text /\
  (forall a c b,
     text = (a ++ String c b)%string -> YahooFantasy.is_word c = false ->
     YahooFantasy._process_str (a ++ b) = YahooFantasy._process_str text) /\
  (forall c, In c (list_ascii_of_string (YahooFantasy._process_str text)) ->
             YahooFantasy.is_word c = true /\ YahooFantasy.lower_ascii c = c).
Proof.
  intros _. split; [| split; [| split]].
  - unfold YahooFantasy._process_str.
    now rewrite remove_non_word_lower, remove_non_word_idempotent, lower_idempotent.
  - apply _process_str_upper.
  - intros a c b -> Hc. unfold YahooFantasy._process_str.
    rewrite !remove_non_word_app. simpl. now rewrite Hc.
  - apply _process_str_chars.
Qed.

Lemma _process_str_normalises_witness :
  YahooFantasy._process_str (YahooFantasy._process_str "Dunk Dynasty!")
    = YahooFantasy._process_str "Dunk Dynasty!" /\
  YahooFantasy._process_str "Dunk Dynasty!" = "dunkdynasty" /\
  YahooFantasy._process_str (upper "Dunk Dynasty!") = "dunkdynasty".
Proof.
  destruct (_process_str_normalises "Dunk Dynasty!" eq_refl) as (H1 & H2 & _).
  split; [exact H1 |]. split; [reflexivity |]. rewrite H2. reflexivity.
Defined.









(** X22 -- _refresh_access_token works only while the authorization is
    still valid. On an instance that is not authorized it raises
    RuntimeError and changes nothing; on an authorized one it raises
    RuntimeError once the clock has reached the expiration time, and
    then marks the instance as not authorized and clears both times;
    before that time it succeeds, stores the new access token, the
    headers built from it and the new expiration time (the time of the
    request plus expires_in), and keeps the refresh token. *)
Theorem _refresh_access_token_spec
    (self : YahooFantasy.Session) (now_check now_post : Q)
    (content : YahooFantasy.token_json) :
  (YahooFantasy._authorized self = false ->
   YahooFantasy._refresh_access_token self now_check now_post content
     = (YahooFantasy.RuntimeError "No token to refresh", self,
        ["User has not authorized access to league"])) /\
  (forall expiration,
     YahooFantasy._authorized self = true ->
     YahooFantasy._expiration_time self = Some expiration ->
     (expiration <= now_check ->
      exists self',
        YahooFantasy._refresh_access_token self now_check now_post content
          = (YahooFantasy.RuntimeError "No token to refresh", self',
             ["User authorization has expired"]) /\
        YahooFantasy._authorized self' = false /\
        YahooFantasy._authorization_time self' = None /\
        YahooFantasy._expiration_time self' = None /\
        YahooFantasy.access_token self' = YahooFantasy.access_token self /\
        YahooFantasy.refresh_token self' = YahooFantasy.refresh_token self) /\
     (now_check < expiration ->
      exists self',
        YahooFantasy._refresh_access_token self now_check now_post content
          = (YahooFantasy.Returns tt, self', []) /\
        YahooFantasy._authorized self' = true /\
        YahooFantasy.access_token self'
          = Some (YahooFantasy.json_access_token content) /\
        YahooFantasy.refresh_token self' = YahooFantasy.refresh_token self /\
        YahooFantasy._authorization_time self' = Some now_post /\
        YahooFantasy._expiration_time self'
          = Some (Qplus' now_post (YahooFantasy.expires_in content)) /\
        YahooFantasy.headers self'
          = Some (YahooFantasy.bearer_headers
                    (YahooFantasy.json_access_token content)))).
Proof.
  unfold YahooFantasy._refresh_access_token, YahooFantasy._check_authorization.
  split.
  - intros Hoff. rewrite Hoff. reflexivity.
  - intros expiration Hon Hexp. rewrite Hon, Hexp. split.
    + intros Hle. apply Qle_bool_iff in Hle. rewrite Hle.
      eexists. split; [reflexivity |]. cbn. repeat split; reflexivity.
    + intros Hlt.
      destruct (Qle_bool expiration now_check) eqn:Hle.
      * apply Qle_bool_iff in Hle. exfalso. exact (Qlt_not_le _ _ Hlt Hle).
      * eexists. split; [reflexivity |]. cbn. repeat split; try reflexivity.
        exact Hon.
Qed.

(** X23 -- an authorization that has expired is not recovered by
    refreshing: once a refresh has failed on expiry, every later refresh
    raises RuntimeError and leaves the instance as it is, whatever the
    clock and the token endpoint say; and right after authorize, a
    refresh succeeds exactly when the clock is still before the time of
    authorization plus expires_in. *)
Theorem expired_authorization_stays_expired
    (self : YahooFantasy.Session) (code : string) (now : Q)
    (content later_content : YahooFantasy.token_json)
    (now_check now_post later_check later_post : Q) :
  let fresh := YahooFantasy.authorize self code now content in
  let attempt :=
    YahooFantasy._refresh_access_token fresh now_check now_post later_content in
  (now_check < now + YahooFantasy.expires_in content ->
   fst (fst attempt) = YahooFantasy.Returns tt) /\
  (now + YahooFantasy.expires_in content <= now_check ->
   fst (fst attempt) = YahooFantasy.RuntimeError "No token to refresh" /\
   YahooFantasy._refresh_access_token (snd (fst attempt))
     later_check later_post later_content
     = (YahooFantasy.RuntimeError "No token to refresh", snd (fst attempt),
        ["User has not authorized access to league"])).
Proof.
  intros fresh attempt. unfold attempt, fresh.
  unfold YahooFantasy._refresh_access_token, YahooFantasy._check_authorization,
    YahooFantasy.authorize.
  cbn [YahooFantasy._authorized YahooFantasy._expiration_time].
  split.
  - intros Hlt.
    destruct (Qle_bool (Qplus' now (YahooFantasy.expires_in content)) now_check)
      eqn:Hle; [| reflexivity].
    apply Qle_bool_iff in Hle. rewrite Qplus'_correct in Hle.
    exfalso. exact (Qlt_not_le _ _ Hlt Hle).
  - intros Hle. rewrite <- Qplus'_correct in Hle.
    apply Qle_bool_iff in Hle. rewrite Hle. cbn. split; reflexivity.
Qed.

Lemma _refresh_access_token_spec_witness :
  exists self',
    YahooFantasy._refresh_access_token
      (YahooFantasy.authorize YahooFantasy.init "code" 1000 sample_token)
      2000 2001 sample_token
    = (YahooFantasy.Returns tt, self', []) /\
    YahooFantasy._expiration_time self' = Some 5601.
Proof.
  destruct (_refresh_access_token_spec
              (YahooFantasy.authorize YahooFantasy.init "code" 1000 sample_token)
              2000 2001 sample_token) as [_ Hauth].
  destruct (Hauth 4600 eq_refl eq_refl) as [_ Hvalid].
  destruct Hvalid as (self' & Hrun & _ & _ & _ & _ & Hexp & _).
  - unfold Qlt. simpl. lia.
  - exists self'. split; [exact Hrun |]. rewrite Hexp. reflexivity.
Defined.

Lemma expired_authorization_stays_expired_witness :
  let fresh := YahooFantasy.authorize YahooFantasy.init "code" 1000 sample_token in
  let attempt := YahooFantasy._refresh_access_token fresh 4600 4601 sample_token in
  fst (fst attempt) = YahooFantasy.RuntimeError "No token to refresh" /\
  YahooFantasy._refresh_access_token (snd (fst attempt)) 0 1 sample_token
    = (YahooFantasy.RuntimeError "No token to refresh", snd (fst attempt),
       ["User has not authorized access to league"]).
Proof.
  apply (expired_authorization_stays_expired
           YahooFantasy.init "code" 1000 sample_token sample_token 4600 4601 0 1).
  unfold Qle. simpl. lia.
Defined.

(* ===================================================================== *)
(** ** Simulating with the bootstrap policy *)
(* ===================================================================== *)

Lemma Forall2_In_l {A B} (R : A -> B -> Prop) (l : list A) (l' : list B) (x : A) :
  Forall2 R l l' -> In x l -> exists y, In y l' /\ R x y.
Proof.
  induction 1 as [| a b l l' Hab _ IH]; intros Hx; [destruct Hx |].
  destruct Hx as [<- | Hx].
  - exists b. split; [now left | exact Hab].
  - destruct (IH Hx) as (y & Hy & HR). exists y. split; [now right | exact HR].
Qed.

Lemma Forall2_In_r {A B} (R : A -> B -> Prop) (l : list A) (l' : list B) (y : B) :
  Forall2 R l l' -> In y l' -> exists x, In x l /\ R x y.
Proof.
  induction 1 as [| a b l l' Hab _ IH]; intros Hy; [destruct Hy |].
  destruct Hy as [<- | Hy].
  - exists a. split; [now left | exact Hab].
  - destruct (IH Hy) as (x & Hx & HR). exists x. split; [now right | exact HR].
Qed.

Lemma generate_statline_all_bootstrap_total (self : Player) (table : DataFrame) :
  stats self = Some table -> stats_available self = columns table ->
  rows table <> [] ->
  forall n w, exists lines w',
    generate_statline_all self n true w = (Ok lines, w').
Proof.
  intros Hstats Havail Hrows n w. unfold generate_statline_all. cbn [negb].
  destruct (col_indices_total (columns table) (columns table) (incl_refl _))
    as [js Hjs].
  destruct (repeatM_total (_bootstrap self (stats_available self)) (fun _ => True))
    with (n := range_len n) (w := w) as (lines & w' & Hrun & _).
  - intros w0. rewrite Havail.
    destruct (_bootstrap_ok self table (columns table) js w0 Hstats Hjs Hrows)
      as (r & w1 & Hline & _).
    eexists. exists w1. split; [exact Hline | exact I].
  - eauto.
Qed.

Lemma generate_statline_all_bootstrap_empty (self : Player) (table : DataFrame) :
  stats self = Some table -> stats_available self = columns table ->
  rows table = [] ->
  forall k w, exists msg,
    generate_statline_all self (Z.of_nat (S k)) true w = (Raise (ValueError msg), w).
Proof.
  intros Hstats Havail Hrows k w.
  destruct (col_indices_total (columns table) (columns table) (incl_refl _))
    as [js Hjs].
  unfold generate_statline_all, range_len. cbn [negb]. rewrite Nat2Z.id.
  cbn [repeatM]. unfold bind at 1. unfold _bootstrap. rewrite Hstats, Havail.
  unfold bind, lift, df_getitem_list. rewrite Hjs.
  unfold df_sample. cbn [rows columns]. rewrite Hrows. cbn [map].
  eexists. reflexivity.
Qed.

Lemma roster_statlines_bootstrap_total (num_games : dict Z) :
  forall roster,
    Forall (fun p => exists table,
              stats p = Some table /\ stats_available p = columns table /\
              rows table <> []) roster ->
    (forall p, In p roster -> exists n, dict_get num_games (team p) = Some n) ->
    forall w, exists lines w',
      roster_statlines roster num_games true w = (Ok lines, w').
Proof.
  induction roster as [| player rest IH]; intros Hall Hgames w; simpl.
  - unfold ret. eauto.
  - destruct (Hgames player (or_introl eq_refl)) as [n Hn].
    destruct (Forall_inv Hall) as (table & Hstats & Havail & Hrows).
    destruct (generate_statline_all_bootstrap_total player table Hstats Havail Hrows
                n w) as (own & w1 & Hown).
    destruct (IH (Forall_inv_tail Hall) (fun p H => Hgames p (or_intror H)) w1)
      as (more & w2 & Hmore).
    unfold bind, lift, dict_item. rewrite Hn, Hown, Hmore. unfold ret. eauto.
Qed.

Lemma roster_statlines_bootstrap_fails (num_games : dict Z) :
  forall roster,
    Forall (fun p => exists table,
              stats p = Some table /\ stats_available p = columns table) roster ->
    (forall p, In p roster -> exists n, dict_get num_games (team p) = Some n) ->
    (exists p table k,
       In p roster /\ stats p = Some table /\ rows table = [] /\
       dict_get num_games (team p) = Some (Z.of_nat (S k))) ->
    forall w, exists msg w',
      roster_statlines roster num_games true w = (Raise (ValueError msg), w').
Proof.
  induction roster as [| player rest IH];
    intros Hall Hgames (bad & btable & k & Hbad & Hbstats & Hbrows & Hbn) w;
    [destruct Hbad |].
  simpl. unfold bind, lift, dict_item.
  destruct (Hgames player (or_introl eq_refl)) as [n Hn]. rewrite Hn.
  destruct (Forall_inv Hall) as (table & Hstats & Havail).
  destruct (rows table) as [| r0 rs] eqn:Hrows.
  - destruct (range_len n) as [| j] eqn:Hlen.
    + (* no game for this player: nothing is drawn for it *)
      assert (Hown : generate_statline_all player n true w = (Ok [], w)).
      { unfold generate_statline_all. cbn [negb]. now rewrite Hlen. }
      rewrite Hown.
      assert (Hin : In bad rest).
      { destruct Hbad as [<- | Hin]; [| exact Hin].
        rewrite Hn in Hbn. injection Hbn as Hbn.
        unfold range_len in Hlen. lia. }
      destruct (IH (Forall_inv_tail Hall) (fun p H => Hgames p (or_intror H))
                  (ex_intro _ bad (ex_intro _ btable (ex_intro _ k
                     (conj Hin (conj Hbstats (conj Hbrows Hbn)))))) w)
        as (msg & w' & Hrun).
      rewrite Hrun. eauto.
    + assert (Hn' : n = Z.of_nat (S j)) by (unfold range_len in Hlen; lia).
      rewrite Hn'.
      destruct (generate_statline_all_bootstrap_empty player table Hstats Havail
                  Hrows j w) as [msg Hown].
      rewrite Hown. eauto.
  - assert (Hne : rows table <> []) by (rewrite Hrows; discriminate).
    destruct (generate_statline_all_bootstrap_total player table Hstats Havail Hne
                n w) as (own & w1 & Hown).
    rewrite Hown.
    assert (Hin : In bad rest).
    { destruct Hbad as [<- | Hin]; [| exact Hin].
      rewrite Hstats in Hbstats. injection Hbstats as <-. congruence. }
    destruct (IH (Forall_inv_tail Hall) (fun p H => Hgames p (or_intror H))
                (ex_intro _ bad (ex_intro _ btable (ex_intro _ k
                   (conj Hin (conj Hbstats (conj Hbrows Hbn)))))) w1)
      as (msg & w' & Hrun).
    rewrite Hrun. eauto.
Qed.

Lemma games_in_pass_positive (num_games : dict Z) (roster : list Player)
    (p : Player) (j : nat) :
  In p roster -> dict_get num_games (team p) = Some (Z.of_nat (S j)) ->
  exists k, games_in_pass num_games roster = S k.
Proof.
  intros Hp Hn.
  assert (Hle : (S j <= games_in_pass num_games roster)%nat).
  { unfold games_in_pass. apply list_sum_In_le. apply in_map_iff.
    exists p. split; [| exact Hp]. rewrite Hn. unfold range_len. lia. }
  destruct (games_in_pass num_games roster) as [| k]; [lia | eauto].
Qed.

Section BootstrapRun.

Variable np_sqrt : Q -> Q.
Variable _get_ids : string -> string -> list Z.
Variable _get_data : Z -> string -> list GDPlayerBDL.game.
Variable ids : dict Z.
Variable games_of : Z -> string -> string -> list GDScheduleBDL.game.

Lemma set_stats_table (self self' : Player) (table : DataFrame) :
  set_stats np_sqrt self table = (Ok statistics_set, self') ->
  stats self' = Some (mkDataFrame (columns table) (played_rows table)) /\
  stats_available self' = columns table /\
  team self' = team self.
Proof using np_sqrt.
  intros Hset.
  destruct (set_stats_spec np_sqrt self table) as (m & s & Hspec & _).
  rewrite Hspec in Hset. injection Hset as <-. repeat split.
Qed.

(** When every run can collect its statlines, the totals are returned. *)
Lemma generate_stat_totals_assembles
    (roster roster' : list Player) (sim_start sim_end : string)
    (stat_list : list string) (stat_start : string) (num_games : dict Z)
    (bootstrap : bool) :
  NoDup stat_list ->
  incl stat_list GDPlayerBDL.stats_available ->
  _initiate_player_stats np_sqrt _get_ids _get_data roster stat_list stat_start
    = Ok roster' ->
  _count_games ids games_of (distinct (map team roster)) sim_start sim_end
    = Ok num_games ->
  (exists k, games_in_pass num_games roster' = S k) ->
  (forall w0, exists lines w1,
     roster_statlines roster' num_games bootstrap w0 = (Ok lines, w1)) ->
  forall num_runs w, exists totals w',
    generate_stat_totals np_sqrt _get_ids _get_data ids games_of
      roster sim_start sim_end stat_list stat_start num_runs bootstrap w
    = (Ok totals, w').
Proof using np_sqrt _get_ids _get_data ids games_of.
  intros Hnd Hincl Hinit Hcount [k Hk] Hlines num_runs w.
  destruct (_initiate_player_stats_spec _ _ _ _ _ _ _ Hinit)
    as (Hteams & Havail & _).
  assert (Hnogames : roster' = [] \/ ~ In "games" stat_list).
  { right. intros Hin. apply games_not_available. now apply Hincl. }
  assert (Hbody : forall w0, exists row w1,
             one_run roster' num_games bootstrap w0 = (Ok row, w1) /\ True).
  { intros w0. destruct (Hlines w0) as (lines & w1 & Hrun).
    unfold one_run, bind, ret. rewrite Hrun. eauto. }
  destruct (repeatM_total _ _ Hbody (range_len num_runs) w)
    as (runs & w' & Hruns & _ & _).
  destruct (repeatM_inv _ _ (fun w0 row w2 => one_run_row stat_list num_games
                               bootstrap roster' Havail Hnogames w0 row w2)
              _ _ _ _ Hruns) as [_ Hrows].
  rewrite Hk in Hrows.
  rewrite (keys_built_NoDup _ Hnd), (fold_add_labels_repeat _ _ Hnd) in Hrows.
  unfold generate_stat_totals, bind, lift. rewrite Hinit, Hteams.
  rewrite Hcount, Hruns.
  unfold DataFrame_of_rows. destruct runs as [| r0 rs] eqn:Hruns_eq; [eauto |].
  rewrite (list_max_const (S (List.length stat_list))).
  - rewrite length_app. cbn [List.length]. rewrite Nat.add_1_r, Nat.eqb_refl. eauto.
  - discriminate.
  - eapply Forall_impl; [| exact Hrows].
    intros row (body & -> & Hlen). rewrite length_app, Hlen. cbn [List.length]. lia.
Qed.

(** X24 -- generate_stat_totals with the bootstrap policy returns a
    frame of totals whenever the requested categories are distinct stats
    the provider offers, the history of every player is found and holds
    at least one game that is not all zero, every team is known to the
    schedule, and at least one player has a game in the window. *)
Theorem generate_stat_totals_bootstrap_returns
    (roster : list Player) (sim_start sim_end : string)
    (stat_list : list string) (stat_start : string) (num_runs : Z) (w : World) :
  NoDup stat_list ->
  incl stat_list GDPlayerBDL.stats_available ->
  (forall p, In p roster -> _get_ids (full_name p) (upper (team p)) <> []) ->
  (forall p table,
     In p roster ->
     GDPlayerBDL.get_stats _get_ids _get_data
       (full_name p) (team p) stat_list stat_start = Ok table ->
     played_rows table <> []) ->
  (forall p, In p roster -> exists id, dict_get ids (upper (team p)) = Some id) ->
  (exists p id,
     In p roster /\ dict_get ids (upper (team p)) = Some id /\
     games_of id sim_start sim_end <> []) ->
  exists totals w',
    generate_stat_totals np_sqrt _get_ids _get_data ids games_of
      roster sim_start sim_end stat_list stat_start num_runs true w
    = (Ok totals, w').
Proof using np_sqrt _get_ids _get_data ids games_of.
  intros Hnd Hincl Hids Hplayed Hknown (p0 & id0 & Hp0 & Hid0 & Hplays).
  destruct (_initiate_player_stats_total np_sqrt _get_ids _get_data
              stat_list stat_start Hincl roster Hids) as (roster' & Hinit & _).
  pose proof (_initiate_player_stats_tables _ _ _ _ _ _ _ Hinit) as Htables.
  destruct (_count_games_loop_total ids games_of sim_start sim_end
              (distinct (map team roster))) with (acc := @nil (string * Z))
    as [num_games Hcount].
  { intros t Ht. apply (proj1 (distinct_In _ _)) in Ht. apply in_map_iff in Ht.
    destruct Ht as (p & <- & Hp). now apply Hknown. }
  pose proof (_count_games_lookup ids games_of _ _ _ _ Hcount) as Hlookup.
  assert (Hteam : forall p', In p' roster' ->
            exists p table,
              In p roster /\ team p' = team p /\
              GDPlayerBDL.get_stats _get_ids _get_data
                (full_name p) (team p) stat_list stat_start = Ok table /\
              stats p' = Some (mkDataFrame (columns table) (played_rows table)) /\
              stats_available p' = columns table).
  { intros p' Hp'.
    destruct (Forall2_In_r _ _ _ _ Htables Hp') as (p & Hp & table & Hget & Hset).
    destruct (set_stats_table _ _ _ Hset) as (Hst & Hav & Htm).
    exists p, table. repeat split; assumption. }
  apply (generate_stat_totals_assembles roster roster' sim_start sim_end
           stat_list stat_start num_games true Hnd Hincl Hinit Hcount).
  - destruct (Forall2_In_l _ _ _ _ Htables Hp0) as (p' & Hp' & table & _ & Hset).
    destruct (set_stats_table _ _ _ Hset) as (_ & _ & Htm).
    destruct (Hlookup (team p0)) as (id & Hid & Hn).
    { apply distinct_In. now apply in_map. }
    rewrite Hid0 in Hid. injection Hid as <-.
    destruct (games_of id0 sim_start sim_end) as [| g gs]; [congruence |].
    apply (games_in_pass_positive num_games roster' p' (List.length gs) Hp').
    now rewrite Htm, Hn.
  - apply roster_statlines_bootstrap_total.
    + apply Forall_forall. intros p' Hp'.
      destruct (Hteam p' Hp') as (p & table & Hp & _ & Hget & Hst & Hav).
      eexists. split; [exact Hst |]. split; [exact Hav |].
      cbn [rows]. now apply (Hplayed p table).
    + intros p' Hp'. destruct (Hteam p' Hp') as (p & table & Hp & Htm & _).
      destruct (Hlookup (team p)) as (id & _ & Hn).
      { apply distinct_In. now apply in_map. }
      rewrite Htm. eauto.
Qed.

(** X25 -- with the bootstrap policy, one player whose fetched history
    holds no game that is not all zero, and whose team has a game in the
    window, makes generate_stat_totals raise a ValueError in its first
    run (when the history of every player is found and every team is
    known): such a player is not skipped. *)
Theorem generate_stat_totals_bootstrap_needs_played_rows
    (roster : list Player) (sim_start sim_end : string)
    (stat_list : list string) (stat_start : string) (runs : positive) (w : World) :
  incl stat_list GDPlayerBDL.stats_available ->
  (forall p, In p roster -> _get_ids (full_name p) (upper (team p)) <> []) ->
  (forall p, In p roster -> exists id, dict_get ids (upper (team p)) = Some id) ->
  (exists p table id,
     In p roster /\
     GDPlayerBDL.get_stats _get_ids _get_data
       (full_name p) (team p) stat_list stat_start = Ok table /\
     (forall r, In r (rows table) -> all_zero r) /\
     dict_get ids (upper (team p)) = Some id /\
     games_of id sim_start sim_end <> []) ->
  exists msg w',
    generate_stat_totals np_sqrt _get_ids _get_data ids games_of
      roster sim_start sim_end stat_list stat_start (Zpos runs) true w
    = (Raise (ValueError msg), w').
Proof using np_sqrt _get_ids _get_data ids games_of.
  intros Hincl Hids Hknown (p0 & table0 & id0 & Hp0 & Hget0 & Hzero & Hid0 & Hplays).
  destruct (_initiate_player_stats_total np_sqrt _get_ids _get_data
              stat_list stat_start Hincl roster Hids) as (roster' & Hinit & _).
  pose proof (_initiate_player_stats_tables _ _ _ _ _ _ _ Hinit) as Htables.
  destruct (_initiate_player_stats_spec _ _ _ _ _ _ _ Hinit) as (Hteams & _ & _).
  destruct (_count_games_loop_total ids games_of sim_start sim_end
              (distinct (map team roster))) with (acc := @nil (string * Z))
    as [num_games Hcount].
  { intros t Ht. apply (proj1 (distinct_In _ _)) in Ht. apply in_map_iff in Ht.
    destruct Ht as (p & <- & Hp). now apply Hknown. }
  pose proof (_count_games_lookup ids games_of _ _ _ _ Hcount) as Hlookup.
  assert (Hfail : forall w0, exists msg w1,
             roster_statlines roster' num_games true w0
               = (Raise (ValueError msg), w1)).
  { apply roster_statlines_bootstrap_fails.
    - apply Forall_forall. intros p' Hp'.
      destruct (Forall2_In_r _ _ _ _ Htables Hp') as (p & Hp & table & Hget & Hset).
      destruct (set_stats_table _ _ _ Hset) as (Hst & Hav & _).
      eexists. split; [exact Hst | exact Hav].
    - intros p' Hp'.
      destruct (Forall2_In_r _ _ _ _ Htables Hp') as (p & Hp & table & Hget & Hset).
      destruct (set_stats_table _ _ _ Hset) as (_ & _ & Htm).
      destruct (Hlookup (team p)) as (id & _ & Hn).
      { apply distinct_In. now apply in_map. }
      rewrite Htm. eauto.
    - destruct (Forall2_In_l _ _ _ _ Htables Hp0) as (p' & Hp' & table & Hget & Hset).
      rewrite Hget0 in Hget. injection Hget as <-.
      destruct (set_stats_table _ _ _ Hset) as (Hst & _ & Htm).
      destruct (Hlookup (team p0)) as (id & Hid & Hn).
      { apply distinct_In. now apply in_map. }
      rewrite Hid0 in Hid. injection Hid as <-.
      destruct (games_of id0 sim_start sim_end) as [| g gs]; [congruence |].
      exists p'. eexists. exists (List.length gs).
      split; [exact Hp' |]. split; [exact Hst |].
      split; [cbn [rows]; now apply played_rows_nil |].
      now rewrite Htm, Hn. }
  unfold generate_stat_totals, bind, lift, _count_games.
  rewrite Hinit, Hteams, Hcount.
  unfold range_len. cbn [Z.to_nat]. destruct (Pos2Nat.is_succ runs) as [j ->].
  cbn [repeatM]. unfold bind at 1. unfold one_run at 1. unfold bind at 1.
  destruct (Hfail w) as (msg & w1 & Hrun). rewrite Hrun. eauto.
Qed.

End BootstrapRun.

Lemma generate_stat_totals_bootstrap_returns_witness :
  exists totals w',
    generate_stat_totals floor_sqrt sample_get_ids sample_get_data
      sample_ids sample_games_of
      [sample_player] "2020-01-01" "2020-01-07" ["pts"; "reb"] "2019-10-22"
      3 true sample_world
    = (Ok totals, w').
Proof.
  apply (generate_stat_totals_bootstrap_returns
           floor_sqrt sample_get_ids sample_get_data sample_ids sample_games_of
           [sample_player] "2020-01-01" "2020-01-07" ["pts"; "reb"] "2019-10-22"
           3 sample_world).
  - repeat constructor; simpl; intuition discriminate.
  - intros c Hc. simpl in Hc. destruct Hc as [<- | [<- | []]]; simpl; tauto.
  - intros p _. discriminate.
  - intros p table [<- | []] Hget. vm_compute in Hget. injection Hget as <-.
    vm_compute. discriminate.
  - intros p Hp. simpl in Hp. destruct Hp as [<- | []]. exists 28%Z. reflexivity.
  - exists sample_player, 28%Z. split; [simpl; auto |].
    split; [reflexivity | discriminate].
Defined.

Lemma generate_stat_totals_bootstrap_needs_played_rows_witness :
  exists msg w',
    generate_stat_totals floor_sqrt sample_get_ids sample_idle_data
      sample_ids sample_games_of
      [sample_player] "2020-01-01" "2020-01-07" ["pts"; "reb"] "2019-10-22"
      3 true sample_world
    = (Raise (ValueError msg), w').
Proof.
  apply (generate_stat_totals_bootstrap_needs_played_rows
           floor_sqrt sample_get_ids sample_idle_data sample_ids sample_games_of
           [sample_player] "2020-01-01" "2020-01-07" ["pts"; "reb"] "2019-10-22"
           3 sample_world).
  - intros c Hc. simpl in Hc. destruct Hc as [<- | [<- | []]]; simpl; tauto.
  - intros p _. discriminate.
  - intros p Hp. simpl in Hp. destruct Hp as [<- | []]. exists 28%Z. reflexivity.
  - exists sample_player. eexists. exists 28%Z.
    split; [simpl; auto |]. split; [reflexivity |].
    split; [| split; [reflexivity | discriminate]].
    intros r Hr. apply existsb_fne0_false.
    simpl in Hr. destruct Hr as [<- | [<- | []]]; reflexivity.
Defined.

(* ===================================================================== *)
(** ** Words and dates *)
(* ===================================================================== *)

Lemma before_T_app (d rest : string) :
  (forall c, In c (list_ascii_of_string d) -> c <> "T"%char) ->
  before_T (d ++ String "T" rest) = d.
Proof.
  induction d as [| c d IH]; intros Hd; simpl; [reflexivity |].
  destruct (Ascii.eqb_spec c "T") as [-> | _].
  - exfalso. apply (Hd "T"%char); [now left | reflexivity].
  - rewrite IH; [reflexivity |]. intros c' Hc'. apply Hd. now right.
Qed.

Lemma before_T_whole (d : string) :
  (forall c, In c (list_ascii_of_string d) -> c <> "T"%char) -> before_T d = d.
Proof.
  induction d as [| c d IH]; intros Hd; simpl; [reflexivity |].
  destruct (Ascii.eqb_spec c "T") as [-> | _].
  - exfalso. apply (Hd "T"%char); [now left | reflexivity].
  - rewrite IH; [reflexivity |]. intros c' Hc'. apply Hd. now right.
Qed.

Lemma last_word_from_app (a b word : string) :
  (forall c, In c (list_ascii_of_string b) -> c <> " "%char) ->
  GDPlayerBDL.last_word_from word (a ++ String " " b) = b.
Proof.
  intros Hb. revert word. induction a as [| c a IH]; intros word; simpl.
  - clear word. 
    assert (H : forall word, GDPlayerBDL.last_word_from word b = (word ++ b)%string).
    { induction b as [| c b IHb]; intros word; simpl.
      - clear. induction word as [| c w IHw]; simpl; [reflexivity | now rewrite <- IHw].
      - destruct (Ascii.eqb_spec c " ") as [-> | _].
        + exfalso. apply (Hb " "%char); [now left | reflexivity].
        + rewrite IHb by (intros c' Hc'; apply Hb; now right).
          clear. induction word as [| c' w IHw]; simpl; [reflexivity | now rewrite IHw]. }
    apply (H EmptyString).
  - destruct (Ascii.eqb c " "); apply IH.
Qed.

(** X26 -- the date of a schedule entry and the word of the fallback
    search are cut as meant: what precedes the first 'T' of a timestamp
    whose date part holds no 'T' is that date part (a text without 'T'
    is kept whole), and the last blank-separated word of a name is what
    follows its last blank. *)
Theorem date_and_last_word (d rest first last : string) :
  (forall c, In c (list_ascii_of_string d) -> c <> "T"%char) ->
  (forall c, In c (list_ascii_of_string last) -> c <> " "%char) ->
  before_T (d ++ String "T" rest) = d /\
  before_T d = d /\
  GDPlayerBDL.last_word (first ++ String " " last) = last /\
  GDPlayerBDL.last_word last = last.
Proof.
  intros Hd Hlast. split; [now apply before_T_app |].
  split; [now apply before_T_whole |].
  split; [now apply last_word_from_app |].
  unfold GDPlayerBDL.last_word. clear Hd.
  assert (H : forall word,
             GDPlayerBDL.last_word_from word last = (word ++ last)%string).
  { induction last as [| c b IHb]; intros word; simpl.
    - clear. induction word as [| c w IHw]; simpl; [reflexivity | now rewrite <- IHw].
    - destruct (Ascii.eqb_spec c " ") as [-> | _].
      + exfalso. apply (Hlast " "%char); [now left | reflexivity].
      + rewrite IHb by (intros c' Hc'; apply Hlast; now right).
        clear. induction word as [| c' w IHw]; simpl;
          [reflexivity | now rewrite IHw]. }
  apply (H EmptyString).
Qed.

Lemma date_and_last_word_witness :
  before_T "2020-01-02T00:00:00.000Z" = "2020-01-02" /\
  GDPlayerBDL.last_word "Kyle Lowry" = "Lowry".
Proof.
  destruct (date_and_last_word "2020-01-02" "00:00:00.000Z" "Kyle" "Lowry")
    as (Hdate & _ & Hword & _).
  - intros c Hc. simpl in Hc.
    repeat (destruct Hc as [<- | Hc]; [discriminate |]). destruct Hc.
  - intros c Hc. simpl in Hc.
    repeat (destruct Hc as [<- | Hc]; [discriminate |]). destruct Hc.
  - split; [exact Hdate | exact Hword].
Defined.
